(** * VortexL2 port-forward management (vortexl2/forward.py)

    A shallow embedding of [ForwardManager] and of the Python built-ins it
    relies on, followed by the properties of the reconciliation engine.

    Conventions of the embedding.
    - A Python [str] is a [string]; an [ascii] stands for the code point of
      the same number (U+0000 to U+00FF), and the character classes below are
      the interpreter's tables for exactly that range.
    - A Python [int] is a [Z].  The interpreter is CPython 3.11 with its
      default settings: [int] refuses a literal of more than 4300 digits.
      A port is an integer as [int] yields them, of at most 4300 digits, which
      [str] and the f-strings print; [Py.str_int] is the decimal text.
    - The operating system (sub-processes, the unit directory) is an abstract
      host, see [Host]; every call that acts on it, and every change of
      declared state, is recorded in a log.
    - Exceptions are values: a call of the manager returns or raises, see
      [outcome].  [run_command], the unlink and the write of a unit file
      catch every exception themselves; [Path.exists] is called outside any
      handler and re-raises the [OSError] of a failed probe. *)

From Stdlib Require Import String Ascii List ZArith NArith Bool Lia.
From Stdlib Require Import DecimalString DecimalPos.
Import ListNotations.

Local Open Scope string_scope.
Local Open Scope Z_scope.

(** ** Python built-ins on [str] *)

Module Py.

Definition code (c : ascii) : N := N_of_ascii c.

Definition between (lo hi : N) (c : ascii) : bool :=
  (N.leb lo (code c) && N.leb (code c) hi)%bool.

(** [str.isspace] on one character. *)
Definition isspace (c : ascii) : bool :=
  (between 9 13 c || between 28 32 c
   || N.eqb (code c) 133 || N.eqb (code c) 160)%bool.

(** [str.isalnum] on one character. *)
Definition isalnum (c : ascii) : bool :=
  (between 48 57 c || between 65 90 c || between 97 122 c
   || N.eqb (code c) 170 || between 178 179 c || N.eqb (code c) 181
   || between 185 186 c || between 188 190 c
   || between 192 214 c || between 216 246 c || between 248 255 c)%bool.

(** The lower-case mapping of one character. *)
Definition lower_char (c : ascii) : ascii :=
  if (between 65 90 c || between 192 214 c || between 216 222 c)%bool
  then ascii_of_N (code c + 32)
  else c.

(** [s.lower()] *)
Fixpoint lower (s : string) : string :=
  match s with
  | EmptyString => EmptyString
  | String c r => String (lower_char c) (lower r)
  end.

Definition is_empty (s : string) : bool :=
  match s with EmptyString => true | String _ _ => false end.

(** Does the first, respectively the last, character satisfy [p]? *)
Definition starts_with (p : ascii -> bool) (s : string) : bool :=
  match s with EmptyString => false | String c _ => p c end.

Fixpoint ends_with (p : ascii -> bool) (s : string) : bool :=
  match s with
  | EmptyString => false
  | String c r => if is_empty r then p c else ends_with p r
  end.

Fixpoint all_chars (p : ascii -> bool) (s : string) : bool :=
  match s with
  | EmptyString => true
  | String c r => (p c && all_chars p r)%bool
  end.

(** [s.lstrip(...)], the stripped set given as a predicate. *)
Fixpoint lstrip (p : ascii -> bool) (s : string) : string :=
  match s with
  | EmptyString => EmptyString
  | String c r => if p c then lstrip p r else s
  end.

(** [s.rstrip(...)] *)
Fixpoint rstrip (p : ascii -> bool) (s : string) : string :=
  match s with
  | EmptyString => EmptyString
  | String c r =>
      let r' := rstrip p r in
      if (is_empty r' && p c)%bool then EmptyString else String c r'
  end.

Definition strip_with (p : ascii -> bool) (s : string) : string :=
  rstrip p (lstrip p s).

(** [s.strip()] *)
Definition strip (s : string) : string := strip_with isspace s.

Definition is_char (a c : ascii) : bool := Ascii.eqb a c.

(** [s.strip(chars)] *)
Definition strip_chars (chars : string) (s : string) : string :=
  strip_with (fun c => existsb (is_char c) (list_ascii_of_string chars)) s.

(** [sep.join(parts)] *)
Definition join (sep : string) (parts : list string) : string :=
  String.concat sep parts.

(** [s.split(",")]: never the empty list. *)
Fixpoint split_comma (s : string) : list string :=
  match s with
  | EmptyString => [EmptyString]
  | String c r =>
      if is_char "," c then EmptyString :: split_comma r
      else match split_comma r with
           | p :: ps => String c p :: ps
           | [] => [String c EmptyString]
           end
  end.

(** [str(n)] and [f"{n}"] for an [int]. *)
Definition str_int (n : Z) : string := NilZero.string_of_int (Z.to_int n).

(** The value of an ASCII decimal digit. *)
Definition digit_value (c : ascii) : option Z :=
  if between 48 57 c then Some (Z.of_N (code c) - 48) else None.

(** The digits of a decimal literal: single underscores are allowed between
    digits, [prev_us] records that the previous character was one. *)
Fixpoint int_digits (acc : Z) (prev_us : bool) (s : string) : option Z :=
  match s with
  | EmptyString => if prev_us then None else Some acc
  | String c r =>
      if is_char "_" c then
        if prev_us then None else int_digits acc true r
      else
        match digit_value c with
        | Some d => int_digits (10 * acc + d) false r
        | None => None
        end
  end.

(** [sys.get_int_max_str_digits()] *)
Definition int_max_str_digits : N := 4300.

(** The number of digits of a literal; underscores do not count. *)
Fixpoint count_digits (s : string) : N :=
  match s with
  | EmptyString => 0
  | String c r =>
      ((if between 48 57 c then 1 else 0) + count_digits r)%N
  end.

(** The literal after the sign: it starts with a digit and has no more
    digits than the cap allows. *)
Definition int_magnitude (s : string) : option Z :=
  match s with
  | EmptyString => None
  | String c _ =>
      if is_char "_" c then None
      else if N.ltb int_max_str_digits (count_digits s) then None
      else int_digits 0 false s
  end.

(** The blanks that [int] skips around a literal: the ASCII ones and the
    two non-ASCII spaces of the range. *)
Definition int_isspace (c : ascii) : bool :=
  (between 9 13 c || N.eqb (code c) 32
   || N.eqb (code c) 133 || N.eqb (code c) 160)%bool.

(** [int(s)] for a [str] in base 10; [None] stands for [ValueError]. *)
Definition int (s : string) : option Z :=
  match strip_with int_isspace s with
  | String c r =>
      if is_char "+" c then int_magnitude r
      else if is_char "-" c then option_map Z.opp (int_magnitude r)
      else int_magnitude (String c r)
  | EmptyString => None
  end.

(** [re.sub(r"-+", "-", s)]: every maximal run of dashes becomes one dash;
    a dash followed by a dash is dropped, the last one of a run is kept. *)
Fixpoint collapse_dashes (s : string) : string :=
  match s with
  | EmptyString => EmptyString
  | String c r =>
      if (is_char "-" c && starts_with (is_char "-") r)%bool
      then collapse_dashes r
      else String c (collapse_dashes r)
  end.

End Py.

(** ** Unit names *)

(** A configuration attribute as [getattr] sees it. *)
Inductive attr : Type :=
| Missing
| PyNone
| PyStr (s : string).

(** [getattr(config, name, default)] for a string default. *)
Definition getattr_str (a : attr) (default : string) : attr :=
  match a with Missing => PyStr default | _ => a end.

(** [f"{v}"] *)
Definition format_attr (a : attr) : string :=
  match a with
  | Missing => ""
  | PyNone => "None"
  | PyStr s => s
  end.

(** Truthiness of an attribute value; an attribute that is missing reads as
    [None] where the default is [None], and is as false. *)
Definition truthy (a : attr) : bool :=
  match a with
  | PyStr s => negb (Py.is_empty s)
  | _ => false
  end.

Definition keep_char (c : ascii) : bool :=
  (Py.isalnum c || Py.is_char "-" c || Py.is_char "_" c)%bool.

Fixpoint replace_unsafe (s : string) : string :=
  match s with
  | EmptyString => EmptyString
  | String c r => String (if keep_char c then c else "-"%char) (replace_unsafe r)
  end.

(** [_sanitize_unit_part]; the argument is [None] or a [str]. *)
Definition _sanitize_unit_part (s : option string) : string :=
  let s := match s with Some x => x | None => "" end in
  let s := Py.lower (Py.strip s) in
  let s := replace_unsafe s in
  let s := Py.strip_chars "-" (Py.collapse_dashes s) in
  if Py.is_empty s then "tunnel" else s.

(** ** Configuration and host *)

(** The tunnel configuration object, as far as the manager reads it. *)
Record Config : Type := mkConfig {
  name : attr;
  remote_forward_ip : attr;
  listen_ip : attr;
  forwarded_ports : list Z
}.

(** Modelled from the spec: [Config.add_port] is not part of this module;
    declared state is the set of ports the operator intends to forward, and a
    successful create appends the port to it. *)
Definition add_port (port : Z) (cfg : Config) : Config :=
  mkConfig (name cfg) (remote_forward_ip cfg) (listen_ip cfg)
    (if existsb (Z.eqb port) (forwarded_ports cfg) then forwarded_ports cfg
     else forwarded_ports cfg ++ [port]).

(** Modelled from the spec: [Config.remove_port] is not part of this module;
    after it declared state no longer lists the port. *)
Definition remove_port (port : Z) (cfg : Config) : Config :=
  mkConfig (name cfg) (remote_forward_ip cfg) (listen_ip cfg)
    (filter (fun p => negb (Z.eqb port p)) (forwarded_ports cfg)).

(** What [subprocess.run] hands back: a completed process or an exception
    (time-out, spawn failure) with its text. *)
Inductive completed : Type :=
| Completed (returncode : Z) (stdout stderr : string)
| Raised (e : string).

(** What [Path.exists] does: it answers, or it re-raises the [OSError] of
    the underlying [stat] when that is not one of the errors that mean "no
    such file" (a name that is too long, a directory that may not be
    searched); the text is that of the exception. *)
Inductive probe : Type :=
| Answer (b : bool)
| Refused (e : string).

(** The operating system under the manager.  [W] is the state of the
    machine; probing a path does not change it. *)
Class Host (W : Type) : Type := {
  subprocess_run : string -> W -> completed * W;
  path_exists : string -> W -> probe;
  (** [Path.unlink]: [false] when it raised. *)
  path_unlink : string -> W -> bool * W;
  (** [open(path, "w")] and [write]: the text of the exception, if any. *)
  write_text : string -> string -> W -> option string * W
}.

(** The calls that act on the machine or on declared state, in the order
    they are made. *)
Inductive event : Type :=
| ERun (cmd : string)
| EUnlink (path : string)
| EWrite (path content : string)
| EAddPort (port : Z)
| ERemovePort (port : Z).

Record state (W : Type) : Type := mkState {
  world : W;
  config : Config;
  log : list event
}.
Arguments mkState {W} _ _ _.
Arguments world {W} _.
Arguments config {W} _.
Arguments log {W} _.

(** ** The monad of the manager: state and exceptions *)

(** The exceptions that occur; the text of a [ValueError] is never read. *)
Inductive exn : Type :=
| OSError (e : string)
| ValueError.

Inductive outcome (A : Type) : Type :=
| Return (a : A)
| Throw (e : exn).
Arguments Return {A} _.
Arguments Throw {A} _.

Definition M (W A : Type) : Type := state W -> outcome A * state W.

Definition ret {W A} (a : A) : M W A := fun st => (Return a, st).

(** Sequencing: an exception ends the computation with the state reached. *)
Definition bind {W A B} (m : M W A) (k : A -> M W B) : M W B :=
  fun st =>
    let (r, st') := m st in
    match r with
    | Return a => k a st'
    | Throw e => (Throw e, st')
    end.

(** [try: body except ValueError: handler] *)
Definition except_ValueError {W A} (body handler : M W A) : M W A :=
  fun st =>
    let (r, st') := body st in
    match r with
    | Throw ValueError => handler st'
    | _ => (r, st')
    end.

Declare Scope fwd_scope.
Delimit Scope fwd_scope with fwd.
Notation "x <- m ;; k" := (bind m (fun x => k))
  (at level 61, m at next level, right associativity) : fwd_scope.
Notation "' p <- m ;; k" := (bind m (fun x => match x with p => k end))
  (at level 61, p pattern, m at next level, right associativity) : fwd_scope.
Notation "m ;; k" := (bind m (fun _ => k))
  (at level 61, right associativity) : fwd_scope.
Local Open Scope fwd_scope.

(** [results.append(line)] *)
Definition append_line {A : Type} (results : list A) (line : A) : list A :=
  (results ++ [line])%list.

Definition nl : string := String (ascii_of_nat 10) EmptyString.

Definition SYSTEMD_DIR : string := "/etc/systemd/system".

(** [SERVICE_TEMPLATE.format(tunnel=..., port=..., remote_ip=..., listen_ip=...)] *)
Definition SERVICE_TEMPLATE (tunnel : string) (port : Z)
    (remote_ip listen_ip : string) : string :=
  "[Unit]" ++ nl ++
  "Description=VortexL2 Port Forward - " ++ tunnel ++ " - Port "
    ++ Py.str_int port ++ nl ++
  "After=network.target" ++ nl ++
  "Requires=network.target" ++ nl ++
  nl ++
  "[Service]" ++ nl ++
  "Type=simple" ++ nl ++
  "ExecStart=/usr/bin/socat TCP4-LISTEN:" ++ Py.str_int port ++ ",bind="
    ++ listen_ip ++ ",reuseaddr,fork TCP4:" ++ remote_ip ++ ":"
    ++ Py.str_int port ++ nl ++
  "Restart=always" ++ nl ++
  "RestartSec=5" ++ nl ++
  nl ++
  "[Install]" ++ nl ++
  "WantedBy=multi-user.target" ++ nl.

(** [str] value of [config.name] handed to the sanitizer. *)
Definition name_arg (a : attr) : option string :=
  match getattr_str a "tunnel" with
  | PyStr s => Some s
  | _ => None
  end.

Definition _legacy_service_name (port : Z) : string :=
  "vortexl2-fwd-" ++ Py.str_int port ++ ".service".

Definition _get_service_name (cfg : Config) (port : Z) : string :=
  let tname := _sanitize_unit_part (name_arg (name cfg)) in
  "vortexl2-fwd-" ++ tname ++ "-" ++ Py.str_int port ++ ".service".

Definition _get_service_path (cfg : Config) (port : Z) : string :=
  SYSTEMD_DIR ++ "/" ++ _get_service_name cfg port.

Definition _legacy_service_path (port : Z) : string :=
  SYSTEMD_DIR ++ "/" ++ _legacy_service_name port.

(** ** ForwardManager *)

Section Manager.

Context {W : Type} {host : Host W}.

Definition get_config : M W Config := fun st => (Return (config st), st).

Definition emit (e : event) (w : W) (st : state W) : state W :=
  mkState w (config st) (log st ++ [e]).

(** [run_command]: the exit code decides success, the output is the trimmed
    standard output or, when that is empty, the trimmed standard error; an
    exception gives failure with its text, so the call itself never
    raises. *)
Definition run_command (cmd : string) : M W (bool * string) := fun st =>
  let (r, w) := subprocess_run cmd (world st) in
  let res :=
    match r with
    | Completed returncode stdout stderr =>
        (Z.eqb returncode 0,
         if Py.is_empty (Py.strip stdout) then Py.strip stderr
         else Py.strip stdout)
    | Raised e => (false, e)
    end in
  (Return res, emit (ERun cmd) w st).

(** [path.exists()], outside any handler. *)
Definition exists_ (path : string) : M W bool := fun st =>
  match path_exists path (world st) with
  | Answer b => (Return b, st)
  | Refused e => (Throw (OSError e), st)
  end.

(** [try: path.unlink() except Exception: pass] *)
Definition unlink_quietly (path : string) : M W unit := fun st =>
  let (_, w) := path_unlink path (world st) in
  (Return tt, emit (EUnlink path) w st).

(** [with open(path, "w") as f: f.write(content)] under
    [except Exception as e]; the text of the exception, if any. *)
Definition write_file (path content : string) : M W (option string) := fun st =>
  let (r, w) := write_text path content (world st) in
  (Return r, emit (EWrite path content) w st).

Definition config_add_port (port : Z) : M W unit := fun st =>
  (Return tt,
   mkState (world st) (add_port port (config st)) (log st ++ [EAddPort port])).

Definition config_remove_port (port : Z) : M W unit := fun st =>
  (Return tt,
   mkState (world st) (remove_port port (config st))
     (log st ++ [ERemovePort port])).

(** [int(port_str)] as a step of the manager. *)
Definition int_ (s : string) : M W Z := fun st =>
  match Py.int s with
  | Some n => (Return n, st)
  | None => (Throw ValueError, st)
  end.

Definition _migrate_legacy_unit (port : Z) : M W unit :=
  let legacy_name := _legacy_service_name port in
  let legacy_path := _legacy_service_path port in
  present <- exists_ legacy_path ;;
  if (present : bool) then
    run_command ("systemctl stop " ++ legacy_name) ;;
    run_command ("systemctl disable " ++ legacy_name) ;;
    unlink_quietly legacy_path ;;
    run_command "systemctl daemon-reload" ;;
    ret tt
  else ret tt.

Definition create_forward (port : Z) : M W (bool * string) :=
  cfg <- get_config ;;
  let remote_ip := remote_forward_ip cfg in
  if negb (truthy remote_ip) then
    ret (false, "Remote forward IP not configured")
  else
    let listen_ip := getattr_str (listen_ip cfg) "0.0.0.0" in
    _migrate_legacy_unit port ;;
    let service_path := _get_service_path cfg port in
    let service_name := _get_service_name cfg port in
    let tunnel_name := getattr_str (name cfg) "tunnel" in
    let service_content :=
      SERVICE_TEMPLATE (format_attr tunnel_name) port
        (format_attr remote_ip) (format_attr listen_ip) in
    failure <- write_file service_path service_content ;;
    match failure with
    | Some e => ret (false, "Failed to create service file: " ++ e)
    | None =>
        run_command "systemctl daemon-reload" ;;
        ' (success, output) <- run_command ("systemctl enable --now " ++ service_name) ;;
        if negb success then
          ret (false, "Failed to start forward for port " ++ Py.str_int port
                        ++ ": " ++ output)
        else
          config_add_port port ;;
          ret (true, "Port forward for " ++ Py.str_int port
                       ++ " created (listen " ++ format_attr listen_ip ++ " -> "
                       ++ format_attr remote_ip ++ ":" ++ Py.str_int port ++ ")")
    end.

Definition unlink_if_exists (path : string) : M W unit :=
  present <- exists_ path ;;
  if (present : bool) then unlink_quietly path else ret tt.

Definition remove_forward (port : Z) : M W (bool * string) :=
  cfg <- get_config ;;
  let service_name := _get_service_name cfg port in
  let legacy_name := _legacy_service_name port in
  run_command ("systemctl stop " ++ service_name) ;;
  run_command ("systemctl disable " ++ service_name) ;;
  run_command ("systemctl stop " ++ legacy_name) ;;
  run_command ("systemctl disable " ++ legacy_name) ;;
  unlink_if_exists (_get_service_path cfg port) ;;
  unlink_if_exists (_legacy_service_path port) ;;
  run_command "systemctl daemon-reload" ;;
  config_remove_port port ;;
  ret (true, "Port forward for " ++ Py.str_int port ++ " removed").

(** [[p.strip() for p in ports_str.split(",") if p.strip()]] *)
Definition port_tokens (ports_str : string) : list string :=
  filter (fun p => negb (Py.is_empty p)) (map Py.strip (Py.split_comma ports_str)).

(** A [for] loop that appends to [results].  The loops over the declared
    ports run over the list as read when the loop starts: inside them
    [add_port] is only reached for a port of that list, which leaves the list
    as it is. *)
Fixpoint for_each {A : Type} (xs : list A)
    (body : A -> list string -> M W (list string))
    (results : list string) : M W (list string) :=
  match xs with
  | [] => ret results
  | x :: rest => results' <- body x results ;; for_each rest body results'
  end.

(** The body of the two batch loops.  The handler covers the conversion
    and the call of the operation, and it covers [ValueError] only. *)
Definition batch_body (op : Z -> M W (bool * string))
    (port_str : string) (results : list string) : M W (list string) :=
  except_ValueError
    (port <- int_ port_str ;;
     ' (success, msg) <- op port ;;
     ret (append_line results ("Port " ++ Py.str_int port ++ ": " ++ msg)))
    (ret (append_line results ("Port '" ++ port_str ++ "': Invalid port number"))).

Definition add_multiple_forwards (ports_str : string) : M W (bool * string) :=
  results <- for_each (port_tokens ports_str) (batch_body create_forward) [] ;;
  ret (true, Py.join nl results).

Definition remove_multiple_forwards (ports_str : string) : M W (bool * string) :=
  results <- for_each (port_tokens ports_str) (batch_body remove_forward) [] ;;
  ret (true, Py.join nl results).

(** One entry of the listing. *)
Record forward_info : Type := mkInfo {
  info_port : Z;
  info_status : string;
  info_enabled : string;
  info_remote : string
}.

Definition list_body (port : Z) (forwards : list forward_info)
    : M W (list forward_info) :=
  cfg <- get_config ;;
  let new_unit := _get_service_name cfg port in
  let legacy_unit := _legacy_service_name port in
  ' (success, output) <- run_command ("systemctl is-active " ++ new_unit) ;;
  ' (status, active_unit) <-
      (if (success : bool) then ret (output, new_unit)
       else
         ' (success2, output2) <- run_command ("systemctl is-active " ++ legacy_unit) ;;
         ret (if (success2 : bool) then output2 else "inactive",
              if (success2 : bool) then legacy_unit else new_unit)) ;;
  ' (success, output) <- run_command ("systemctl is-enabled " ++ active_unit) ;;
  let enabled := if (success : bool) then output else "disabled" in
  let remote_ip := getattr_str (remote_forward_ip cfg) "-" in
  ret (append_line forwards (mkInfo port status enabled
                      (format_attr remote_ip ++ ":" ++ Py.str_int port))).

Fixpoint list_loop (ports : list Z) (forwards : list forward_info)
    : M W (list forward_info) :=
  match ports with
  | [] => ret forwards
  | port :: rest => forwards' <- list_body port forwards ;; list_loop rest forwards'
  end.

Definition list_forwards : M W (list forward_info) :=
  cfg <- get_config ;;
  list_loop (forwarded_ports cfg) [].

(** The end of the three all-port operations. *)
Definition transcript (results : list string) : bool * string :=
  match results with
  | [] => (true, "No port forwards configured")
  | _ => (true, Py.join nl results)
  end.

Definition start_body (port : Z) (results : list string) : M W (list string) :=
  _migrate_legacy_unit port ;;
  cfg <- get_config ;;
  let service_name := _get_service_name cfg port in
  let service_path := _get_service_path cfg port in
  present <- exists_ service_path ;;
  if negb present then
    ' (success, msg) <- create_forward port ;;
    if (success : bool) then
      ret (append_line results ("Port " ++ Py.str_int port ++ ": recreated and started"))
    else
      ret (append_line results ("Port " ++ Py.str_int port ++ ": failed to recreate - " ++ msg))
  else
    ' (success, output) <- run_command ("systemctl start " ++ service_name) ;;
    if (success : bool) then
      ret (append_line results ("Port " ++ Py.str_int port ++ ": started"))
    else
      ret (append_line results ("Port " ++ Py.str_int port ++ ": failed to start - " ++ output)).

Definition start_all_forwards : M W (bool * string) :=
  cfg <- get_config ;;
  results <- for_each (forwarded_ports cfg) start_body [] ;;
  ret (transcript results).

Definition stop_body (port : Z) (results : list string) : M W (list string) :=
  cfg <- get_config ;;
  let new_unit := _get_service_name cfg port in
  let legacy_unit := _legacy_service_name port in
  ' (success, output) <- run_command ("systemctl stop " ++ new_unit) ;;
  let results :=
    if (success : bool) then
      append_line results ("Port " ++ Py.str_int port ++ ": stopped (" ++ new_unit ++ ")")
    else results in
  run_command ("systemctl stop " ++ legacy_unit) ;;
  ret results.

Definition stop_all_forwards : M W (bool * string) :=
  cfg <- get_config ;;
  results <- for_each (forwarded_ports cfg) stop_body [] ;;
  ret (transcript results).

Definition restart_body (port : Z) (results : list string) : M W (list string) :=
  _migrate_legacy_unit port ;;
  cfg <- get_config ;;
  let service_name := _get_service_name cfg port in
  let service_path := _get_service_path cfg port in
  present <- exists_ service_path ;;
  if negb present then
    ' (success, msg) <- create_forward port ;;
    if (success : bool) then
      ret (append_line results ("Port " ++ Py.str_int port ++ ": recreated and started"))
    else
      ret (append_line results ("Port " ++ Py.str_int port ++ ": failed to recreate - " ++ msg))
  else
    let remote_ip := remote_forward_ip cfg in
    if negb (truthy remote_ip) then
      ret (append_line results ("Port " ++ Py.str_int port ++ ": remote_forward_ip not set"))
    else
      let listen_ip := getattr_str (listen_ip cfg) "0.0.0.0" in
      let tunnel_name := getattr_str (name cfg) "tunnel" in
      let service_content :=
        SERVICE_TEMPLATE (format_attr tunnel_name) port
          (format_attr remote_ip) (format_attr listen_ip) in
      failure <- write_file service_path service_content ;;
      match failure with
      | Some e =>
          ret (append_line results ("Port " ++ Py.str_int port
                             ++ ": failed to write service file - " ++ e))
      | None =>
          run_command "systemctl daemon-reload" ;;
          ' (success, output) <- run_command ("systemctl restart " ++ service_name) ;;
          if (success : bool) then
            ret (append_line results ("Port " ++ Py.str_int port ++ ": restarted"))
          else
            ret (append_line results ("Port " ++ Py.str_int port ++ ": failed - " ++ output))
      end.

Definition restart_all_forwards : M W (bool * string) :=
  cfg <- get_config ;;
  results <- for_each (forwarded_ports cfg) restart_body [] ;;
  ret (transcript results).

End Manager.

(** * Vocabulary of the properties *)

Definition dash_set (c : ascii) : bool :=
  existsb (Py.is_char c) (list_ascii_of_string "-").

(** No two dashes in a row. *)
Fixpoint single_dashes (s : string) : bool :=
  match s with
  | EmptyString => true
  | String c r =>
      (negb (Py.is_char "-" c && Py.starts_with (Py.is_char "-") r)
       && single_dashes r)%bool
  end.

(** A character the sanitizer leaves alone. *)
Definition settled (c : ascii) : bool :=
  (keep_char c && Ascii.eqb (Py.lower_char c) c)%bool.

(** The shape of a sanitized name. *)
Record unit_safe (s : string) : Prop := {
  safe_chars : Py.all_chars settled s = true;
  safe_single : single_dashes s = true;
  safe_head : Py.starts_with (Py.is_char "-") s = false;
  safe_last : Py.ends_with (Py.is_char "-") s = false;
  safe_nonempty : Py.is_empty s = false
}.

Definition is_digit (c : ascii) : bool := Py.between 48 57 c.
Arguments is_digit : simpl never.

(** Digits and the sign: the characters of a rendered integer. *)
Definition numeric (c : ascii) : bool := (is_digit c || Py.is_char "-" c)%bool.
Arguments numeric : simpl never.

(** The value the digit loop of [int] computes along a digit sequence. *)
Fixpoint uint_value (acc : Z) (u : Decimal.uint) : Z :=
  match u with
  | Decimal.Nil => acc
  | Decimal.D0 u => uint_value (10 * acc + 0) u
  | Decimal.D1 u => uint_value (10 * acc + 1) u
  | Decimal.D2 u => uint_value (10 * acc + 2) u
  | Decimal.D3 u => uint_value (10 * acc + 3) u
  | Decimal.D4 u => uint_value (10 * acc + 4) u
  | Decimal.D5 u => uint_value (10 * acc + 5) u
  | Decimal.D6 u => uint_value (10 * acc + 6) u
  | Decimal.D7 u => uint_value (10 * acc + 7) u
  | Decimal.D8 u => uint_value (10 * acc + 8) u
  | Decimal.D9 u => uint_value (10 * acc + 9) u
  end.

(** The text of an integer: an optional sign, then digits only. *)
Definition int_shaped (s : string) : bool :=
  match s with
  | EmptyString => false
  | String c r =>
      if Py.is_char "-" c then (negb (Py.is_empty r) && Py.all_chars is_digit r)%bool
      else Py.all_chars is_digit s
  end.

(** Reading a name back: the split is at the first dash that is followed by
    the text of an integer and nothing else. *)
Fixpoint split_name (s : string) : option (string * string) :=
  match s with
  | EmptyString => None
  | String c r =>
      if (Py.is_char "-" c && int_shaped r)%bool then Some (EmptyString, r)
      else match split_name r with
           | Some (t, d) => Some (String c t, d)
           | None => None
           end
  end.

(** Neither alphanumeric nor an underscore: such a character ends up as a
    dash (or is blank and stripped). *)
Definition rejected (c : ascii) : bool :=
  (negb (Py.isalnum c) && negb (Py.is_char "_" c))%bool.
Arguments rejected : simpl never.

Definition not_comma (c : ascii) : bool := negb (Py.is_char "," c).
Arguments not_comma : simpl never.

(** A separator or a blank. *)
Definition comma_or_blank (c : ascii) : bool :=
  (Py.is_char "," c || Py.isspace c)%bool.
Arguments comma_or_blank : simpl never.

(** What the migration logs when the legacy file is there. *)
Definition migration_events (port : Z) : list event :=
  [ERun ("systemctl stop " ++ _legacy_service_name port);
   ERun ("systemctl disable " ++ _legacy_service_name port);
   EUnlink (_legacy_service_path port);
   ERun "systemctl daemon-reload"].

(** The unit file [create_forward] and the restart write for a port. *)
Definition unit_text (cfg : Config) (port : Z) : string :=
  SERVICE_TEMPLATE (format_attr (getattr_str (name cfg) "tunnel")) port
    (format_attr (remote_forward_ip cfg))
    (format_attr (getattr_str (listen_ip cfg) "0.0.0.0")).

Definition creation_events (cfg : Config) (port : Z) : list event :=
  [EWrite (_get_service_path cfg port) (unit_text cfg port);
   ERun "systemctl daemon-reload";
   ERun ("systemctl enable --now " ++ _get_service_name cfg port);
   EAddPort port].

Definition with_name (n : string) : Config := mkConfig (PyStr n) PyNone Missing [].

(** The characters of a unit name: alphanumerics, the dash, the underscore
    and the dot of the suffix. *)
Definition word_char (c : ascii) : bool :=
  (Py.isalnum c || Py.is_char "-" c || Py.is_char "_" c || Py.is_char "." c)%bool.
Arguments word_char : simpl never.

(** The characters that end a file name or mean something to the shell
    [run_command] hands its command line to: the slash, blanks and control
    characters, quotes and the operators of [sh]. *)
Definition shell_special (c : ascii) : bool :=
  (Py.isspace c || Py.between 0 31 c || N.eqb (Py.code c) 127
   || N.eqb (Py.code c) 34
   || existsb (Py.is_char c)
        (list_ascii_of_string "/;&|<>()$`\'*?[]#~=%!{}^,:@+"))%bool.
Arguments shell_special : simpl never.

Definition named (a : attr) : Config := mkConfig a PyNone Missing [].

(** The events that change declared state. *)
Definition is_declaration (e : event) : bool :=
  match e with EAddPort _ | ERemovePort _ => true | _ => false end.

(** The queries [list_forwards] may put to the controller about a port:
    is-active or is-enabled, of the canonical or of the legacy unit. *)
Definition queries (cfg : Config) (port : Z) : list event :=
  [ERun ("systemctl is-active " ++ _get_service_name cfg port);
   ERun ("systemctl is-active " ++ _legacy_service_name port);
   ERun ("systemctl is-enabled " ++ _get_service_name cfg port);
   ERun ("systemctl is-enabled " ++ _legacy_service_name port)].

Definition query_of (cfg : Config) (ports : list Z) (e : event) : Prop :=
  exists port, In port ports /\ In e (queries cfg port).

(** What a probe found: a file that is there. *)
Definition probed (r : probe) : bool :=
  match r with Answer b => b | Refused _ => false end.

(** Did an operation return, and with success? *)
Definition succeeded {A : Type} (r : outcome (bool * A)) : bool :=
  match r with Return (true, _) => true | _ => false end.

(** An integer whose decimal text the interpreter reads back. *)
Definition digits_within (z : Z) : Prop :=
  (Py.count_digits (Py.str_int z) <= Py.int_max_str_digits)%N.

(** The value of the text of an integer, read with no cap on its length. *)
Definition read_back (s : string) : option Z :=
  match s with
  | EmptyString => None
  | String c r =>
      if Py.is_char "-" c then option_map Z.opp (Py.int_digits 0 false r)
      else Py.int_digits 0 false s
  end.

(** What [remove_forward] logs when its two probes answer [a] and [b]. *)
Definition removal_events (cfg : Config) (port : Z) (a b : bool) : list event :=
  ([ERun ("systemctl stop " ++ _get_service_name cfg port);
    ERun ("systemctl disable " ++ _get_service_name cfg port);
    ERun ("systemctl stop " ++ _legacy_service_name port);
    ERun ("systemctl disable " ++ _legacy_service_name port)]
   ++ (if a then [EUnlink (_get_service_path cfg port)] else [])
   ++ (if b then [EUnlink (_legacy_service_path port)] else [])
   ++ [ERun "systemctl daemon-reload"; ERemovePort port])%list.

(** The answer of a [create_forward] that succeeds. *)
Definition created_message (cfg : Config) (port : Z) : string :=
  "Port forward for " ++ Py.str_int port ++ " created (listen "
    ++ format_attr (getattr_str (listen_ip cfg) "0.0.0.0") ++ " -> "
    ++ format_attr (remote_forward_ip cfg) ++ ":" ++ Py.str_int port ++ ")".

(** The remote endpoint as a record of the listing shows it. *)
Definition remote_of (cfg : Config) (port : Z) : string :=
  format_attr (getattr_str (remote_forward_ip cfg) "-") ++ ":" ++ Py.str_int port.


(** The two stop commands [stop_all_forwards] issues for a port. *)
Definition stop_events (cfg : Config) (port : Z) : list event :=
  [ERun ("systemctl stop " ++ _get_service_name cfg port);
   ERun ("systemctl stop " ++ _legacy_service_name port)].

(** The line of a batch token when nothing can be created. *)
Definition unconfigured_line (tok : string) : string :=
  match Py.int tok with
  | Some port =>
      "Port " ++ Py.str_int port ++ ": Remote forward IP not configured"
  | None => "Port '" ++ tok ++ "': Invalid port number"
  end.

(** The ports a batch parses out of its tokens. *)
Definition parsed_ports (toks : list string) : list Z :=
  flat_map (fun t => match Py.int t with Some p => [p] | None => [] end) toks.

Section Vocabulary.

Context {W : Type} {host : Host W}.

(** How a batch runs over its tokens, in the words of the batch protocol:
    a token that parses is handed to the operation and yields the line of
    the parsed port, one that does not yields the invalid-port line, and in
    both cases the run goes on with the next token.  The run ends early, and
    without a transcript, when the operation raises an [OSError]: [stop]
    is then the text of the exception. *)
Inductive batch_run (op : Z -> M W (bool * string))
  : list string -> state W -> list string -> option string -> state W -> Prop :=
| batch_done (st : state W) : batch_run op [] st [] None st
| batch_port (tok : string) (toks : list string) (port : Z)
    (st st1 st2 : state W) (success : bool) (msg : string)
    (lines : list string) (stop : option string) :
    Py.int tok = Some port ->
    op port st = (Return (success, msg), st1) ->
    batch_run op toks st1 lines stop st2 ->
    batch_run op (tok :: toks) st
      (("Port " ++ Py.str_int port ++ ": " ++ msg) :: lines) stop st2
| batch_invalid (tok : string) (toks : list string)
    (st st2 : state W) (lines : list string) (stop : option string) :
    Py.int tok = None ->
    batch_run op toks st lines stop st2 ->
    batch_run op (tok :: toks) st
      (("Port '" ++ tok ++ "': Invalid port number") :: lines) stop st2
| batch_abort (tok : string) (toks : list string) (port : Z)
    (st st1 : state W) (e : string) :
    Py.int tok = Some port ->
    op port st = (Throw (OSError e), st1) ->
    batch_run op (tok :: toks) st [] (Some e) st1.

(** The result of a batch whose run gave [lines] and ended with [stop]. *)
Definition batch_result (lines : list string) (stop : option string)
    : outcome (bool * string) :=
  match stop with
  | None => Return (true, Py.join nl lines)
  | Some e => Throw (OSError e)
  end.

(** The ports a batch has dealt with when it ends: all that its tokens
    parse to, or those before the one at which it was aborted. *)
Fixpoint removed_ports (toks : list string) (st : state W) : list Z :=
  match toks with
  | [] => []
  | tok :: rest =>
      match Py.int tok with
      | None => removed_ports rest st
      | Some port =>
          match remove_forward port st with
          | (Return _, st1) => port :: removed_ports rest st1
          | (Throw _, _) => []
          end
      end
  end.

(** The enabled flag of a unit, in the words of the listing: the answer of
    is-enabled when the query succeeds, "disabled" otherwise; with the state
    the query leaves. *)
Definition query_enabled (unit_name : string) (st : state W)
    : string * state W :=
  match run_command ("systemctl is-enabled " ++ unit_name) st with
  | (Return (true, output), st') => (output, st')
  | (_, st') => ("disabled", st')
  end.

(** The listing, in the words of its description: for each declared port
    in turn, the status is the answer of the canonical is-active query when
    that succeeds, else the answer of the legacy one when that succeeds,
    else "inactive"; the enabled flag is asked of the unit that gave the
    status, of the canonical unit when neither did. *)
Inductive listed
  : list Z -> state W -> list forward_info -> state W -> Prop :=
| listed_none (st : state W) : listed [] st [] st
| listed_canonical (port : Z) (ports : list Z) (st st1 st2 st3 : state W)
    (status flag : string) (records : list forward_info) :
    run_command ("systemctl is-active " ++ _get_service_name (config st) port) st
    = (Return (true, status), st1) ->
    query_enabled (_get_service_name (config st) port) st1 = (flag, st2) ->
    listed ports st2 records st3 ->
    listed (port :: ports) st
      (mkInfo port status flag (remote_of (config st) port) :: records) st3
| listed_legacy (port : Z) (ports : list Z) (st st1 st2 st3 st4 : state W)
    (refusal status flag : string) (records : list forward_info) :
    run_command ("systemctl is-active " ++ _get_service_name (config st) port) st
    = (Return (false, refusal), st1) ->
    run_command ("systemctl is-active " ++ _legacy_service_name port) st1
    = (Return (true, status), st2) ->
    query_enabled (_legacy_service_name port) st2 = (flag, st3) ->
    listed ports st3 records st4 ->
    listed (port :: ports) st
      (mkInfo port status flag (remote_of (config st) port) :: records) st4
| listed_inactive (port : Z) (ports : list Z) (st st1 st2 st3 st4 : state W)
    (refusal refusal2 flag : string) (records : list forward_info) :
    run_command ("systemctl is-active " ++ _get_service_name (config st) port) st
    = (Return (false, refusal), st1) ->
    run_command ("systemctl is-active " ++ _legacy_service_name port) st1
    = (Return (false, refusal2), st2) ->
    query_enabled (_get_service_name (config st) port) st2 = (flag, st3) ->
    listed ports st3 records st4 ->
    listed (port :: ports) st
      (mkInfo port "inactive" flag (remote_of (config st) port) :: records) st4.

(** The state once [remove_forward] has issued its stop and disable
    commands for the canonical and for the legacy unit. *)
Definition after_stops (port : Z) (st : state W) : state W :=
  let service_name := _get_service_name (config st) port in
  let legacy_name := _legacy_service_name port in
  let st1 := snd (run_command ("systemctl stop " ++ service_name) st) in
  let st2 := snd (run_command ("systemctl disable " ++ service_name) st1) in
  let st3 := snd (run_command ("systemctl stop " ++ legacy_name) st2) in
  snd (run_command ("systemctl disable " ++ legacy_name) st3).

(** The state after the unlink of a file, made only when a probe found it. *)
Definition after_unlink (path : string) (found : bool) (st : state W)
    : state W :=
  if found then snd (unlink_quietly path st) else st.

(** The lines of [stop_all_forwards]: one for each port whose canonical
    unit the controller stopped, in the order of the ports. *)
Fixpoint stopped_lines (ports : list Z) (st : state W) : list string :=
  match ports with
  | [] => []
  | port :: rest =>
      let new_unit := _get_service_name (config st) port in
      let (r1, st1) := run_command ("systemctl stop " ++ new_unit) st in
      let st2 :=
        snd (run_command ("systemctl stop " ++ _legacy_service_name port) st1) in
      let line := "Port " ++ Py.str_int port ++ ": stopped (" ++ new_unit ++ ")" in
      if succeeded r1 then line :: stopped_lines rest st2
      else stopped_lines rest st2
  end.

(** An operation that never raises [ValueError]. *)
Definition raises_no_ValueError {A : Type} (op : Z -> M W A) : Prop :=
  forall (port : Z) (st : state W), fst (op port st) <> Throw ValueError.



(** A host whose probes always answer. *)
Definition probes_answer : Prop :=
  forall (path : string) (w : W), exists b, path_exists path w = Answer b.

End Vocabulary.

(** ** An in-memory machine

    A host to run the manager on: the unit directory as a map from paths
    to contents, the service controller as the sets of running and enabled
    units, and a set of paths the directory refuses to change. *)

Module Sim.

Record machine : Type := mkMachine {
  files : string -> option string;
  active : string -> bool;
  enabled : string -> bool;
  locked : string -> bool
}.

Definition upd {A : Type} (k : string) (v : A) (f : string -> A) : string -> A :=
  fun x => if String.eqb k x then v else f x.

Definition unit_path (u : string) : string := SYSTEMD_DIR ++ "/" ++ u.

Definition has_file (p : string) (m : machine) : bool :=
  match files m p with Some _ => true | None => false end.

Fixpoint strip_prefix (pre s : string) : option string :=
  match pre, s with
  | EmptyString, _ => Some s
  | String a pre', String b s' =>
      if Ascii.eqb a b then strip_prefix pre' s' else None
  | String _ _, EmptyString => None
  end.

Inductive request : Type :=
| DaemonReload
| EnableNow (u : string)
| Start (u : string)
| Restart (u : string)
| Stop (u : string)
| Disable (u : string)
| IsActive (u : string)
| IsEnabled (u : string)
| Unknown.

Definition verbs : list (string * (string -> request)) :=
  [("systemctl enable --now ", EnableNow);
   ("systemctl start ", Start);
   ("systemctl restart ", Restart);
   ("systemctl stop ", Stop);
   ("systemctl disable ", Disable);
   ("systemctl is-active ", IsActive);
   ("systemctl is-enabled ", IsEnabled)].

Fixpoint parse_with (vs : list (string * (string -> request))) (cmd : string)
    : request :=
  match vs with
  | [] => Unknown
  | (pre, mk) :: rest =>
      match strip_prefix pre cmd with
      | Some u => mk u
      | None => parse_with rest cmd
      end
  end.

Definition parse_cmd (cmd : string) : request :=
  if String.eqb cmd "systemctl daemon-reload" then DaemonReload
  else parse_with verbs cmd.

Definition ok : completed := Completed 0 "" "".

Definition set_active (u : string) (b : bool) (m : machine) : machine :=
  mkMachine (files m) (upd u b (active m)) (enabled m) (locked m).

Definition set_enabled (u : string) (b : bool) (m : machine) : machine :=
  mkMachine (files m) (active m) (upd u b (enabled m)) (locked m).

Definition set_file (p : string) (c : option string) (m : machine) : machine :=
  mkMachine (upd p c (files m)) (active m) (enabled m) (locked m).

Definition systemctl (r : request) (m : machine) : completed * machine :=
  match r with
  | DaemonReload => (ok, m)
  | EnableNow u =>
      if has_file (unit_path u) m
      then (ok, set_active u true (set_enabled u true m))
      else (Completed 1 "" ("Failed to enable unit: Unit file " ++ u
                              ++ " does not exist."), m)
  | Start u | Restart u =>
      if has_file (unit_path u) m then (ok, set_active u true m)
      else (Completed 5 "" ("Failed to start " ++ u ++ ": Unit " ++ u
                              ++ " not found."), m)
  | Stop u =>
      if (has_file (unit_path u) m || active m u)%bool
      then (ok, set_active u false m)
      else (Completed 5 "" ("Failed to stop " ++ u ++ ": Unit " ++ u
                              ++ " not loaded."), m)
  | Disable u =>
      if has_file (unit_path u) m then (ok, set_enabled u false m)
      else (Completed 1 "" ("Failed to disable unit: Unit file " ++ u
                              ++ " does not exist."), m)
  | IsActive u =>
      if active m u then (Completed 0 "active" "", m)
      else (Completed 3 "inactive" "", m)
  | IsEnabled u =>
      if enabled m u then (Completed 0 "enabled" "", m)
      else if has_file (unit_path u) m then (Completed 1 "disabled" "", m)
      else (Completed 1 "" ("Failed to get unit file state for " ++ u
                              ++ ": No such file or directory"), m)
  | Unknown => (Raised "unknown command", m)
  end.

Definition run (cmd : string) (m : machine) : completed * machine :=
  systemctl (parse_cmd cmd) m.

Definition unlink (p : string) (m : machine) : bool * machine :=
  if (locked m p || negb (has_file p m))%bool then (false, m)
  else (true, set_file p None m).

Definition write (p content : string) (m : machine) : option string * machine :=
  if locked m p
  then (Some ("[Errno 13] Permission denied: '" ++ p ++ "'"), m)
  else (None, set_file p (Some content) m).

#[global] Instance host : Host machine := {
  subprocess_run := run;
  path_exists := fun p m => Answer (has_file p m);
  path_unlink := unlink;
  write_text := write
}.

(** A machine with nothing on it. *)
Definition empty : machine :=
  mkMachine (fun _ => None) (fun _ => false) (fun _ => false) (fun _ => false).

(** A unit installed under the given name: file present, enabled, running. *)
Definition install (u content : string) (m : machine) : machine :=
  set_active u true (set_enabled u true (set_file (unit_path u) (Some content) m)).

Definition boot (m : machine) (cfg : Config) : state machine :=
  mkState m cfg [].

End Sim.

(** ** A machine with a bound on file names

    The in-memory machine behind a file system that refuses a name of more
    than [NAME_MAX] bytes, as the usual ones do: the probe, the unlink and
    the write of such a path fail with "File name too long". *)

Module Bounded.

Definition NAME_MAX : nat := 255.

Fixpoint has_slash (p : string) : bool :=
  match p with
  | EmptyString => false
  | String c r => (Py.is_char "/" c || has_slash r)%bool
  end.

(** The last component of a path. *)
Fixpoint file_name (p : string) : string :=
  match p with
  | EmptyString => EmptyString
  | String c r =>
      if (Py.is_char "/" c || has_slash r)%bool then file_name r else p
  end.

Definition too_long (p : string) : bool :=
  Nat.ltb NAME_MAX (String.length (file_name p)).

Definition ENAMETOOLONG (p : string) : string :=
  "[Errno 36] File name too long: '" ++ p ++ "'".

Record machine : Type := mkMachine { disk : Sim.machine }.

Definition run (cmd : string) (m : machine) : completed * machine :=
  let (r, d) := Sim.run cmd (disk m) in (r, mkMachine d).

Definition probe_path (p : string) (m : machine) : probe :=
  if too_long p then Refused (ENAMETOOLONG p)
  else Answer (Sim.has_file p (disk m)).

Definition unlink (p : string) (m : machine) : bool * machine :=
  if too_long p then (false, m)
  else let (r, d) := Sim.unlink p (disk m) in (r, mkMachine d).

Definition write (p content : string) (m : machine) : option string * machine :=
  if too_long p then (Some (ENAMETOOLONG p), m)
  else let (r, d) := Sim.write p content (disk m) in (r, mkMachine d).

#[global] Instance host : Host machine := {
  subprocess_run := run;
  path_exists := probe_path;
  path_unlink := unlink;
  write_text := write
}.

Definition boot (m : Sim.machine) (cfg : Config) : state machine :=
  mkState (mkMachine m) cfg [].

End Bounded.

Definition demo_config (remote : attr) (ports : list Z) : Config :=
  mkConfig (PyStr "tunnel") remote Missing ports.

(** The machine once a legacy unit has been decommissioned. *)
Definition decommissioned (port : Z) (m : Sim.machine) : Sim.machine :=
  Sim.set_file (_legacy_service_path port) None
    (Sim.set_enabled (_legacy_service_name port) false
       (Sim.set_active (_legacy_service_name port) false m)).

(** The machine once the canonical unit has been written and started. *)
Definition provisioned (cfg : Config) (port : Z) (m : Sim.machine) : Sim.machine :=
  Sim.set_active (_get_service_name cfg port) true
    (Sim.set_enabled (_get_service_name cfg port) true
       (Sim.set_file (_get_service_path cfg port) (Some (unit_text cfg port)) m)).

(** A host on which port 8080 is forwarded by a unit of the old naming
    scheme only. *)
Definition legacy_only : Sim.machine :=
  Sim.install "vortexl2-fwd-8080.service" "legacy unit" Sim.empty.

Definition configured : Config := demo_config (PyStr "10.0.0.2") [8080].

Definition unconfigured : Config := demo_config PyNone [8080].

(** A machine whose unit directory refuses every write and unlink. *)
Definition read_only_dir : Sim.machine :=
  Sim.mkMachine (fun _ => None) (fun _ => false) (fun _ => false) (fun _ => true).

(** A port whose unit names are longer than a file name may be: a one and
    three hundred zeros. *)
Definition long_port : Z := 10 ^ 300.

Definition long_token : string := Py.str_int long_port.

(** A tunnel name of 250 letters; with it the unit name of any port is
    longer than a file name may be. *)
Fixpoint replicate (n : nat) (c : ascii) : string :=
  match n with
  | O => EmptyString
  | S k => String c (replicate k c)
  end.

Definition long_name : string := replicate 250 "a".
(** * Properties *)

Arguments Py.is_char : simpl never.
Arguments Py.isspace : simpl never.
Arguments Py.isalnum : simpl never.
Arguments Py.lower_char : simpl never.
Arguments keep_char : simpl never.

Arguments settled : simpl never.

Ltac each_char c := destruct c as [[] [] [] [] [] [] [] []].

Ltac host_step :=
  match goal with
  | |- context [subprocess_run ?c ?w] =>
      let r := fresh "r" in let w' := fresh "w" in
      destruct (subprocess_run c w) as [r w'] eqn:?
  | |- context [path_unlink ?p ?w] =>
      let r := fresh "r" in let w' := fresh "w" in
      destruct (path_unlink p w) as [r w'] eqn:?
  | |- context [write_text ?p ?c ?w] =>
      let r := fresh "r" in let w' := fresh "w" in
      destruct (write_text p c w) as [[r|] w'] eqn:?
  end.

Ltac exists_step :=
  match goal with
  | |- context [path_exists ?p ?w] => destruct (path_exists p w) as [[|]|?] eqn:?
  end.

Ltac run_manager :=
  unfold bind, ret, get_config, run_command, emit, exists_, unlink_quietly,
    write_file, unlink_if_exists, config_add_port, config_remove_port;
  cbn [fst snd world config log].

Ltac outcome_step :=
  match goal with
  | |- context [match ?r with Completed _ _ _ => _ | Raised _ => _ end] =>
      destruct r; run_manager
  | |- context [Z.eqb ?rc 0] => destruct (Z.eqb rc 0); run_manager
  end.

Ltac unlink_step :=
  match goal with
  | |- context [path_unlink ?p ?w] =>
      let r := fresh "r" in let w' := fresh "w" in
      destruct (path_unlink p w) as [r w'] eqn:?
  end; run_manager.

Ltac event_cases :=
  repeat match goal with
  | H : In _ _ |- _ =>
      cbn [In app migration_events creation_events] in H
  | H : _ \/ _ |- _ => destruct H as [H|H]
  | H : False |- _ => contradiction
  | H : EWrite _ _ = EWrite _ _ |- _ => injection H as <- <-
  | H : _ = _ :> event |- _ => first [discriminate H | subst]
  end;
  try discriminate; try (split; reflexivity); try reflexivity.

Ltac sim_manager :=
  run_manager;
  cbn [subprocess_run path_exists path_unlink write_text Sim.host].

(** ** Characters and strings *)

Lemma lower_char_idem (c : ascii) :
  Py.lower_char (Py.lower_char c) = Py.lower_char c.
Proof. each_char c; reflexivity. Qed.

Lemma kept_not_space (c : ascii) :
  keep_char c = true -> Py.is_char "-" c = false -> Py.isspace c = false.
Proof. each_char c; vm_compute; congruence. Qed.

Lemma is_char_eq (a c : ascii) : Py.is_char a c = true -> c = a.
Proof. unfold Py.is_char. intros H. apply Ascii.eqb_eq in H. congruence. Qed.

Lemma dash_set_spec (c : ascii) : dash_set c = Py.is_char "-" c.
Proof.
  unfold dash_set, Py.is_char. simpl. rewrite orb_false_r. apply Ascii.eqb_sym.
Qed.

Section Strip.

Variable p : ascii -> bool.

Lemma lstrip_fix (s : string) :
  Py.starts_with p s = false -> Py.lstrip p s = s.
Proof. destruct s as [|c r]; simpl; [reflexivity|]. now intros ->. Qed.

Lemma rstrip_fix (s : string) :
  Py.ends_with p s = false -> Py.rstrip p s = s.
Proof.
  induction s as [|c r IH]; simpl; [reflexivity|].
  destruct r as [|d r'].
  - simpl. now intros ->.
  - intros H. rewrite (IH H). reflexivity.
Qed.

Lemma lstrip_starts (s : string) : Py.starts_with p (Py.lstrip p s) = false.
Proof.
  induction s as [|c r IH]; simpl; [reflexivity|].
  destruct (p c) eqn:E; [exact IH|]. simpl. exact E.
Qed.

Lemma rstrip_ends (s : string) : Py.ends_with p (Py.rstrip p s) = false.
Proof.
  induction s as [|c r IH]; simpl; [reflexivity|].
  destruct (Py.rstrip p r) as [|d t] eqn:E; simpl.
  - destruct (p c) eqn:Ec; simpl; [reflexivity|exact Ec].
  - exact IH.
Qed.

Lemma rstrip_head (q : ascii -> bool) (s : string) :
  Py.starts_with q (Py.rstrip p s) = true -> Py.starts_with q s = true.
Proof.
  destruct s as [|c r]; simpl; [discriminate|].
  destruct (Py.is_empty (Py.rstrip p r) && p c)%bool; simpl; [discriminate|auto].
Qed.

Lemma rstrip_starts (s : string) :
  Py.starts_with p s = false -> Py.starts_with p (Py.rstrip p s) = false.
Proof.
  intros H. destruct (Py.starts_with p (Py.rstrip p s)) eqn:E; [|reflexivity].
  apply rstrip_head in E. congruence.
Qed.

Lemma all_chars_lstrip (q : ascii -> bool) (s : string) :
  Py.all_chars q s = true -> Py.all_chars q (Py.lstrip p s) = true.
Proof.
  induction s as [|c r IH]; simpl; [reflexivity|].
  intros H. apply andb_true_iff in H as [Hc Hr].
  destruct (p c); [auto|]. simpl. now rewrite Hc, Hr.
Qed.

Lemma all_chars_rstrip (q : ascii -> bool) (s : string) :
  Py.all_chars q s = true -> Py.all_chars q (Py.rstrip p s) = true.
Proof.
  induction s as [|c r IH]; simpl; [reflexivity|].
  intros H. apply andb_true_iff in H as [Hc Hr].
  destruct (Py.is_empty (Py.rstrip p r) && p c)%bool; [reflexivity|].
  simpl. now rewrite Hc, IH.
Qed.

Lemma strip_with_fix (s : string) :
  Py.starts_with p s = false -> Py.ends_with p s = false ->
  Py.strip_with p s = s.
Proof.
  intros Hs He. unfold Py.strip_with. rewrite (lstrip_fix _ Hs).
  now apply rstrip_fix.
Qed.

End Strip.

Lemma collapse_fix (s : string) :
  single_dashes s = true -> Py.collapse_dashes s = s.
Proof.
  induction s as [|c r IH]; simpl; [reflexivity|].
  intros H. apply andb_true_iff in H as [Hc Hr].
  apply negb_true_iff in Hc. rewrite Hc, (IH Hr). reflexivity.
Qed.

Lemma collapse_head (q : ascii -> bool) (s : string) :
  Py.starts_with q (Py.collapse_dashes s) = Py.starts_with q s.
Proof.
  induction s as [|c r IH]; simpl; [reflexivity|].
  destruct (Py.is_char "-" c) eqn:Ec; simpl; [|reflexivity].
  destruct (Py.starts_with (Py.is_char "-") r) eqn:Es; [|reflexivity].
  rewrite IH. destruct r as [|d r']; simpl in *; [discriminate|].
  apply is_char_eq in Ec, Es. congruence.
Qed.

Lemma collapse_single (s : string) : single_dashes (Py.collapse_dashes s) = true.
Proof.
  induction s as [|c r IH]; simpl; [reflexivity|].
  destruct (Py.is_char "-" c && Py.starts_with (Py.is_char "-") r)%bool eqn:E;
    [exact IH|].
  simpl. rewrite collapse_head, E, IH. reflexivity.
Qed.

Lemma all_chars_collapse (q : ascii -> bool) (s : string) :
  Py.all_chars q s = true -> Py.all_chars q (Py.collapse_dashes s) = true.
Proof.
  induction s as [|c r IH]; simpl; [reflexivity|].
  intros H. apply andb_true_iff in H as [Hc Hr].
  destruct (Py.is_char "-" c && Py.starts_with (Py.is_char "-") r)%bool; [auto|].
  simpl. now rewrite Hc, IH.
Qed.

Lemma single_dashes_tail (c : ascii) (r : string) :
  single_dashes (String c r) = true -> single_dashes r = true.
Proof. simpl. intros H. now apply andb_true_iff in H. Qed.

Lemma single_dashes_lstrip (p : ascii -> bool) (s : string) :
  single_dashes s = true -> single_dashes (Py.lstrip p s) = true.
Proof.
  induction s as [|c r IH]; [reflexivity|].
  intros H. simpl Py.lstrip. destruct (p c); [|exact H].
  apply IH. now apply single_dashes_tail in H.
Qed.

Lemma single_dashes_rstrip (p : ascii -> bool) (s : string) :
  single_dashes s = true -> single_dashes (Py.rstrip p s) = true.
Proof.
  induction s as [|c r IH]; [reflexivity|].
  intros H. simpl Py.rstrip.
  destruct (Py.is_empty (Py.rstrip p r) && p c)%bool; [reflexivity|].
  simpl in H. apply andb_true_iff in H as [Hc Hr].
  simpl. rewrite (IH Hr), andb_true_r.
  apply negb_true_iff. apply negb_true_iff in Hc.
  destruct (Py.is_char "-" c); [|reflexivity]. simpl in *.
  destruct (Py.starts_with (Py.is_char "-") (Py.rstrip p r)) eqn:E; [|reflexivity].
  apply rstrip_head in E. congruence.
Qed.

Lemma starts_with_ext (p q : ascii -> bool) (s : string) :
  (forall c, p c = q c) -> Py.starts_with p s = Py.starts_with q s.
Proof. intros H. destruct s; simpl; auto. Qed.

Lemma ends_with_ext (p q : ascii -> bool) (s : string) :
  (forall c, p c = q c) -> Py.ends_with p s = Py.ends_with q s.
Proof.
  intros H. induction s as [|c r IH]; simpl; [reflexivity|].
  now rewrite IH, H.
Qed.

(** ** The sanitizer *)

Lemma settled_replace (c : ascii) :
  settled (if keep_char (Py.lower_char c) then Py.lower_char c else "-"%char)
  = true.
Proof. each_char c; reflexivity. Qed.

Lemma settled_keep (c : ascii) : settled c = true -> keep_char c = true.
Proof. unfold settled. intros H. now apply andb_true_iff in H. Qed.

Lemma settled_lower (c : ascii) : settled c = true -> Py.lower_char c = c.
Proof.
  unfold settled. intros H. apply andb_true_iff in H as [_ H].
  now apply Ascii.eqb_eq.
Qed.

Lemma replace_lower_settled (y : string) :
  Py.all_chars settled (replace_unsafe (Py.lower y)) = true.
Proof.
  induction y as [|c r IH]; [reflexivity|].
  cbn [Py.lower replace_unsafe Py.all_chars].
  rewrite settled_replace. exact IH.
Qed.

Lemma strip_dash_head (s : string) :
  Py.starts_with (Py.is_char "-") (Py.strip_chars "-" s) = false.
Proof.
  unfold Py.strip_chars. change (fun c => existsb _ _) with dash_set.
  rewrite <- (starts_with_ext _ _ _ dash_set_spec).
  apply rstrip_starts, lstrip_starts.
Qed.

Lemma strip_dash_last (s : string) :
  Py.ends_with (Py.is_char "-") (Py.strip_chars "-" s) = false.
Proof.
  unfold Py.strip_chars. change (fun c => existsb _ _) with dash_set.
  rewrite <- (ends_with_ext _ _ _ dash_set_spec).
  apply rstrip_ends.
Qed.

Lemma strip_dash_fix (s : string) :
  Py.starts_with (Py.is_char "-") s = false ->
  Py.ends_with (Py.is_char "-") s = false ->
  Py.strip_chars "-" s = s.
Proof.
  intros Hs He. unfold Py.strip_chars. change (fun c => existsb _ _) with dash_set.
  apply strip_with_fix.
  - now rewrite (starts_with_ext _ _ _ dash_set_spec).
  - now rewrite (ends_with_ext _ _ _ dash_set_spec).
Qed.

Lemma sanitize_safe (s : option string) : unit_safe (_sanitize_unit_part s).
Proof.
  unfold _sanitize_unit_part.
  set (x := match s with Some x => x | None => "" end).
  set (y := Py.collapse_dashes (replace_unsafe (Py.lower (Py.strip x)))).
  destruct (Py.is_empty (Py.strip_chars "-" y)) eqn:E.
  - split; reflexivity.
  - split.
    + unfold Py.strip_chars, Py.strip_with.
      apply all_chars_rstrip, all_chars_lstrip, all_chars_collapse,
        replace_lower_settled.
    + unfold Py.strip_chars, Py.strip_with.
      apply single_dashes_rstrip, single_dashes_lstrip, collapse_single.
    + apply strip_dash_head.
    + apply strip_dash_last.
    + exact E.
Qed.

Lemma safe_no_space_head (r : string) :
  Py.all_chars settled r = true ->
  Py.starts_with (Py.is_char "-") r = false ->
  Py.starts_with Py.isspace r = false.
Proof.
  destruct r as [|c t]; simpl; [reflexivity|].
  intros H Hd. apply andb_true_iff in H as [Hc _].
  apply kept_not_space; [now apply settled_keep|exact Hd].
Qed.

Lemma safe_no_space_last (r : string) :
  Py.all_chars settled r = true ->
  Py.ends_with (Py.is_char "-") r = false ->
  Py.ends_with Py.isspace r = false.
Proof.
  induction r as [|c t IH]; simpl; [reflexivity|].
  intros H Hd. apply andb_true_iff in H as [Hc Ht].
  destruct (Py.is_empty t); [|now apply IH].
  apply kept_not_space; [now apply settled_keep|exact Hd].
Qed.

Lemma settled_lower_fix (r : string) :
  Py.all_chars settled r = true -> Py.lower r = r.
Proof.
  induction r as [|c t IH]; simpl; [reflexivity|].
  intros H. apply andb_true_iff in H as [Hc Ht].
  now rewrite (settled_lower _ Hc), (IH Ht).
Qed.

Lemma settled_replace_fix (r : string) :
  Py.all_chars settled r = true -> replace_unsafe r = r.
Proof.
  induction r as [|c t IH]; simpl; [reflexivity|].
  intros H. apply andb_true_iff in H as [Hc Ht].
  now rewrite (settled_keep _ Hc), (IH Ht).
Qed.

Lemma safe_fixed (r : string) :
  unit_safe r -> _sanitize_unit_part (Some r) = r.
Proof.
  intros [Hc Hs Hh Hl Hn]. unfold _sanitize_unit_part, Py.strip.
  rewrite (strip_with_fix Py.isspace r
             (safe_no_space_head r Hc Hh) (safe_no_space_last r Hc Hl)).
  rewrite (settled_lower_fix r Hc), (settled_replace_fix r Hc).
  rewrite (collapse_fix r Hs), (strip_dash_fix r Hh Hl), Hn.
  reflexivity.
Qed.

(** ** Decimal text of an integer *)

Lemma int_digits_uint (u : Decimal.uint) (acc : Z) :
  Py.int_digits acc false (NilEmpty.string_of_uint u) = Some (uint_value acc u).
Proof.
  revert acc. induction u; intros acc; [reflexivity|..];
    cbn [NilEmpty.string_of_uint Py.int_digits uint_value];
    match goal with
    | |- context [Py.is_char "_" ?c] =>
        change (Py.is_char "_" c) with false; cbv iota;
        match goal with
        | |- context [Py.digit_value c] =>
            let v := eval vm_compute in (Py.digit_value c) in
            change (Py.digit_value c) with v; cbv iota
        end
    end; apply IHu.
Qed.

Lemma uint_value_revapp (u d : Decimal.uint) :
  Z.of_N (Unsigned.of_lu (Decimal.revapp u d))
  = uint_value (Z.of_N (Unsigned.of_lu d)) u.
Proof.
  revert d. induction u; intros d; [reflexivity|..];
    cbn [Decimal.revapp uint_value]; rewrite IHu; f_equal;
    cbn [Unsigned.of_lu]; lia.
Qed.

Lemma uint_value_of_uint (u : Decimal.uint) :
  uint_value 0 u = Z.of_N (Pos.of_uint u).
Proof.
  rewrite Unsigned.of_uint_alt. unfold Decimal.rev.
  now rewrite uint_value_revapp.
Qed.

Lemma magnitude_uint (u : Decimal.uint) :
  u <> Decimal.Nil ->
  (Py.count_digits (NilEmpty.string_of_uint u) <= Py.int_max_str_digits)%N ->
  Py.int_magnitude (NilEmpty.string_of_uint u) = Some (Z.of_N (Pos.of_uint u)).
Proof.
  intros Hu Hn. rewrite <- uint_value_of_uint, <- int_digits_uint.
  apply N.ltb_ge in Hn.
  destruct u; [congruence|..]; unfold Py.int_magnitude;
    cbn [NilEmpty.string_of_uint] in *;
    match goal with
    | |- context [Py.is_char "_" ?c] => change (Py.is_char "_" c) with false
    end; cbv iota; rewrite Hn; reflexivity.
Qed.

Lemma uint_numeric (u : Decimal.uint) :
  Py.all_chars is_digit (NilEmpty.string_of_uint u) = true.
Proof. induction u; [reflexivity|..]; exact IHu. Qed.

Lemma nilzero_nonnil (u : Decimal.uint) :
  u <> Decimal.Nil -> NilZero.string_of_uint u = NilEmpty.string_of_uint u.
Proof. destruct u; [congruence|..]; reflexivity. Qed.

Lemma all_chars_impl (p q : ascii -> bool) (s : string) :
  (forall c, p c = true -> q c = true) ->
  Py.all_chars p s = true -> Py.all_chars q s = true.
Proof.
  intros Hpq. induction s as [|c r IH]; simpl; [reflexivity|].
  intros H. apply andb_true_iff in H as [Hc Hr].
  rewrite (Hpq _ Hc). exact (IH Hr).
Qed.

Lemma all_chars_ends (p q : ascii -> bool) (s : string) :
  (forall c, p c = true -> q c = false) ->
  Py.all_chars p s = true ->
  Py.starts_with q s = false /\ Py.ends_with q s = false.
Proof.
  intros Hpq. induction s as [|c r IH]; simpl; [auto|].
  intros H. apply andb_true_iff in H as [Hc Hr].
  split; [auto|]. destruct (Py.is_empty r); [auto|]. now apply IH.
Qed.

Lemma digit_numeric (c : ascii) : is_digit c = true -> numeric c = true.
Proof. unfold numeric. now intros ->. Qed.

Lemma numeric_not_blank (c : ascii) :
  numeric c = true -> Py.int_isspace c = false.
Proof. each_char c; vm_compute; congruence. Qed.

Lemma str_int_numeric (z : Z) : Py.all_chars numeric (Py.str_int z) = true.
Proof.
  unfold Py.str_int.
  destruct z as [|p|p]; [reflexivity|..]; cbn [Z.to_int NilZero.string_of_int];
    rewrite (nilzero_nonnil _ (Unsigned.to_uint_nonnil p)).
  - apply (all_chars_impl is_digit); [apply digit_numeric|apply uint_numeric].
  - cbn [Py.all_chars]. change (numeric "-") with true. cbn [andb].
    apply (all_chars_impl is_digit); [apply digit_numeric|apply uint_numeric].
Qed.

Lemma uint_first_digit (u : Decimal.uint) :
  u <> Decimal.Nil ->
  exists c r, NilEmpty.string_of_uint u = String c r /\ is_digit c = true.
Proof.
  destruct u; [congruence|..]; intros _; cbn [NilEmpty.string_of_uint];
    eexists _, _; split; reflexivity.
Qed.

Lemma digit_not_sign (c : ascii) :
  is_digit c = true -> Py.is_char "+" c = false /\ Py.is_char "-" c = false.
Proof. each_char c; vm_compute; intros H; split; congruence. Qed.

(** [int(str(n)) == n] for an integer within the cap on digits: every such
    integer is the value of some token. *)
Lemma int_str_int (z : Z) : digits_within z -> Py.int (Py.str_int z) = Some z.
Proof.
  unfold digits_within, Py.int.
  destruct (all_chars_ends numeric Py.int_isspace (Py.str_int z)
              numeric_not_blank (str_int_numeric z)) as [Hs He].
  rewrite (strip_with_fix _ _ Hs He). clear Hs He.
  unfold Py.str_int. destruct z as [|p|p]; [reflexivity|..];
    cbn [Z.to_int NilZero.string_of_int];
    rewrite (nilzero_nonnil _ (Unsigned.to_uint_nonnil p)); intros Hn.
  - destruct (uint_first_digit _ (Unsigned.to_uint_nonnil p)) as (c & r & E & Hc).
    destruct (digit_not_sign c Hc) as [Hplus Hminus].
    rewrite E, Hplus, Hminus, <- E.
    rewrite (magnitude_uint _ (Unsigned.to_uint_nonnil p) Hn).
    now rewrite Unsigned.of_to.
  - change (Py.is_char "+" "-") with false.
    change (Py.is_char "-" "-") with true. cbv iota.
    rewrite (magnitude_uint _ (Unsigned.to_uint_nonnil p) Hn).
    now rewrite Unsigned.of_to.
Qed.

Lemma blank_not_digit (c : ascii) :
  Py.int_isspace c = true -> Py.between 48 57 c = false.
Proof. each_char c; vm_compute; congruence. Qed.

Lemma count_digits_lstrip (s : string) :
  Py.count_digits (Py.lstrip Py.int_isspace s) = Py.count_digits s.
Proof.
  induction s as [|c r IH]; [reflexivity|].
  cbn [Py.lstrip]. destruct (Py.int_isspace c) eqn:E; [|reflexivity].
  cbn [Py.count_digits]. now rewrite (blank_not_digit c E), IH.
Qed.

Lemma count_digits_rstrip (s : string) :
  Py.count_digits (Py.rstrip Py.int_isspace s) = Py.count_digits s.
Proof.
  induction s as [|c r IH]; [reflexivity|].
  cbn [Py.rstrip].
  destruct (Py.is_empty (Py.rstrip Py.int_isspace r)) eqn:Ee;
    destruct (Py.int_isspace c) eqn:E; cbn [andb Py.count_digits];
    rewrite ?IH; try reflexivity.
  rewrite (blank_not_digit c E), <- IH.
  destruct (Py.rstrip Py.int_isspace r); [reflexivity|discriminate].
Qed.

Lemma magnitude_over_cap (t : string) :
  (Py.int_max_str_digits < Py.count_digits t)%N -> Py.int_magnitude t = None.
Proof.
  intros H. unfold Py.int_magnitude. destruct t as [|d t']; [reflexivity|].
  destruct (Py.is_char "_" d); [reflexivity|].
  apply N.ltb_lt in H. now rewrite H.
Qed.

(** A token with more digits than the cap is refused, whatever else it
    holds. *)
Lemma int_over_cap (s : string) :
  (Py.int_max_str_digits < Py.count_digits s)%N -> Py.int s = None.
Proof.
  intros H. unfold Py.int.
  assert (L : Py.count_digits (Py.strip_with Py.int_isspace s)
              = Py.count_digits s)
    by (unfold Py.strip_with; now rewrite count_digits_rstrip, count_digits_lstrip).
  rewrite <- L in H. clear L.
  destruct (Py.strip_with Py.int_isspace s) as [|c r]; [reflexivity|].
  destruct (Py.is_char "+" c) eqn:Ep.
  - apply is_char_eq in Ep. subst c. now apply magnitude_over_cap.
  - destruct (Py.is_char "-" c) eqn:Em.
    + apply is_char_eq in Em. subst c. now rewrite magnitude_over_cap.
    + now apply magnitude_over_cap.
Qed.

Lemma read_back_str_int (z : Z) : read_back (Py.str_int z) = Some z.
Proof.
  unfold Py.str_int. destruct z as [|p|p]; [reflexivity|..];
    cbn [Z.to_int NilZero.string_of_int];
    rewrite (nilzero_nonnil _ (Unsigned.to_uint_nonnil p)).
  - destruct (uint_first_digit _ (Unsigned.to_uint_nonnil p)) as (c & r & E & Hc).
    destruct (digit_not_sign c Hc) as [_ Hminus].
    unfold read_back. rewrite E, Hminus, <- E.
    rewrite int_digits_uint, uint_value_of_uint.
    now rewrite Unsigned.of_to.
  - unfold read_back. change (Py.is_char "-" "-") with true. cbv iota.
    rewrite int_digits_uint, uint_value_of_uint.
    now rewrite Unsigned.of_to.
Qed.

Lemma str_int_inj (a b : Z) : Py.str_int a = Py.str_int b -> a = b.
Proof.
  intros H. apply (f_equal read_back) in H. rewrite !read_back_str_int in H.
  congruence.
Qed.

Lemma str_int_shaped (z : Z) : int_shaped (Py.str_int z) = true.
Proof.
  unfold Py.str_int. destruct z as [|p|p]; [reflexivity|..];
    cbn [Z.to_int NilZero.string_of_int];
    rewrite (nilzero_nonnil _ (Unsigned.to_uint_nonnil p));
    destruct (uint_first_digit _ (Unsigned.to_uint_nonnil p)) as (c & r & E & Hc).
  - unfold int_shaped. rewrite E.
    destruct (digit_not_sign c Hc) as [_ ->]. rewrite <- E. apply uint_numeric.
  - unfold int_shaped. change (Py.is_char "-" "-") with true. cbv iota.
    rewrite uint_numeric, E. reflexivity.
Qed.

Lemma digits_no_dash (u v : string) :
  Py.all_chars is_digit (u ++ String "-" v) = false.
Proof.
  induction u as [|c r IH]; [reflexivity|].
  cbn [append Py.all_chars]. rewrite IH. apply andb_false_r.
Qed.

Lemma shaped_no_inner_dash (a : ascii) (u v : string) :
  int_shaped (String a (u ++ String "-" v)) = false.
Proof.
  unfold int_shaped. destruct (Py.is_char "-" a).
  - rewrite digits_no_dash. apply andb_false_r.
  - cbn [Py.all_chars]. rewrite digits_no_dash. apply andb_false_r.
Qed.

Lemma split_name_spec (t d : string) :
  Py.ends_with (Py.is_char "-") t = false ->
  int_shaped d = true ->
  split_name (t ++ String "-" d) = Some (t, d).
Proof.
  intros Ht Hd. induction t as [|c r IH].
  - cbn [append split_name]. change (Py.is_char "-" "-") with true.
    now rewrite Hd.
  - cbn [append split_name].
    assert (E : (Py.is_char "-" c && int_shaped (r ++ String "-" d))%bool = false).
    { destruct r as [|a r'].
      - cbn in Ht. rewrite Ht. reflexivity.
      - cbn [append]. rewrite shaped_no_inner_dash. apply andb_false_r. }
    rewrite E, IH; [reflexivity|].
    destruct r as [|a r']; [reflexivity|exact Ht].
Qed.

Lemma length_append (a b : string) :
  String.length (a ++ b) = (String.length a + String.length b)%nat.
Proof. induction a as [|c r IH]; simpl; [reflexivity|]. now rewrite IH. Qed.

Lemma append_inv_head (a x y : string) : a ++ x = a ++ y -> x = y.
Proof.
  induction a as [|c r IH]; simpl; [auto|]. intros H. injection H. exact IH.
Qed.

Lemma append_inv_tail (a x y : string) : x ++ a = y ++ a -> x = y.
Proof.
  revert y. induction x as [|c r IH]; intros [|d y'] H.
  - reflexivity.
  - apply (f_equal String.length) in H. cbn [append String.length] in H.
    rewrite length_append in H. lia.
  - apply (f_equal String.length) in H. cbn [append String.length] in H.
    rewrite length_append in H. lia.
  - cbn [append] in H. injection H as -> H. f_equal. now apply IH.
Qed.

Lemma append_assoc (a b c : string) : (a ++ b) ++ c = a ++ (b ++ c).
Proof. induction a as [|x r IH]; simpl; [reflexivity|]. now rewrite IH. Qed.

(** The name part and the port of a joined pair are determined by the
    joined text. *)
Lemma joined_unique (t1 t2 : string) (p1 p2 : Z) :
  Py.ends_with (Py.is_char "-") t1 = false ->
  Py.ends_with (Py.is_char "-") t2 = false ->
  t1 ++ "-" ++ Py.str_int p1 = t2 ++ "-" ++ Py.str_int p2 ->
  t1 = t2 /\ p1 = p2.
Proof.
  intros H1 H2 E.
  pose proof (split_name_spec t1 _ H1 (str_int_shaped p1)) as S1.
  pose proof (split_name_spec t2 _ H2 (str_int_shaped p2)) as S2.
  cbn [append] in E. rewrite E in S1. rewrite S1 in S2.
  injection S2 as -> Hp. split; [reflexivity|]. now apply str_int_inj.
Qed.

(** ** Names made only of characters the sanitizer rejects *)

Lemma rejected_becomes_dash (c : ascii) :
  rejected c = true ->
  (if keep_char (Py.lower_char c) then Py.lower_char c else "-"%char) = "-"%char.
Proof. each_char c; vm_compute; congruence. Qed.

Lemma rejected_replace (y : string) :
  Py.all_chars rejected y = true ->
  Py.all_chars dash_set (replace_unsafe (Py.lower y)) = true.
Proof.
  induction y as [|c r IH]; [reflexivity|].
  cbn [Py.lower replace_unsafe Py.all_chars].
  intros H. apply andb_true_iff in H as [Hc Hr].
  rewrite (rejected_becomes_dash c Hc), (IH Hr). reflexivity.
Qed.

Lemma lstrip_all (p : ascii -> bool) (s : string) :
  Py.all_chars p s = true -> Py.lstrip p s = "".
Proof.
  induction s as [|c r IH]; simpl; [reflexivity|].
  intros H. apply andb_true_iff in H as [Hc Hr]. rewrite Hc. exact (IH Hr).
Qed.

Lemma sanitize_rejected (x : string) :
  Py.all_chars rejected x = true -> _sanitize_unit_part (Some x) = "tunnel".
Proof.
  intros H. unfold _sanitize_unit_part, Py.strip_chars.
  change (fun c => existsb _ _) with dash_set.
  unfold Py.strip_with at 1. rewrite lstrip_all; [reflexivity|].
  apply all_chars_collapse, rejected_replace.
  unfold Py.strip, Py.strip_with.
  now apply all_chars_rstrip, all_chars_lstrip.
Qed.

(** ** Canonical identifiers *)

(** C1, the delimiter: a sanitized name may contain the dash that joins it
    to the port, so the sanitized alphabet does not exclude the delimiter. *)
Lemma canonical_id_delimiter_in_name :
  _sanitize_unit_part (Some "vpn-eu") = "vpn-eu"
  /\ Py.all_chars (fun c => negb (Py.is_char "-" c))
       (_sanitize_unit_part (Some "vpn-eu")) = false
  /\ _get_service_name (with_name "vpn-eu") 443
     = "vortexl2-fwd-vpn-eu-443.service".
Proof. repeat split; reflexivity. Qed.

(** C1, as amended: for every tunnel name and port the canonical identifier
    is a function of the two (deterministic); the sanitized name in it is
    never empty, a name of rejected characters only and an absent name give
    the token "tunnel"; and two identifiers are equal only if the sanitized
    names and the ports are.  The joint is unambiguous because a sanitized
    name never ends with the dash and the text of a port has a dash at most
    as its sign, not because the dash is missing from the sanitized
    alphabet. *)
Theorem canonical_id_collision_free (cfg1 cfg2 : Config) (p1 p2 : Z) :
  (name cfg1 = name cfg2 -> p1 = p2 ->
   _get_service_name cfg1 p1 = _get_service_name cfg2 p2)
  /\ Py.is_empty (_sanitize_unit_part (name_arg (name cfg1))) = false
  /\ Py.is_empty (_get_service_name cfg1 p1) = false
  /\ (forall x, Py.all_chars rejected x = true ->
        _sanitize_unit_part (Some x) = "tunnel")
  /\ _sanitize_unit_part None = "tunnel"
  /\ Py.ends_with (Py.is_char "-") (_sanitize_unit_part (name_arg (name cfg1)))
     = false
  /\ int_shaped (Py.str_int p1) = true
  /\ (_get_service_name cfg1 p1 = _get_service_name cfg2 p2 ->
      _sanitize_unit_part (name_arg (name cfg1))
      = _sanitize_unit_part (name_arg (name cfg2))
      /\ p1 = p2).
Proof.
  pose proof (sanitize_safe (name_arg (name cfg1))) as S1.
  pose proof (sanitize_safe (name_arg (name cfg2))) as S2.
  split; [intros Hn Hp; unfold _get_service_name; rewrite Hn, Hp; reflexivity|].
  split; [apply S1|]. split; [reflexivity|].
  split; [apply sanitize_rejected|]. split; [reflexivity|].
  split; [apply S1|]. split; [apply str_int_shaped|].
  intros H. unfold _get_service_name in H.
  apply append_inv_head in H.
  rewrite <- !append_assoc in H. apply append_inv_tail in H.
  rewrite !append_assoc in H.
  apply (joined_unique _ _ p1 p2); [apply S1|apply S2|exact H].
Qed.

Lemma canonical_id_collision_free_witness :
  _get_service_name (with_name "My Tunnel") 8080
  = _get_service_name (with_name "my-tunnel") 8080
  /\ _sanitize_unit_part (Some "My Tunnel") = _sanitize_unit_part (Some "my-tunnel")
  /\ 8080 = 8080.
Proof.
  split; [reflexivity|].
  apply (canonical_id_collision_free (with_name "My Tunnel")
           (with_name "my-tunnel") 8080 8080).
  reflexivity.
Defined.

(** C8: sanitization is a total function of its argument (a [str] or
    [None]), so it never fails and equal inputs give equal outputs, and it
    is idempotent. *)
Theorem sanitize_idempotent (s : option string) :
  (exists r, _sanitize_unit_part s = r)
  /\ (forall s', s = s' -> _sanitize_unit_part s = _sanitize_unit_part s')
  /\ _sanitize_unit_part (Some (_sanitize_unit_part s)) = _sanitize_unit_part s.
Proof.
  split; [eexists; reflexivity|]. split; [now intros s' <-|].
  apply safe_fixed, sanitize_safe.
Qed.
(** ** Running the manager on any host *)

Section Runs.

Context {W : Type} {host : Host W}.

Local Open Scope fwd_scope.

Lemma bind_eq {A B : Type} (m : M W A) (k : A -> M W B) (st st' : state W) (a : A) :
  m st = (Return a, st') -> bind m k st = k a st'.
Proof. unfold bind. now intros ->. Qed.

Lemma bind_throw {A B : Type} (m : M W A) (k : A -> M W B) (st st' : state W)
    (e : exn) :
  m st = (Throw e, st') -> bind m k st = (Throw e, st').
Proof. unfold bind. now intros ->. Qed.

Lemma run_command_state (cmd : string) (st : state W) :
  snd (run_command cmd st)
  = mkState (snd (subprocess_run cmd (world st))) (config st)
      (log st ++ [ERun cmd]).
Proof.
  unfold run_command. destruct (subprocess_run cmd (world st)). reflexivity.
Qed.

Lemma run_command_config (cmd : string) (st : state W) :
  config (snd (run_command cmd st)) = config st.
Proof. now rewrite run_command_state. Qed.

(** [run_command] never raises. *)
Lemma run_command_returns (cmd : string) (st : state W) :
  exists r, run_command cmd st = (Return r, snd (run_command cmd st)).
Proof.
  unfold run_command. destruct (subprocess_run cmd (world st)) as [r w].
  eexists. reflexivity.
Qed.

Lemma batch_body_port (op : Z -> M W (bool * string)) (tok : string) (port : Z)
    (results : list string) (st : state W) :
  Py.int tok = Some port ->
  batch_body op tok results st
  = (let (r, st') := op port st in
     match r with
     | Return (_, msg) =>
         (Return (append_line results ("Port " ++ Py.str_int port ++ ": " ++ msg)),
          st')
     | Throw ValueError =>
         (Return (append_line results ("Port '" ++ tok ++ "': Invalid port number")),
          st')
     | Throw (OSError e) => (Throw (OSError e), st')
     end).
Proof.
  intros E. unfold batch_body, except_ValueError, bind, int_, ret. rewrite E.
  destruct (op port st) as [[[success msg]|[e|]] st']; reflexivity.
Qed.

Lemma batch_body_invalid (op : Z -> M W (bool * string)) (tok : string)
    (results : list string) (st : state W) :
  Py.int tok = None ->
  batch_body op tok results st
  = (Return (append_line results ("Port '" ++ tok ++ "': Invalid port number")),
     st).
Proof.
  intros E. unfold batch_body, except_ValueError, bind, int_, ret. now rewrite E.
Qed.

Lemma batch_run_length (op : Z -> M W (bool * string)) (toks lines : list string)
    (stop : option string) (st st' : state W) :
  batch_run op toks st lines stop st' ->
  stop = None -> length lines = length toks.
Proof. induction 1; simpl; intros; try discriminate; auto. Qed.

Lemma for_each_batch (op : Z -> M W (bool * string)) (toks : list string) :
  raises_no_ValueError op ->
  forall (results : list string) (st : state W),
  exists lines stop st',
    batch_run op toks st lines stop st'
    /\ for_each toks (batch_body op) results st
       = (match stop with
          | None => Return (results ++ lines)%list
          | Some e => Throw (OSError e)
          end, st').
Proof.
  intros Hop. induction toks as [|tok toks IH]; intros results st.
  - exists [], None, st. cbn [for_each]. rewrite List.app_nil_r.
    split; [constructor|reflexivity].
  - cbn [for_each]. destruct (Py.int tok) as [port|] eqn:E.
    + pose proof (Hop port st) as Hv.
      destruct (op port st) as [[[success msg]|[e|]] st1] eqn:Eop;
        cbn [fst] in Hv; [| |congruence].
      * destruct (IH (append_line results ("Port " ++ Py.str_int port ++ ": " ++ msg)) st1)
          as (lines & stop & st' & Hrel & Hrun).
        exists (("Port " ++ Py.str_int port ++ ": " ++ msg) :: lines), stop, st'.
        split; [econstructor; eassumption|].
        erewrite bind_eq by (rewrite (batch_body_port _ _ _ _ _ E), Eop; reflexivity).
        rewrite Hrun. unfold append_line. now rewrite <- List.app_assoc.
      * exists [], (Some e), st1.
        split; [eapply batch_abort; eassumption|].
        erewrite bind_throw by (rewrite (batch_body_port _ _ _ _ _ E), Eop; reflexivity).
        reflexivity.
    + destruct (IH (append_line results ("Port '" ++ tok ++ "': Invalid port number")) st)
        as (lines & stop & st' & Hrel & Hrun).
      exists (("Port '" ++ tok ++ "': Invalid port number") :: lines), stop, st'.
      split; [now constructor|].
      erewrite bind_eq by (apply batch_body_invalid; exact E).
      rewrite Hrun. unfold append_line. now rewrite <- List.app_assoc.
Qed.

End Runs.

(** ** Tokens of a batch *)

Lemma numeric_not_comma (c : ascii) : numeric c = true -> not_comma c = true.
Proof. each_char c; vm_compute; congruence. Qed.

Lemma numeric_not_space (c : ascii) : numeric c = true -> Py.isspace c = false.
Proof. each_char c; vm_compute; congruence. Qed.

Lemma split_comma_single (s : string) :
  Py.all_chars not_comma s = true -> Py.split_comma s = [s].
Proof.
  induction s as [|c r IH]; [reflexivity|].
  cbn [Py.all_chars Py.split_comma]. intros H.
  apply andb_true_iff in H as [Hc Hr]. unfold not_comma in Hc.
  apply negb_true_iff in Hc. rewrite Hc, (IH Hr). reflexivity.
Qed.

Lemma split_comma_cons (p rest : string) :
  Py.all_chars not_comma p = true ->
  Py.split_comma (p ++ "," ++ rest) = p :: Py.split_comma rest.
Proof.
  induction p as [|c r IH]; [reflexivity|].
  cbn [Py.all_chars append]. intros H.
  apply andb_true_iff in H as [Hc Hr]. unfold not_comma in Hc.
  apply negb_true_iff in Hc. cbn [Py.split_comma]. rewrite Hc.
  cbn [append] in IH. now rewrite (IH Hr).
Qed.

(** Splitting undoes joining with commas. *)
Lemma split_comma_join (pieces : list string) :
  pieces <> [] ->
  Forall (fun p => Py.all_chars not_comma p = true) pieces ->
  Py.split_comma (Py.join "," pieces) = pieces.
Proof.
  intros Hne H. induction H as [|p ps Hp Hps IH]; [congruence|].
  destruct ps as [|q qs].
  - cbn [Py.join String.concat]. now apply split_comma_single.
  - unfold Py.join in *. cbn [String.concat].
    rewrite (split_comma_cons p _ Hp). f_equal. apply IH. discriminate.
Qed.

Lemma str_int_first (z : Z) :
  exists c r, Py.str_int z = String c r /\ numeric c = true.
Proof.
  pose proof (str_int_numeric z) as H. pose proof (str_int_shaped z) as S.
  destruct (Py.str_int z) as [|c r]; [discriminate|].
  exists c, r. cbn [Py.all_chars] in H. apply andb_true_iff in H as [Hc _].
  now split.
Qed.

Lemma port_tokens_str_int (z : Z) : port_tokens (Py.str_int z) = [Py.str_int z].
Proof.
  unfold port_tokens.
  rewrite split_comma_single
    by (apply (all_chars_impl numeric); [apply numeric_not_comma|apply str_int_numeric]).
  cbn [map]. unfold Py.strip.
  destruct (all_chars_ends numeric Py.isspace (Py.str_int z)
              numeric_not_space (str_int_numeric z)) as [Hs He].
  rewrite (strip_with_fix _ _ Hs He).
  destruct (str_int_first z) as (c & r & E & _). rewrite E. reflexivity.
Qed.

Lemma blank_or_space (c : ascii) :
  comma_or_blank c = true -> Py.is_char "," c = false -> Py.isspace c = true.
Proof. unfold comma_or_blank. intros H E. now rewrite E in H. Qed.

Lemma split_comma_blank (s : string) :
  Py.all_chars comma_or_blank s = true ->
  Forall (fun p => Py.all_chars Py.isspace p = true) (Py.split_comma s).
Proof.
  induction s as [|c r IH]; [repeat constructor|].
  cbn [Py.all_chars Py.split_comma]. intros H.
  apply andb_true_iff in H as [Hc Hr]. specialize (IH Hr).
  destruct (Py.is_char "," c) eqn:E.
  - constructor; [reflexivity|exact IH].
  - pose proof (blank_or_space c Hc E) as Hb.
    destruct (Py.split_comma r) as [|p ps].
    + repeat constructor. cbn [Py.all_chars]. now rewrite Hb.
    + inversion IH as [|? ? Hp Hps]; subst. constructor; [|exact Hps].
      cbn [Py.all_chars]. now rewrite Hb, Hp.
Qed.

Lemma strip_blank (p : string) :
  Py.all_chars Py.isspace p = true -> Py.strip p = "".
Proof.
  intros H. unfold Py.strip, Py.strip_with. now rewrite lstrip_all.
Qed.

Lemma port_tokens_blank (s : string) :
  Py.all_chars comma_or_blank s = true -> port_tokens s = [].
Proof.
  intros H. apply split_comma_blank in H. unfold port_tokens.
  induction H as [|p ps Hp _ IH]; [reflexivity|].
  cbn [map filter]. rewrite (strip_blank p Hp). exact IH.
Qed.

(** ** Effects of the single operations *)

Section Effects.

Context {W : Type} {host : Host W}.

Local Open Scope fwd_scope.

Lemma migrate_effects (port : Z) (st : state W) :
  let legacy := path_exists (_legacy_service_path port) (world st) in
  config (snd (_migrate_legacy_unit port st)) = config st
  /\ log (snd (_migrate_legacy_unit port st))
     = (log st ++ if probed legacy then migration_events port else [])%list
  /\ (legacy <> Answer true -> snd (_migrate_legacy_unit port st) = st)
  /\ fst (_migrate_legacy_unit port st)
     = match legacy with
       | Answer _ => Return tt
       | Refused e => Throw (OSError e)
       end.
Proof.
  cbv zeta. unfold _migrate_legacy_unit. run_manager.
  destruct (path_exists (_legacy_service_path port) (world st)) as [[|]|e] eqn:E;
    cbn [probed].
  - run_manager. repeat (host_step; run_manager).
    rewrite <- !List.app_assoc. repeat split. congruence.
  - run_manager. rewrite List.app_nil_r. repeat split.
  - run_manager. rewrite List.app_nil_r. repeat split.
Qed.

(** The migration as a step: where its probe answers it returns. *)
Lemma migrate_returns (port : Z) (st : state W) (b : bool) :
  path_exists (_legacy_service_path port) (world st) = Answer b ->
  _migrate_legacy_unit port st = (Return tt, snd (_migrate_legacy_unit port st)).
Proof.
  intros E. destruct (migrate_effects port st) as (_ & _ & _ & Hf).
  rewrite E in Hf. destruct (_migrate_legacy_unit port st) as [r st1].
  cbn [fst snd] in *. now rewrite Hf.
Qed.

Lemma migrate_raises (port : Z) (st : state W) (e : string) :
  path_exists (_legacy_service_path port) (world st) = Refused e ->
  _migrate_legacy_unit port st = (Throw (OSError e), st).
Proof.
  intros E. unfold _migrate_legacy_unit, bind, exists_. now rewrite E.
Qed.

End Effects.

Section Operations.

Context {W : Type} {host : Host W}.

Local Open Scope fwd_scope.

Lemma create_unconfigured (port : Z) (st : state W) :
  truthy (remote_forward_ip (config st)) = false ->
  create_forward port st
  = (Return (false, "Remote forward IP not configured"), st).
Proof.
  intros H. unfold create_forward. unfold bind at 1, get_config.
  rewrite H. reflexivity.
Qed.

(** C2, as amended: when the remote endpoint is not configured,
    [create_forward] returns the configuration error and leaves the state as
    it was: nothing is logged, the machine and declared state are untouched.
    The restart of one port runs the legacy migration first and then only
    reports the configuration error for that port (or passes on the error of
    a probe that raised): its final state is the one the migration left, so
    beyond the stop, disable and unlink of a legacy unit whose file exists
    (and the reload) there is no unit-file write, no controller call and no
    change of declared state; without a legacy file the state is
    unchanged. *)
Theorem config_error_effects (port : Z) (results : list string) (st : state W) :
  truthy (remote_forward_ip (config st)) = false ->
  let st1 := snd (_migrate_legacy_unit port st) in
  let legacy := path_exists (_legacy_service_path port) (world st) in
  create_forward port st
  = (Return (false, "Remote forward IP not configured"), st)
  /\ restart_body port results st
     = (match legacy with
        | Refused e => Throw (OSError e)
        | Answer _ =>
            match path_exists (_get_service_path (config st) port) (world st1) with
            | Answer true =>
                Return (append_line results
                          ("Port " ++ Py.str_int port ++ ": remote_forward_ip not set"))
            | Answer false =>
                Return (append_line results
                          ("Port " ++ Py.str_int port
                             ++ ": failed to recreate - Remote forward IP not configured"))
            | Refused e => Throw (OSError e)
            end
        end, st1)
  /\ log st1
     = (log st ++ if probed legacy then migration_events port else [])%list
  /\ config st1 = config st
  /\ (legacy <> Answer true -> snd (restart_body port results st) = st).
Proof.
  intros H st1 legacy.
  destruct (migrate_effects port st) as (Hc & Hl & Hn & Hf).
  fold st1 in Hc, Hl, Hn. fold legacy in Hl, Hn, Hf.
  assert (R : restart_body port results st
     = (match legacy with
        | Refused e => Throw (OSError e)
        | Answer _ =>
            match path_exists (_get_service_path (config st) port) (world st1) with
            | Answer true =>
                Return (append_line results
                          ("Port " ++ Py.str_int port ++ ": remote_forward_ip not set"))
            | Answer false =>
                Return (append_line results
                          ("Port " ++ Py.str_int port
                             ++ ": failed to recreate - Remote forward IP not configured"))
            | Refused e => Throw (OSError e)
            end
        end, st1)).
  { unfold restart_body. unfold bind at 1.
    subst st1. destruct (_migrate_legacy_unit port st) as [u st1].
    cbn [fst snd] in *. rewrite Hf. destruct legacy as [b|e]; [|reflexivity].
    unfold bind at 1, get_config. rewrite Hc.
    unfold bind at 1, exists_.
    destruct (path_exists (_get_service_path (config st) port) (world st1))
      as [[|]|e]; cbn [negb].
    - rewrite H. reflexivity.
    - unfold bind. rewrite create_unconfigured by (now rewrite Hc).
      reflexivity.
    - reflexivity. }
  split; [now apply create_unconfigured|].
  split; [exact R|]. split; [exact Hl|]. split; [exact Hc|].
  intros E. rewrite R. cbn [snd]. now apply Hn.
Qed.

Lemma add_port_declared (port : Z) (cfg : Config) :
  existsb (Z.eqb port) (forwarded_ports cfg) = true -> add_port port cfg = cfg.
Proof. destruct cfg as [n r l ports]. unfold add_port. cbn. now intros ->. Qed.

Lemma declared_after_remove (port : Z) (ports : list Z) :
  existsb (Z.eqb port) (filter (fun p => negb (Z.eqb port p)) ports) = false.
Proof.
  induction ports as [|p ps IH]; [reflexivity|].
  cbn [filter]. destruct (Z.eqb port p) eqn:E; cbn [negb]; [exact IH|].
  cbn [existsb]. now rewrite E, IH.
Qed.

(** The course of [remove_forward]: the four commands, then the probe and
    unlink of the canonical file, the probe and unlink of the legacy file,
    the reload and the change of declared state; a probe that raises ends
    it on the spot. *)
Lemma remove_forward_course (port : Z) (st : state W) :
  let cfg := config st in
  let st4 := after_stops port st in
  remove_forward port st
  = match path_exists (_get_service_path cfg port) (world st4) with
    | Refused e => (Throw (OSError e), st4)
    | Answer a =>
        let st5 := after_unlink (_get_service_path cfg port) a st4 in
        match path_exists (_legacy_service_path port) (world st5) with
        | Refused e => (Throw (OSError e), st5)
        | Answer b =>
            let st6 := after_unlink (_legacy_service_path port) b st5 in
            (Return (true, "Port forward for " ++ Py.str_int port ++ " removed"),
             mkState (snd (subprocess_run "systemctl daemon-reload" (world st6)))
               (remove_port port cfg)
               (log st ++ removal_events cfg port a b))
        end
    end.
Proof.
  cbv zeta. unfold remove_forward, after_stops, after_unlink, removal_events.
  run_manager. do 4 (host_step; run_manager).
  (exists_step; run_manager; [unlink_step| |reflexivity]);
  (exists_step; run_manager; [unlink_step| |reflexivity]);
  host_step; run_manager; rewrite <- !List.app_assoc; reflexivity.
Qed.

Lemma after_stops_effects (port : Z) (st : state W) :
  config (after_stops port st) = config st
  /\ log (after_stops port st)
     = (log st
        ++ [ERun ("systemctl stop " ++ _get_service_name (config st) port);
            ERun ("systemctl disable " ++ _get_service_name (config st) port);
            ERun ("systemctl stop " ++ _legacy_service_name port);
            ERun ("systemctl disable " ++ _legacy_service_name port)])%list.
Proof.
  unfold after_stops. cbv zeta. rewrite !run_command_state. cbn [config log].
  rewrite <- !List.app_assoc. split; reflexivity.
Qed.

Lemma after_unlink_effects (path : string) (found : bool) (st : state W) :
  config (after_unlink path found st) = config st
  /\ log (after_unlink path found st)
     = (log st ++ if found then [EUnlink path] else [])%list.
Proof.
  unfold after_unlink, unlink_quietly. destruct found.
  - destruct (path_unlink path (world st)). split; reflexivity.
  - rewrite List.app_nil_r. split; reflexivity.
Qed.

(** X19: [remove_forward] issues stop and disable for the
    canonical and for the legacy unit, whatever they answer; it then probes
    the canonical and the legacy unit file in turn and unlinks each one the
    probe finds, ignoring the outcome of the unlink.  When both probes
    answer it reloads, removes the port from declared state as its last
    step, and returns success; declared state then no longer lists the
    port.  A probe that raises ends the operation with that error: nothing
    is reloaded and declared state is as before. *)
Theorem remove_forward_cleanup (port : Z) (st : state W) :
  let cfg := config st in
  let st4 := after_stops port st in
  (log st4
   = (log st
      ++ [ERun ("systemctl stop " ++ _get_service_name cfg port);
          ERun ("systemctl disable " ++ _get_service_name cfg port);
          ERun ("systemctl stop " ++ _legacy_service_name port);
          ERun ("systemctl disable " ++ _legacy_service_name port)])%list
   /\ config st4 = cfg)
  /\ match path_exists (_get_service_path cfg port) (world st4) with
     | Refused e => remove_forward port st = (Throw (OSError e), st4)
     | Answer a =>
         let st5 := after_unlink (_get_service_path cfg port) a st4 in
         (st5 = if a then snd (unlink_quietly (_get_service_path cfg port) st4)
                else st4)
         /\ config st5 = cfg
         /\ match path_exists (_legacy_service_path port) (world st5) with
            | Refused e => remove_forward port st = (Throw (OSError e), st5)
            | Answer b =>
                let st6 := after_unlink (_legacy_service_path port) b st5 in
                remove_forward port st
                = (Return (true, "Port forward for " ++ Py.str_int port
                                   ++ " removed"),
                   mkState
                     (snd (subprocess_run "systemctl daemon-reload" (world st6)))
                     (remove_port port cfg)
                     (log st
                      ++ [ERun ("systemctl stop " ++ _get_service_name cfg port);
                          ERun ("systemctl disable " ++ _get_service_name cfg port);
                          ERun ("systemctl stop " ++ _legacy_service_name port);
                          ERun ("systemctl disable " ++ _legacy_service_name port)]
                      ++ (if a then [EUnlink (_get_service_path cfg port)] else [])
                      ++ (if b then [EUnlink (_legacy_service_path port)] else [])
                      ++ [ERun "systemctl daemon-reload"; ERemovePort port]))
                /\ existsb (Z.eqb port)
                     (forwarded_ports (config (snd (remove_forward port st))))
                   = false
            end
     end.
Proof.
  cbv zeta. pose proof (remove_forward_course port st) as C. cbv zeta in C.
  destruct (after_stops_effects port st) as [Hc Hl].
  split; [split; [exact Hl|exact Hc]|].
  destruct (path_exists _ (world (after_stops port st))) as [a|e]; [|exact C].
  split; [reflexivity|].
  split; [now rewrite (proj1 (after_unlink_effects _ _ _))|].
  destruct (path_exists (_legacy_service_path port) _) as [b|e]; [|exact C].
  rewrite C. cbn [snd config]. split; [reflexivity|].
  apply declared_after_remove.
Qed.

(** Neither operation of a batch raises a [ValueError]. *)
Lemma remove_no_ValueError : raises_no_ValueError remove_forward.
Proof.
  intros port st. pose proof (remove_forward_course port st) as C. cbv zeta in C.
  rewrite C.
  destruct (path_exists _ (world (after_stops port st))) as [a|e]; [|discriminate].
  destruct (path_exists (_legacy_service_path port) _) as [b|e]; discriminate.
Qed.

Lemma remove_forward_config (port : Z) (st : state W) :
  config (snd (remove_forward port st))
  = if succeeded (fst (remove_forward port st)) then remove_port port (config st)
    else config st.
Proof.
  pose proof (remove_forward_course port st) as C. cbv zeta in C. rewrite C.
  destruct (after_stops_effects port st) as [Hc _].
  destruct (path_exists _ (world (after_stops port st))) as [a|e];
    [|cbn [fst snd succeeded]; exact Hc].
  destruct (path_exists (_legacy_service_path port) _) as [b|e];
    cbn [fst snd succeeded config]; [reflexivity|].
  now rewrite (proj1 (after_unlink_effects _ _ _)).
Qed.

(** The ways [create_forward] can end, with the state each leaves. *)
Lemma create_cases (port : Z) (st : state W) :
  let cfg := config st in
  let legacy := path_exists (_legacy_service_path port) (world st) in
  let mig := if probed legacy then migration_events port else [] in
  let wr := EWrite (_get_service_path cfg port) (unit_text cfg port) in
  (truthy (remote_forward_ip cfg) = false
   /\ create_forward port st
      = (Return (false, "Remote forward IP not configured"), st))
  \/ (truthy (remote_forward_ip cfg) = true
      /\ exists e, legacy = Refused e
                   /\ create_forward port st = (Throw (OSError e), st))
  \/ (truthy (remote_forward_ip cfg) = true
      /\ (exists b, legacy = Answer b)
      /\ exists msg w,
           create_forward port st
           = (Return (false, msg), mkState w cfg (log st ++ mig ++ [wr]))
           \/ create_forward port st
              = (Return (false, msg),
                 mkState w cfg
                   (log st ++ mig ++ [wr; ERun "systemctl daemon-reload";
                      ERun ("systemctl enable --now " ++ _get_service_name cfg port)]))
           \/ create_forward port st
              = (Return (true, msg),
                 mkState w (add_port port cfg)
                   (log st ++ mig ++ creation_events cfg port))).
Proof.
  cbv zeta. destruct (truthy (remote_forward_ip (config st))) eqn:T;
    [right|left; split; [reflexivity|now apply create_unconfigured]].
  destruct (path_exists (_legacy_service_path port) (world st)) as [b|e] eqn:P.
  2:{ left. split; [reflexivity|]. exists e. split; [reflexivity|].
      unfold create_forward. unfold bind at 1, get_config. rewrite T. cbn [negb].
      now rewrite (bind_throw _ _ _ _ _ (migrate_raises port st e P)). }
  right. split; [reflexivity|]. split; [now exists b|].
  destruct (migrate_effects port st) as (Hc & Hl & _ & _). rewrite P in Hl.
  remember (create_forward port st) as out eqn:E. revert E.
  unfold create_forward. unfold bind at 1, get_config. rewrite T. cbn [negb].
  rewrite (bind_eq _ _ _ _ _ (migrate_returns port st b P)).
  destruct (_migrate_legacy_unit port st) as [u st1]. cbn [snd] in Hc, Hl.
  run_manager. host_step; run_manager.
  - intros ->. do 2 eexists. left.
    rewrite Hl, Hc, <- !List.app_assoc. reflexivity.
  - do 2 (host_step; run_manager).
    repeat outcome_step; cbn [negb]; intros ->; do 2 eexists;
      [right; right|right; left|right; left];
      unfold creation_events, unit_text, config_add_port;
      cbn [world config log];
      rewrite ?Hl, ?Hc, <- !List.app_assoc; cbn [app]; reflexivity.
Qed.

Lemma create_no_ValueError : raises_no_ValueError create_forward.
Proof.
  intros port st.
  destruct (create_cases port st)
    as [[_ E]|[(_ & e & _ & E)|(_ & _ & msg & w & [E|[E|E]])]];
    rewrite E; discriminate.
Qed.

Lemma create_config (port : Z) (st : state W) :
  config (snd (create_forward port st))
  = if succeeded (fst (create_forward port st)) then add_port port (config st)
    else config st.
Proof.
  destruct (create_cases port st)
    as [[_ E]|[(_ & e & _ & E)|(_ & _ & msg & w & [E|[E|E]])]];
    rewrite E; reflexivity.
Qed.

End Operations.

Section Batches.

Context {W : Type} {host : Host W}.

Local Open Scope fwd_scope.

(** The run of a batch is determined by the tokens and the state. *)
Lemma batch_run_functional (op : Z -> M W (bool * string)) (toks : list string)
    (st : state W) (lines : list string) (stop : option string) (st' : state W) :
  batch_run op toks st lines stop st' ->
  forall lines2 stop2 st2,
    batch_run op toks st lines2 stop2 st2 ->
    lines2 = lines /\ stop2 = stop /\ st2 = st'.
Proof.
  induction 1 as [st|tok toks port st st1 st2 success msg lines stop Hi Ho _ IH
                 |tok toks st st2 lines stop Hi _ IH
                 |tok toks port st st1 e Hi Ho];
    intros lines2 stop2 s2 R; inversion R; subst;
    repeat match goal with
    | H1 : Py.int ?t = _, H2 : Py.int ?t = _ |- _ =>
        rewrite H1 in H2; first [discriminate H2 | injection H2 as ->]
    | H1 : op ?p ?s = _, H2 : op ?p ?s = _ |- _ =>
        rewrite H1 in H2; first [discriminate H2 | injection H2; intros; subst]
    end; try discriminate; auto.
  - match goal with
    | H : batch_run op toks _ _ _ _ |- _ =>
        destruct (IH _ _ _ H) as (-> & -> & ->)
    end. auto.
  - match goal with
    | H : batch_run op toks _ _ _ _ |- _ =>
        destruct (IH _ _ _ H) as (-> & -> & ->)
    end. auto.
Qed.

Lemma batch_of_tokens (op : Z -> M W (bool * string)) (ports_str : string)
    (st : state W) :
  raises_no_ValueError op ->
  exists lines stop st',
    batch_run op (port_tokens ports_str) st lines stop st'
    /\ (results <- for_each (port_tokens ports_str) (batch_body op) [] ;;
        ret (true, Py.join nl results)) st
       = (batch_result lines stop, st')
    /\ (stop = None -> length lines = length (port_tokens ports_str))
    /\ (forall lines2 stop2 st2,
          batch_run op (port_tokens ports_str) st lines2 stop2 st2 ->
          lines2 = lines /\ stop2 = stop /\ st2 = st').
Proof.
  intros Hop.
  destruct (for_each_batch op (port_tokens ports_str) Hop [] st)
    as (lines & stop & st' & Hrel & Hrun).
  exists lines, stop, st'. split; [exact Hrel|]. split; [|split].
  - unfold bind, ret. rewrite Hrun. destruct stop; reflexivity.
  - eapply batch_run_length; eassumption.
  - eapply batch_run_functional; eassumption.
Qed.

Lemma tokens_of_joined (pieces : list string) :
  pieces <> [] ->
  Forall (fun p => Py.all_chars not_comma p = true) pieces ->
  port_tokens (Py.join "," pieces)
  = filter (fun p => negb (Py.is_empty p)) (map Py.strip pieces).
Proof.
  intros Hne H. unfold port_tokens. now rewrite split_comma_join.
Qed.

(** C5, as amended: [add_multiple_forwards] and [remove_multiple_forwards]
    split the input at commas, trim each piece and drop the empty ones, and
    run over the remaining tokens in order: a token that [int] accepts is
    handed to the operation and gives the line "Port n: message" with n the
    decimal text of the parsed integer (not the token as typed), any other
    token gives "Port 'token': Invalid port number" and the run goes on.
    When no operation raises, the result is [True] with the lines joined by
    newlines, one per token; an operation that raises (the [OSError] of an
    existence probe) ends the batch with that error and no transcript.  The
    run, and so the result, is determined by the tokens and the state. *)
Theorem batch_transcript (ports_str : string) (st : state W) :
  (forall pieces : list string,
     pieces <> [] ->
     Forall (fun p => Py.all_chars not_comma p = true) pieces ->
     port_tokens (Py.join "," pieces)
     = filter (fun p => negb (Py.is_empty p)) (map Py.strip pieces))
  /\ (exists lines stop st',
        batch_run create_forward (port_tokens ports_str) st lines stop st'
        /\ add_multiple_forwards ports_str st = (batch_result lines stop, st')
        /\ (stop = None -> length lines = length (port_tokens ports_str))
        /\ (forall lines2 stop2 st2,
              batch_run create_forward (port_tokens ports_str) st lines2 stop2 st2 ->
              lines2 = lines /\ stop2 = stop /\ st2 = st'))
  /\ (exists lines stop st',
        batch_run remove_forward (port_tokens ports_str) st lines stop st'
        /\ remove_multiple_forwards ports_str st = (batch_result lines stop, st')
        /\ (stop = None -> length lines = length (port_tokens ports_str))
        /\ (forall lines2 stop2 st2,
              batch_run remove_forward (port_tokens ports_str) st lines2 stop2 st2 ->
              lines2 = lines /\ stop2 = stop /\ st2 = st')).
Proof.
  split; [apply tokens_of_joined|].
  split; apply batch_of_tokens;
    [apply create_no_ValueError|apply remove_no_ValueError].
Qed.

Lemma batch_single (op : Z -> M W (bool * string)) (z : Z) (st : state W) :
  digits_within z ->
  raises_no_ValueError op ->
  (results <- for_each (port_tokens (Py.str_int z)) (batch_body op) [] ;;
   ret (true, Py.join nl results)) st
  = (let (r, st') := op z st in
     match r with
     | Return (_, msg) =>
         (Return (true, "Port " ++ Py.str_int z ++ ": " ++ msg), st')
     | Throw e => (Throw e, st')
     end).
Proof.
  intros Hz Hop. rewrite port_tokens_str_int. cbn [for_each].
  unfold bind at 1 2. rewrite (batch_body_port _ _ _ _ _ (int_str_int z Hz)).
  pose proof (Hop z st) as Hv.
  destruct (op z st) as [[[success msg]|[e|]] st']; cbn [fst] in Hv;
    [reflexivity|reflexivity|congruence].
Qed.

Lemma numeric_not_quote (c : ascii) : numeric c = true -> c <> "'"%char.
Proof. intros H ->. discriminate H. Qed.

Lemma invalid_line_iff (op : Z -> M W (bool * string)) (tok : string)
    (results : list string) (st : state W) :
  raises_no_ValueError op ->
  fst (batch_body op tok results st)
  = Return (append_line results ("Port '" ++ tok ++ "': Invalid port number"))
  <-> Py.int tok = None.
Proof.
  intros Hop. split.
  - destruct (Py.int tok) as [port|] eqn:E; [|reflexivity].
    rewrite (batch_body_port _ _ _ _ _ E). pose proof (Hop port st) as Hv.
    destruct (op port st) as [[[success msg]|[e|]] st']; cbn [fst] in *;
      [|discriminate|congruence].
    unfold append_line. intros H. injection H as H.
    apply List.app_inv_head in H. injection H as H.
    destruct (str_int_first port) as (c & r & Ec & Hc). rewrite Ec in H.
    cbn [append] in H. injection H as H _.
    now apply numeric_not_quote in Hc.
  - intros E. now rewrite (batch_body_invalid _ _ _ _ E).
Qed.

Lemma create_attempts_write (port : Z) (st : state W) :
  truthy (remote_forward_ip (config st)) = true ->
  (exists b, path_exists (_legacy_service_path port) (world st) = Answer b) ->
  exists content before after,
    log (snd (create_forward port st))
    = (log st ++ before
         ++ [EWrite (_get_service_path (config st) port) content] ++ after)%list.
Proof.
  intros H [b P].
  destruct (create_cases port st)
    as [[T _]|[(_ & e & R & _)|(_ & _ & msg & w & [E|[E|E]])]];
    [congruence|cbv zeta in R; congruence|..]; rewrite E; cbn [snd log];
    unfold creation_events; do 3 eexists.
  - f_equal. f_equal. instantiate (1 := []). reflexivity.
  - f_equal. f_equal. cbn [app]. reflexivity.
  - f_equal. f_equal. cbn [app]. reflexivity.
Qed.

(** C9: a batch checks no port range.  The decimal text of any integer
    that [int] can read, zero, negative or above 65535 included, parses
    back to that integer and the batch hands exactly that integer to
    [create_forward] or [remove_forward]; [create_forward], once the remote
    endpoint is configured and its probe of the legacy file has answered,
    goes on to write the unit file for it.  Every token that [int] accepts
    is handed on with its parsed value, and the invalid-port line is
    produced for a token exactly when [int] rejects the token, as it does
    for one of more than 4300 digits. *)
Theorem batch_no_range_check (z : Z) (st : state W) :
  digits_within z ->
  Py.int (Py.str_int z) = Some z
  /\ add_multiple_forwards (Py.str_int z) st
     = (let (r, st') := create_forward z st in
        match r with
        | Return (_, msg) =>
            (Return (true, "Port " ++ Py.str_int z ++ ": " ++ msg), st')
        | Throw e => (Throw e, st')
        end)
  /\ remove_multiple_forwards (Py.str_int z) st
     = (let (r, st') := remove_forward z st in
        match r with
        | Return (_, msg) =>
            (Return (true, "Port " ++ Py.str_int z ++ ": " ++ msg), st')
        | Throw e => (Throw e, st')
        end)
  /\ (truthy (remote_forward_ip (config st)) = true ->
      (exists b, path_exists (_legacy_service_path z) (world st) = Answer b) ->
      exists content before after,
        log (snd (create_forward z st))
        = (log st ++ before
             ++ [EWrite (_get_service_path (config st) z) content] ++ after)%list)
  /\ (forall (op : Z -> M W (bool * string)) tok port results st0,
        Py.int tok = Some port ->
        batch_body op tok results st0
        = (let (r, st') := op port st0 in
           match r with
           | Return (_, msg) =>
               (Return (append_line results
                          ("Port " ++ Py.str_int port ++ ": " ++ msg)), st')
           | Throw ValueError =>
               (Return (append_line results
                          ("Port '" ++ tok ++ "': Invalid port number")), st')
           | Throw (OSError e) => (Throw (OSError e), st')
           end))
  /\ (raises_no_ValueError create_forward /\ raises_no_ValueError remove_forward)
  /\ (forall (op : Z -> M W (bool * string)) tok results st0,
        raises_no_ValueError op ->
        fst (batch_body op tok results st0)
        = Return (append_line results ("Port '" ++ tok ++ "': Invalid port number"))
        <-> Py.int tok = None)
  /\ (forall tok, (Py.int_max_str_digits < Py.count_digits tok)%N ->
        Py.int tok = None).
Proof.
  intros Hz.
  split; [now apply int_str_int|].
  split; [apply batch_single; [exact Hz|apply create_no_ValueError]|].
  split; [apply batch_single; [exact Hz|apply remove_no_ValueError]|].
  split; [apply create_attempts_write|].
  split; [intros op tok port results st0 E; now apply batch_body_port|].
  split; [split; [apply create_no_ValueError|apply remove_no_ValueError]|].
  split; [intros; now apply invalid_line_iff|apply int_over_cap].
Qed.

(** C10: an input with no token in it, empty or made of commas and blanks
    only, gives [True] with the empty transcript and leaves the state as it
    was: no per-port operation runs.  The empty transcript is not the
    message the all-port operations give for an empty declared set. *)
Theorem empty_batch (ports_str : string) (st : state W) :
  Py.all_chars comma_or_blank ports_str = true ->
  port_tokens ports_str = []
  /\ add_multiple_forwards ports_str st = (Return (true, ""), st)
  /\ remove_multiple_forwards ports_str st = (Return (true, ""), st)
  /\ "" <> "No port forwards configured"
  /\ (forwarded_ports (config st) = [] ->
      fst (start_all_forwards st) = Return (true, "No port forwards configured")
      /\ fst (stop_all_forwards st) = Return (true, "No port forwards configured")
      /\ fst (restart_all_forwards st)
         = Return (true, "No port forwards configured")).
Proof.
  intros H. pose proof (port_tokens_blank ports_str H) as E.
  split; [exact E|].
  unfold add_multiple_forwards, remove_multiple_forwards. rewrite E.
  split; [reflexivity|]. split; [reflexivity|]. split; [discriminate|].
  intros Hp.
  unfold start_all_forwards, stop_all_forwards, restart_all_forwards,
    bind, get_config.
  rewrite Hp. repeat split.
Qed.

End Batches.

Section Listing.

Context {W : Type} {host : Host W}.

Local Open Scope fwd_scope.

Lemma query_enabled_flag (unit_name : string) (st st' : state W)
    (success : bool) (output : string) :
  run_command ("systemctl is-enabled " ++ unit_name) st
  = (Return (success, output), st') ->
  query_enabled unit_name st
  = (if success then output else "disabled", st').
Proof. unfold query_enabled. intros ->. now destruct success. Qed.

(** One step of the listing appends the record of the port. *)
Lemma list_body_listed (port : Z) (forwards : list forward_info) (st : state W) :
  exists (record : forward_info) (st' : state W),
    list_body port forwards st = (Return (append_line forwards record), st')
    /\ info_port record = port
    /\ config st' = config st
    /\ forall ports records st'',
         listed ports st' records st'' ->
         listed (port :: ports) st (record :: records) st''.
Proof.
  unfold list_body. erewrite bind_eq by reflexivity.
  destruct (run_command_returns
              ("systemctl is-active " ++ _get_service_name (config st) port) st)
    as [[ok1 out1] E1].
  pose proof (run_command_config
                ("systemctl is-active " ++ _get_service_name (config st) port) st)
    as C1.
  set (st1 := snd (run_command _ st)) in *.
  erewrite bind_eq by exact E1. cbv beta iota.
  destruct ok1.
  - erewrite bind_eq by reflexivity. cbv beta iota.
    destruct (run_command_returns
                ("systemctl is-enabled " ++ _get_service_name (config st) port) st1)
      as [[ok3 out3] E3].
    pose proof (run_command_config
                  ("systemctl is-enabled " ++ _get_service_name (config st) port) st1)
      as C3.
    set (st3 := snd (run_command _ st1)) in *.
    erewrite bind_eq by exact E3. cbv beta iota. unfold ret.
    eexists _, st3. split; [reflexivity|]. split; [reflexivity|].
    split; [congruence|]. intros ports records st'' L.
    eapply listed_canonical; [exact E1| |exact L].
    now apply query_enabled_flag.
  - destruct (run_command_returns
                ("systemctl is-active " ++ _legacy_service_name port) st1)
      as [[ok2 out2] E2].
    pose proof (run_command_config
                  ("systemctl is-active " ++ _legacy_service_name port) st1) as C2.
    set (st2 := snd (run_command _ st1)) in *.
    erewrite bind_eq by (erewrite bind_eq by exact E2; reflexivity).
    cbv beta iota.
    destruct ok2.
    + destruct (run_command_returns
                  ("systemctl is-enabled " ++ _legacy_service_name port) st2)
        as [[ok3 out3] E3].
      pose proof (run_command_config
                    ("systemctl is-enabled " ++ _legacy_service_name port) st2) as C3.
      set (st3 := snd (run_command _ st2)) in *.
      erewrite bind_eq by exact E3. cbv beta iota. unfold ret.
      eexists _, st3. split; [reflexivity|]. split; [reflexivity|].
      split; [congruence|]. intros ports records st'' L.
      eapply listed_legacy; [exact E1|exact E2| |exact L].
      now apply query_enabled_flag.
    + destruct (run_command_returns
                  ("systemctl is-enabled " ++ _get_service_name (config st) port) st2)
        as [[ok3 out3] E3].
      pose proof (run_command_config
                    ("systemctl is-enabled " ++ _get_service_name (config st) port) st2)
        as C3.
      set (st3 := snd (run_command _ st2)) in *.
      erewrite bind_eq by exact E3. cbv beta iota. unfold ret.
      eexists _, st3. split; [reflexivity|]. split; [reflexivity|].
      split; [congruence|]. intros ports records st'' L.
      eapply listed_inactive; [exact E1|exact E2| |exact L].
      now apply query_enabled_flag.
Qed.

Lemma list_loop_listed (ports : list Z) :
  forall (forwards : list forward_info) (st : state W),
  exists records st',
    list_loop ports forwards st = (Return (forwards ++ records)%list, st')
    /\ listed ports st records st'
    /\ map info_port records = ports.
Proof.
  induction ports as [|port rest IH]; intros forwards st.
  - exists [], st. cbn [list_loop]. unfold ret. rewrite List.app_nil_r.
    split; [reflexivity|]. split; [constructor|reflexivity].
  - cbn [list_loop].
    destruct (list_body_listed port forwards st) as (record & st1 & E & Hp & _ & Hl).
    destruct (IH (append_line forwards record) st1) as (records & st' & E' & L & Hm).
    exists (record :: records), st'. erewrite bind_eq by exact E.
    rewrite E'. unfold append_line. rewrite <- List.app_assoc.
    split; [reflexivity|]. split; [now apply Hl|].
    cbn [map]. now rewrite Hp, Hm.
Qed.

(** The listing is determined by the ports and the state. *)
Lemma listed_functional (ports : list Z) (st : state W)
    (records : list forward_info) (st' : state W) :
  listed ports st records st' ->
  forall records2 st2,
    listed ports st records2 st2 -> records2 = records /\ st2 = st'.
Proof.
  induction 1; intros records2 s2 R; inversion R; subst;
    repeat match goal with
    | H1 : run_command ?c ?s = _, H2 : run_command ?c ?s = _ |- _ =>
        rewrite H1 in H2; first [discriminate H2 | injection H2; intros; subst]
    | H1 : query_enabled ?u ?s = _, H2 : query_enabled ?u ?s = _ |- _ =>
        rewrite H1 in H2; injection H2; intros; subst
    end; try discriminate; auto;
    match goal with
    | IH : forall r s, listed ?p ?s0 r s -> _, H : listed ?p ?s0 _ _ |- _ =>
        destruct (IH _ _ H) as [-> ->]
    end; auto.
Qed.

(** C7: [list_forwards] returns one record per declared port, in order,
    each holding the port, a status, an enabled flag and the remote
    endpoint.  The records are those of the listing as described: the
    status is the answer of is-active for the canonical unit when that
    query succeeds, else the answer for the legacy unit when that one
    succeeds, else "inactive"; is-enabled is asked of the unit whose answer
    gave the status (of the canonical unit when neither did), and the flag
    is "disabled" when it fails.  The description leaves no choice: any
    records that fit it are the ones returned. *)
Theorem list_forwards_records (st : state W) :
  exists (records : list forward_info) (st' : state W),
    list_forwards st = (Return records, st')
    /\ listed (forwarded_ports (config st)) st records st'
    /\ map info_port records = forwarded_ports (config st)
    /\ length records = length (forwarded_ports (config st))
    /\ (forall records2 st2,
          listed (forwarded_ports (config st)) st records2 st2 ->
          records2 = records /\ st2 = st').
Proof.
  destruct (list_loop_listed (forwarded_ports (config st)) [] st)
    as (records & st' & E & L & Hm).
  exists records, st'. split.
  - unfold list_forwards. erewrite bind_eq by reflexivity. exact E.
  - split; [exact L|]. split; [exact Hm|]. split.
    + rewrite <- Hm. now rewrite List.length_map.
    + eapply listed_functional; exact L.
Qed.

End Listing.

(** ** The all-port loops *)

Section Loops.

Context {W : Type} {host : Host W}.

Local Open Scope fwd_scope.












End Loops.
(** ** Running on the in-memory machine *)

Section OnMachine.

Local Open Scope fwd_scope.

Lemma sim_reload (st : state Sim.machine) :
  run_command "systemctl daemon-reload" st
  = (Return (true, ""),
     mkState (world st) (config st) (log st ++ [ERun "systemctl daemon-reload"])).
Proof. reflexivity. Qed.

Lemma sim_stop (u : string) (st : state Sim.machine) :
  Sim.has_file (Sim.unit_path u) (world st) = true ->
  run_command ("systemctl stop " ++ u) st
  = (Return (true, ""),
     mkState (Sim.set_active u false (world st)) (config st)
       (log st ++ [ERun ("systemctl stop " ++ u)])).
Proof.
  intros H. unfold run_command. cbn [subprocess_run Sim.host]. unfold Sim.run.
  change (Sim.parse_cmd ("systemctl stop " ++ u)) with (Sim.Stop u).
  cbn [Sim.systemctl]. rewrite H. reflexivity.
Qed.

Lemma sim_disable (u : string) (st : state Sim.machine) :
  Sim.has_file (Sim.unit_path u) (world st) = true ->
  run_command ("systemctl disable " ++ u) st
  = (Return (true, ""),
     mkState (Sim.set_enabled u false (world st)) (config st)
       (log st ++ [ERun ("systemctl disable " ++ u)])).
Proof.
  intros H. unfold run_command. cbn [subprocess_run Sim.host]. unfold Sim.run.
  change (Sim.parse_cmd ("systemctl disable " ++ u)) with (Sim.Disable u).
  cbn [Sim.systemctl]. rewrite H. reflexivity.
Qed.

Lemma sim_enable_now (u : string) (st : state Sim.machine) :
  Sim.has_file (Sim.unit_path u) (world st) = true ->
  run_command ("systemctl enable --now " ++ u) st
  = (Return (true, ""),
     mkState (Sim.set_active u true (Sim.set_enabled u true (world st)))
       (config st) (log st ++ [ERun ("systemctl enable --now " ++ u)])).
Proof.
  intros H. unfold run_command. cbn [subprocess_run Sim.host]. unfold Sim.run.
  change (Sim.parse_cmd ("systemctl enable --now " ++ u)) with (Sim.EnableNow u).
  cbn [Sim.systemctl]. rewrite H. reflexivity.
Qed.

Lemma sim_unlink (p : string) (st : state Sim.machine) :
  Sim.locked (world st) p = false ->
  Sim.has_file p (world st) = true ->
  unlink_quietly p st
  = (Return tt, mkState (Sim.set_file p None (world st)) (config st)
           (log st ++ [EUnlink p])).
Proof.
  intros Hl Hf. unfold unlink_quietly. cbn [path_unlink Sim.host].
  unfold Sim.unlink. rewrite Hl, Hf. reflexivity.
Qed.

Lemma sim_write (p content : string) (st : state Sim.machine) :
  Sim.locked (world st) p = false ->
  write_file p content st
  = (Return None, mkState (Sim.set_file p (Some content) (world st)) (config st)
             (log st ++ [EWrite p content])).
Proof.
  intros Hl. unfold write_file. cbn [write_text Sim.host].
  unfold Sim.write. rewrite Hl. reflexivity.
Qed.

Lemma upd_same {A : Type} (k : string) (v : A) (f : string -> A) :
  Sim.upd k v f k = v.
Proof. unfold Sim.upd. now rewrite String.eqb_refl. Qed.

Lemma upd_other {A : Type} (k x : string) (v : A) (f : string -> A) :
  k <> x -> Sim.upd k v f x = f x.
Proof. unfold Sim.upd. intros H. apply String.eqb_neq in H. now rewrite H. Qed.

Lemma canonical_not_legacy (cfg : Config) (port : Z) :
  _get_service_name cfg port <> _legacy_service_name port.
Proof.
  unfold _get_service_name, _legacy_service_name. intros H.
  apply append_inv_head in H. apply (f_equal String.length) in H.
  rewrite !length_append in H.
  pose proof (sanitize_safe (name_arg (name cfg))) as S.
  destruct S as [_ _ _ _ Hn].
  destruct (_sanitize_unit_part (name_arg (name cfg))); [discriminate|].
  cbn [String.length] in H. lia.
Qed.

Lemma canonical_path_not_legacy (cfg : Config) (port : Z) :
  _get_service_path cfg port <> _legacy_service_path port.
Proof.
  unfold _get_service_path, _legacy_service_path. intros H.
  apply append_inv_head in H. apply append_inv_head in H.
  now apply canonical_not_legacy in H.
Qed.

Lemma sim_migrate (port : Z) (m : Sim.machine) (cfg : Config) (lg : list event) :
  Sim.has_file (_legacy_service_path port) m = true ->
  Sim.locked m (_legacy_service_path port) = false ->
  _migrate_legacy_unit port (mkState m cfg lg)
  = (Return tt, mkState (decommissioned port m) cfg (lg ++ migration_events port)).
Proof.
  intros Hf Hl. unfold _migrate_legacy_unit.
  erewrite bind_eq by reflexivity. cbn [path_exists Sim.host world]. rewrite Hf.
  erewrite bind_eq by (apply sim_stop; exact Hf).
  erewrite bind_eq by (apply sim_disable; exact Hf).
  erewrite bind_eq by (apply sim_unlink; [exact Hl|exact Hf]).
  erewrite bind_eq by apply sim_reload.
  unfold ret, decommissioned, migration_events. cbn [world config log].
  rewrite <- !List.app_assoc. reflexivity.
Qed.

Lemma sim_migrate_absent (port : Z) (st : state Sim.machine) :
  Sim.has_file (_legacy_service_path port) (world st) = false ->
  _migrate_legacy_unit port st = (Return tt, st).
Proof.
  intros Hf. unfold _migrate_legacy_unit.
  erewrite bind_eq by reflexivity. cbn [path_exists Sim.host]. now rewrite Hf.
Qed.

Lemma sim_create (port : Z) (m : Sim.machine) (cfg : Config) (lg : list event) :
  truthy (remote_forward_ip cfg) = true ->
  Sim.has_file (_legacy_service_path port) m = false ->
  Sim.locked m (_get_service_path cfg port) = false ->
  create_forward port (mkState m cfg lg)
  = (Return (true, created_message cfg port),
     mkState (provisioned cfg port m) (add_port port cfg)
       (lg ++ creation_events cfg port)).
Proof.
  intros Hr Hf Hl. unfold create_forward.
  erewrite bind_eq by reflexivity. cbn [config]. rewrite Hr. cbn [negb].
  erewrite bind_eq by (apply sim_migrate_absent; exact Hf).
  erewrite bind_eq by (apply sim_write; exact Hl). cbv beta iota.
  erewrite bind_eq by apply sim_reload.
  erewrite bind_eq
    by (apply sim_enable_now; cbn [world]; unfold Sim.has_file;
        cbn [Sim.files Sim.set_file];
        change (Sim.unit_path (_get_service_name cfg port))
          with (_get_service_path cfg port);
        now rewrite upd_same).
  cbv beta iota. cbn [negb]. unfold bind, config_add_port, ret, provisioned, creation_events,
    unit_text.
  cbn [world config log]. rewrite <- !List.app_assoc. reflexivity.
Qed.



End OnMachine.

(** ** Scenarios on the in-memory machines *)

(** C2, the restart path: with no remote endpoint configured, restarting
    a declared port whose legacy unit exists stops and disables that unit
    and deletes its file before the configuration error is reported. *)
Lemma restart_unconfigured_has_effects :
  let st := Sim.boot legacy_only unconfigured in
  let out := restart_all_forwards st in
  truthy (remote_forward_ip (config st)) = false
  /\ fst out
     = Return (true, "Port 8080: failed to recreate - Remote forward IP not configured")
  /\ log (snd out)
     = [ERun "systemctl stop vortexl2-fwd-8080.service";
        ERun "systemctl disable vortexl2-fwd-8080.service";
        EUnlink "/etc/systemd/system/vortexl2-fwd-8080.service";
        ERun "systemctl daemon-reload"]
  /\ Sim.active (world st) "vortexl2-fwd-8080.service" = true
  /\ Sim.active (world (snd out)) "vortexl2-fwd-8080.service" = false
  /\ Sim.has_file "/etc/systemd/system/vortexl2-fwd-8080.service" (world (snd out))
     = false.
Proof. repeat split; vm_compute; reflexivity. Qed.

Lemma config_error_effects_witness :
  let st := Sim.boot legacy_only unconfigured in
  truthy (remote_forward_ip (config st)) = false
  /\ create_forward 8080 st
     = (Return (false, "Remote forward IP not configured"), st)
  /\ log (snd (restart_body 8080 [] st)) = (log st ++ migration_events 8080)%list.
Proof.
  cbv zeta. split; [reflexivity|].
  destruct (config_error_effects 8080 []
              (Sim.boot legacy_only unconfigured) eq_refl) as (C & R & L & _).
  split; [exact C|]. rewrite R. exact L.
Defined.

(** C3: a declared port whose canonical unit the controller cannot stop
    gets no line from [stop_all_forwards].  With port 8080 declared and
    forwarded by a legacy unit only, the transcript is the message for an
    empty declared set; with 8080 provisioned and 9090 not, two declared
    ports give a one-line transcript. *)
Theorem stop_all_drops_failed_ports :
  let st := Sim.boot legacy_only configured in
  let st2 :=
    Sim.boot (Sim.install "vortexl2-fwd-tunnel-8080.service" "unit" Sim.empty)
      (demo_config (PyStr "10.0.0.2") [8080; 9090]) in
  forwarded_ports (config st) = [8080]
  /\ fst (stop_all_forwards st) = Return (true, "No port forwards configured")
  /\ log (snd (stop_all_forwards st))
     = [ERun "systemctl stop vortexl2-fwd-tunnel-8080.service";
        ERun "systemctl stop vortexl2-fwd-8080.service"]
  /\ fst (stop_all_forwards st2)
     = Return (true, "Port 8080: stopped (vortexl2-fwd-tunnel-8080.service)")
  /\ fst (start_all_forwards st)
     = Return (true, "Port 8080: recreated and started").
Proof. repeat split; vm_compute; reflexivity. Qed.

(** C4, a probe that raises: on a machine that bounds the length of file
    names, removing a port whose unit name is longer than that issues the
    four stop and disable commands and then raises the error of the probe
    of the canonical unit file.  It does not return success, nothing is
    reloaded and the port is still declared; a batch that holds such a port
    raises likewise and leaves the ports after it declared.  The unit name
    is too long for port 8080 of a tunnel with a name of 250 letters, and
    for a port of 301 digits of the tunnel "tunnel". *)
Lemma remove_forward_probe_raises :
  let cfg := demo_config (PyStr "10.0.0.2") [long_port; 80] in
  let st := Bounded.boot Sim.empty cfg in
  let out := remove_forward long_port st in
  let refusal := OSError (Bounded.ENAMETOOLONG (_get_service_path cfg long_port)) in
  let cfg2 := mkConfig (PyStr long_name) (PyStr "10.0.0.2") Missing [8080] in
  let out2 := remove_forward 8080 (Bounded.boot Sim.empty cfg2) in
  (String.length (_get_service_name cfg2 8080) = 276%nat
   /\ fst out2
      = Throw (OSError (Bounded.ENAMETOOLONG (_get_service_path cfg2 8080)))
   /\ log (snd out2)
      = [ERun ("systemctl stop " ++ _get_service_name cfg2 8080);
         ERun ("systemctl disable " ++ _get_service_name cfg2 8080);
         ERun "systemctl stop vortexl2-fwd-8080.service";
         ERun "systemctl disable vortexl2-fwd-8080.service"]
   /\ forwarded_ports (config (snd out2)) = [8080])
  /\ String.length (_get_service_name cfg long_port) = 329%nat
  /\ fst out = Throw refusal
  /\ fst out <> Return (true, "Port forward for " ++ Py.str_int long_port ++ " removed")
  /\ log (snd out)
     = [ERun ("systemctl stop " ++ _get_service_name cfg long_port);
        ERun ("systemctl disable " ++ _get_service_name cfg long_port);
        ERun ("systemctl stop " ++ _legacy_service_name long_port);
        ERun ("systemctl disable " ++ _legacy_service_name long_port)]
  /\ forwarded_ports (config (snd out)) = [long_port; 80]
  /\ Py.int long_token = Some long_port
  /\ fst (remove_multiple_forwards (long_token ++ ",80") st) = Throw refusal
  /\ forwarded_ports (config (snd (remove_multiple_forwards (long_token ++ ",80") st)))
     = [long_port; 80].
Proof.
  cbv zeta.
  assert (E : fst (remove_forward long_port
                     (Bounded.boot Sim.empty
                        (demo_config (PyStr "10.0.0.2") [long_port; 80])))
              = Throw (OSError (Bounded.ENAMETOOLONG
                                  (_get_service_path
                                     (demo_config (PyStr "10.0.0.2") [long_port; 80])
                                     long_port))))
    by (vm_compute; reflexivity).
  split; [repeat split; vm_compute; reflexivity|].
  split; [vm_compute; reflexivity|]. split; [exact E|].
  split; [rewrite E; discriminate|].
  repeat split; vm_compute; reflexivity.
Qed.

(** C5, the line of a parsed token and the end of a batch: the token "007"
    is reported under the parsed port 7, not under the token as typed; and
    a batch does not always return, on a machine that bounds the length of
    file names the removal of a port with a longer unit name raises. *)
Lemma batch_line_names_parsed_port :
  let st := Sim.boot Sim.empty (demo_config PyNone []) in
  let bounded := Bounded.boot Sim.empty (demo_config PyNone []) in
  port_tokens "007" = ["007"]
  /\ Py.int "007" = Some 7
  /\ fst (remove_multiple_forwards "007" st)
     = Return (true, "Port 7: Port forward for 7 removed")
  /\ fst (add_multiple_forwards "007" st)
     = Return (true, "Port 7: Remote forward IP not configured")
  /\ (forall ok text, fst (remove_multiple_forwards "007" st) = Return (ok, text) ->
        String.prefix "Port 007: " text = false)
  /\ port_tokens long_token = [long_token]
  /\ fst (remove_multiple_forwards long_token bounded)
     = Throw (OSError (Bounded.ENAMETOOLONG
                         (_get_service_path (demo_config PyNone []) long_port)))
  /\ (forall text, fst (remove_multiple_forwards long_token bounded)
                   <> Return (true, text)).
Proof.
  cbv zeta.
  assert (E : fst (remove_multiple_forwards long_token
                     (Bounded.boot Sim.empty (demo_config PyNone [])))
              = Throw (OSError (Bounded.ENAMETOOLONG
                                  (_get_service_path (demo_config PyNone [])
                                     long_port))))
    by (vm_compute; reflexivity).
  assert (R : fst (remove_multiple_forwards "007"
                     (Sim.boot Sim.empty (demo_config PyNone [])))
              = Return (true, "Port 7: Port forward for 7 removed"))
    by (vm_compute; reflexivity).
  split; [reflexivity|]. split; [reflexivity|]. split; [exact R|].
  split; [vm_compute; reflexivity|]. split.
  { intros ok text H. rewrite R in H. injection H as <- <-. reflexivity. }
  split; [vm_compute; reflexivity|]. split; [exact E|].
  intros text. rewrite E. discriminate.
Qed.




Lemma sanitize_idempotent_witness :
  _sanitize_unit_part (Some " My Tunnel ") = _sanitize_unit_part (Some " My Tunnel ")
  /\ _sanitize_unit_part (Some (_sanitize_unit_part (Some " My Tunnel ")))
     = "my-tunnel".
Proof.
  destruct (sanitize_idempotent (Some " My Tunnel ")) as (_ & D & I).
  split; [exact (D _ eq_refl)|]. rewrite I. reflexivity.
Defined.

Lemma batch_no_range_check_witness :
  let st := Sim.boot Sim.empty (demo_config (PyStr "10.0.0.2") []) in
  digits_within 70000
  /\ truthy (remote_forward_ip (config st)) = true
  /\ Py.int "70000" = Some 70000
  /\ (exists content before after,
        log (snd (create_forward 70000 st))
        = (before ++ [EWrite "/etc/systemd/system/vortexl2-fwd-tunnel-70000.service"
                        content] ++ after)%list)
  /\ fst (batch_body remove_forward "-0_7" [] st)
     = Return ["Port -7: Port forward for -7 removed"]
  /\ Py.int "80a" = None.
Proof.
  cbv zeta.
  assert (D : digits_within 70000) by (vm_compute; discriminate).
  split; [exact D|]. split; [reflexivity|].
  destruct (batch_no_range_check 70000
              (Sim.boot Sim.empty (demo_config (PyStr "10.0.0.2") [])) D)
    as (P & _ & _ & Wr & Pass & [_ Nr] & Inv & _).
  split; [exact P|].
  split; [exact (Wr eq_refl (ex_intro _ false eq_refl))|]. split.
  - rewrite (Pass remove_forward "-0_7" (-7) []
               (Sim.boot Sim.empty (demo_config (PyStr "10.0.0.2") [])) eq_refl).
    reflexivity.
  - apply (Inv remove_forward "80a" []
             (Sim.boot Sim.empty (demo_config (PyStr "10.0.0.2") [])) Nr).
    reflexivity.
Defined.

Lemma empty_batch_witness :
  let st := Sim.boot legacy_only (demo_config (PyStr "10.0.0.2") []) in
  Py.all_chars comma_or_blank " , ," = true
  /\ add_multiple_forwards " , ," st = (Return (true, ""), st)
  /\ fst (restart_all_forwards st) = Return (true, "No port forwards configured").
Proof.
  cbv zeta. split; [reflexivity|].
  destruct (empty_batch " , ,"
              (Sim.boot legacy_only (demo_config (PyStr "10.0.0.2") [])) eq_refl)
    as (_ & A & _ & _ & E).
  split; [exact A|]. destruct (E eq_refl) as (_ & _ & R). exact R.
Defined.

(** Ports outside 1..65535 go through a batch like any other. *)
Example batch_out_of_range_ports :
  let st := Sim.boot Sim.empty (demo_config (PyStr "10.0.0.2") []) in
  let out := add_multiple_forwards "0, -1, 70000" st in
  forwarded_ports (config (snd out)) = [0; -1; 70000]
  /\ Sim.active (world (snd out)) "vortexl2-fwd-tunnel--1.service" = true.
Proof. split; vm_compute; reflexivity. Qed.

(** The batch of the specification's example. *)
Example batch_three_tokens :
  let st := Sim.boot Sim.empty (demo_config (PyStr "10.0.0.2") []) in
  let out := add_multiple_forwards "8080, abc, 9090" st in
  fst out
  = Return (true,
     "Port 8080: Port forward for 8080 created (listen 0.0.0.0 -> 10.0.0.2:8080)"
       ++ nl ++ "Port 'abc': Invalid port number" ++ nl ++
     "Port 9090: Port forward for 9090 created (listen 0.0.0.0 -> 10.0.0.2:9090)")
  /\ forwarded_ports (config (snd out)) = [8080; 9090].
Proof. split; vm_compute; reflexivity. Qed.

(** The removal of an ordinary port on the machine with bounded names. *)
Example remove_on_bounded_machine :
  let st := Bounded.boot legacy_only (demo_config (PyStr "10.0.0.2") [8080]) in
  remove_forward 8080 st
  = (Return (true, "Port forward for 8080 removed"),
     mkState (Bounded.mkMachine
                (decommissioned 8080 legacy_only))
       (demo_config (PyStr "10.0.0.2") [])
       (removal_events (config st) 8080 false true)).
Proof. vm_compute. reflexivity. Qed.

(** * Further properties *)

Lemma all_chars_append (p : ascii -> bool) (a b : string) :
  Py.all_chars p (a ++ b) = (Py.all_chars p a && Py.all_chars p b)%bool.
Proof.
  induction a as [|c r IH]; [reflexivity|].
  cbn [append Py.all_chars]. rewrite IH. apply andb_assoc.
Qed.

Lemma settled_word (c : ascii) : settled c = true -> word_char c = true.
Proof. each_char c; vm_compute; congruence. Qed.

Lemma numeric_word (c : ascii) : numeric c = true -> word_char c = true.
Proof. each_char c; vm_compute; congruence. Qed.

Lemma word_not_special (c : ascii) :
  word_char c = true -> negb (shell_special c) = true.
Proof. each_char c; vm_compute; congruence. Qed.

(** X1: every character of a unit name, canonical or legacy, is an
    alphanumeric, a dash, an underscore or a dot, for any tunnel name and
    port; none is a slash, a blank, a control character, a quote or an
    operator of the shell, so the unit file lies directly in the unit
    directory and the name is one plain word of the command line it is
    put in. *)
Theorem unit_names_path_safe (cfg : Config) (port : Z) :
  Py.all_chars word_char (_get_service_name cfg port) = true
  /\ Py.all_chars word_char (_legacy_service_name port) = true
  /\ (forall c, word_char c = true -> shell_special c = false)
  /\ Py.all_chars (fun c => negb (shell_special c)) (_get_service_name cfg port)
     = true
  /\ Py.all_chars (fun c => negb (shell_special c)) (_legacy_service_name port)
     = true.
Proof.
  pose proof (str_int_numeric port) as Hn.
  apply (all_chars_impl _ _ _ numeric_word) in Hn.
  destruct (sanitize_safe (name_arg (name cfg))) as [Hc _ _ _ _].
  apply (all_chars_impl _ _ _ settled_word) in Hc.
  assert (C : Py.all_chars word_char (_get_service_name cfg port) = true)
    by (unfold _get_service_name; rewrite !all_chars_append, Hn, Hc; reflexivity).
  assert (L : Py.all_chars word_char (_legacy_service_name port) = true)
    by (unfold _legacy_service_name; rewrite !all_chars_append, Hn; reflexivity).
  split; [exact C|]. split; [exact L|]. split; [|split].
  - intros c H. apply word_not_special in H. now apply negb_true_iff in H.
  - exact (all_chars_impl _ _ _ word_not_special C).
  - exact (all_chars_impl _ _ _ word_not_special L).
Qed.

Lemma canonical_name_vs_legacy (cfg : Config) (p q : Z) :
  _get_service_name cfg p <> _legacy_service_name q.
Proof.
  unfold _get_service_name, _legacy_service_name. intros H.
  apply append_inv_head in H.
  rewrite <- !append_assoc in H. apply append_inv_tail in H.
  pose proof (str_int_shaped q) as S. rewrite <- H in S.
  destruct (sanitize_safe (name_arg (name cfg))) as [_ _ _ _ Hn].
  destruct (_sanitize_unit_part (name_arg (name cfg))) as [|a t];
    [discriminate|].
  rewrite append_assoc in S. cbn [append] in S.
  now rewrite shaped_no_inner_dash in S.
Qed.

Lemma canonical_path_vs_legacy (cfg : Config) (p q : Z) :
  _get_service_path cfg p <> _legacy_service_path q.
Proof.
  unfold _get_service_path, _legacy_service_path. intros H.
  do 2 apply append_inv_head in H. now apply canonical_name_vs_legacy in H.
Qed.

(** X2: the canonical name of any tunnel and port differs from the legacy
    name of every port, and legacy names of different ports differ; what the
    migration stops, disables and deletes is never a canonical unit. *)
Theorem canonical_never_legacy (cfg : Config) (p q : Z) :
  _get_service_name cfg p <> _legacy_service_name q
  /\ _get_service_path cfg p <> _legacy_service_path q
  /\ (_legacy_service_name p = _legacy_service_name q -> p = q).
Proof.
  split; [apply canonical_name_vs_legacy|].
  split; [apply canonical_path_vs_legacy|].
  unfold _legacy_service_name. intros H. apply append_inv_head in H.
  apply append_inv_tail in H. now apply str_int_inj.
Qed.

Lemma canonical_never_legacy_witness :
  _legacy_service_name 80 = _legacy_service_name 80 /\ 80 = 80.
Proof.
  split; [reflexivity|].
  apply (canonical_never_legacy (named Missing) 80 80). reflexivity.
Defined.

Lemma strip_with_idem (p : ascii -> bool) (s : string) :
  Py.strip_with p (Py.strip_with p s) = Py.strip_with p s.
Proof.
  apply strip_with_fix; unfold Py.strip_with.
  - apply rstrip_starts, lstrip_starts.
  - apply rstrip_ends.
Qed.

Lemma lower_keeps_space (c : ascii) : Py.isspace (Py.lower_char c) = Py.isspace c.
Proof. each_char c; reflexivity. Qed.

Lemma lower_is_empty (s : string) : Py.is_empty (Py.lower s) = Py.is_empty s.
Proof. destruct s; reflexivity. Qed.

Lemma lower_lstrip (s : string) :
  Py.lstrip Py.isspace (Py.lower s) = Py.lower (Py.lstrip Py.isspace s).
Proof.
  induction s as [|c r IH]; [reflexivity|].
  cbn [Py.lower Py.lstrip]. rewrite lower_keeps_space.
  destruct (Py.isspace c); [exact IH|reflexivity].
Qed.

Lemma lower_rstrip (s : string) :
  Py.rstrip Py.isspace (Py.lower s) = Py.lower (Py.rstrip Py.isspace s).
Proof.
  induction s as [|c r IH]; [reflexivity|].
  cbn [Py.lower Py.rstrip]. rewrite IH, lower_is_empty, lower_keeps_space.
  destruct (Py.is_empty (Py.rstrip Py.isspace r) && Py.isspace c)%bool;
    reflexivity.
Qed.

Lemma lower_strip (s : string) : Py.strip (Py.lower s) = Py.lower (Py.strip s).
Proof. unfold Py.strip, Py.strip_with. now rewrite lower_lstrip, lower_rstrip. Qed.

Lemma lower_idem (s : string) : Py.lower (Py.lower s) = Py.lower s.
Proof.
  induction s as [|c r IH]; [reflexivity|].
  cbn [Py.lower]. now rewrite lower_char_idem, IH.
Qed.

(** X3: the sanitizer does not see the case of a tunnel name nor the blanks
    around it, and a name that is absent, [None], empty or "tunnel" gives
    the same fragment: such tunnels share their unit names. *)
Theorem sanitize_blind_to_case_and_blanks (x : string) (port : Z) :
  _sanitize_unit_part (Some (Py.lower x)) = _sanitize_unit_part (Some x)
  /\ _sanitize_unit_part (Some (Py.strip x)) = _sanitize_unit_part (Some x)
  /\ _get_service_name (named (PyStr (Py.lower x))) port
     = _get_service_name (named (PyStr x)) port
  /\ _get_service_name (named Missing) port
     = _get_service_name (named (PyStr "tunnel")) port
  /\ _get_service_name (named PyNone) port
     = _get_service_name (named (PyStr "tunnel")) port
  /\ _get_service_name (named (PyStr "")) port
     = _get_service_name (named (PyStr "tunnel")) port.
Proof.
  assert (L : _sanitize_unit_part (Some (Py.lower x)) = _sanitize_unit_part (Some x)).
  { unfold _sanitize_unit_part. now rewrite lower_strip, lower_idem. }
  split; [exact L|]. split.
  - unfold _sanitize_unit_part, Py.strip. now rewrite strip_with_idem.
  - split; [|repeat split].
    unfold _get_service_name, named, name_arg. cbn [name getattr_str].
    now rewrite L.
Qed.

(** X4: a tunnel name that already has the shape of a sanitized name is
    kept as it is, so among such names the canonical identifier tells
    tunnels and ports apart. *)
Theorem safe_names_kept (n1 n2 : string) (p1 p2 : Z) :
  unit_safe n1 -> unit_safe n2 ->
  _sanitize_unit_part (Some n1) = n1
  /\ (_get_service_name (named (PyStr n1)) p1
      = _get_service_name (named (PyStr n2)) p2 ->
      n1 = n2 /\ p1 = p2).
Proof.
  intros S1 S2. split; [now apply safe_fixed|].
  unfold _get_service_name, named, name_arg. cbn [name getattr_str].
  rewrite (safe_fixed n1 S1), (safe_fixed n2 S2). intros H.
  apply append_inv_head in H.
  rewrite <- !append_assoc in H. apply append_inv_tail in H.
  rewrite !append_assoc in H.
  apply (joined_unique n1 n2 p1 p2); [apply S1|apply S2|exact H].
Qed.

Lemma safe_names_kept_witness :
  unit_safe "vpn_eu-1"
  /\ _sanitize_unit_part (Some "vpn_eu-1") = "vpn_eu-1"
  /\ "vpn_eu-1" = "vpn_eu-1" /\ 443 = 443.
Proof.
  assert (S : unit_safe "vpn_eu-1") by (split; reflexivity).
  split; [exact S|].
  destruct (safe_names_kept "vpn_eu-1" "vpn_eu-1" 443 443 S S) as [K I].
  split; [exact K|]. apply I. reflexivity.
Defined.

Lemma split_comma_no_comma (s : string) :
  Forall (fun p => Py.all_chars not_comma p = true) (Py.split_comma s).
Proof.
  induction s as [|c r IH]; [repeat constructor|].
  cbn [Py.split_comma]. destruct (Py.is_char "," c) eqn:E.
  - constructor; [reflexivity|exact IH].
  - destruct (Py.split_comma r) as [|p ps].
    + repeat constructor. cbn [Py.all_chars]. unfold not_comma. now rewrite E.
    + inversion IH as [|? ? Hp Hps]; subst. constructor; [|exact Hps].
      cbn [Py.all_chars]. unfold not_comma at 1. now rewrite E, Hp.
Qed.

(** X5: every token of a batch is non-empty, has no blank at either end
    and holds no comma, whatever the input. *)
Theorem port_tokens_trimmed (ports_str : string) :
  Forall (fun t => Py.is_empty t = false
                   /\ Py.strip t = t
                   /\ Py.all_chars not_comma t = true)
    (port_tokens ports_str).
Proof.
  unfold port_tokens.
  pose proof (split_comma_no_comma ports_str) as H.
  induction H as [|p ps Hp _ IH]; [constructor|].
  cbn [map filter]. destruct (Py.is_empty (Py.strip p)) eqn:E; cbn [negb];
    [exact IH|].
  constructor; [|exact IH]. split; [exact E|]. split.
  - unfold Py.strip. apply strip_with_idem.
  - unfold Py.strip, Py.strip_with. now apply all_chars_rstrip, all_chars_lstrip.
Qed.

Section MoreRuns.

Context {W : Type} {host : Host W}.


(** X7: [create_forward] changes declared state exactly when it returns
    success, and then only by adding the port; the one file it ever writes
    is the canonical unit file of the port, with the text rendered from the
    current configuration. *)
Theorem create_declares_on_success (port : Z) (st : state W) :
  let out := create_forward port st in
  config (snd out)
  = (if succeeded (fst out) then add_port port (config st) else config st)
  /\ exists delta,
       log (snd out) = (log st ++ delta)%list
       /\ existsb is_declaration delta = succeeded (fst out)
       /\ (forall e, In e delta -> is_declaration e = true -> e = EAddPort port)
       /\ (forall p c, In (EWrite p c) delta ->
           p = _get_service_path (config st) port
           /\ c = unit_text (config st) port).
Proof.
  cbv zeta. split; [apply create_config|].
  destruct (create_cases port st)
    as [[_ E]|[(_ & e & _ & E)|(_ & _ & msg & w & [E|[E|E]])]];
    rewrite E; cbn [fst snd log succeeded].
  - exists []. rewrite List.app_nil_r. repeat split; intros; contradiction.
  - exists []. rewrite List.app_nil_r. repeat split; intros; contradiction.
  - eexists. split; [reflexivity|]. destruct (probed _);
      (split; [reflexivity|]); split; intros; event_cases.
  - eexists. split; [reflexivity|]. destruct (probed _);
      (split; [reflexivity|]); split; intros; event_cases.
  - eexists. split; [reflexivity|]. destruct (probed _);
      (split; [reflexivity|]); split; intros; event_cases.
Qed.

Lemma declared_refl (port : Z) (ports : list Z) :
  In port ports -> existsb (Z.eqb port) ports = true.
Proof.
  intros H. apply existsb_exists. exists port. split; [exact H|apply Z.eqb_refl].
Qed.

Lemma for_each_invariant {A : Type} (I : state W -> Prop)
    (body : A -> list string -> M W (list string)) (xs : list A) :
  (forall x results st, In x xs -> I st -> I (snd (body x results st))) ->
  forall results st, I st -> I (snd (for_each xs body results st)).
Proof.
  induction xs as [|x rest IH]; intros Hbody results st Hst; [exact Hst|].
  cbn [for_each]. unfold bind.
  pose proof (Hbody x results st (or_introl eq_refl) Hst) as H1.
  destruct (body x results st) as [[results'|e] st1]; cbn [snd] in H1;
    [|exact H1].
  apply IH; [|exact H1]. intros y r s Hy. apply Hbody. now right.
Qed.

Lemma recreate_config (port : Z) (st1 : state W)
    (k : bool * string -> M W (list string)) :
  existsb (Z.eqb port) (forwarded_ports (config st1)) = true ->
  (forall r s, snd (k r s) = s) ->
  config (snd (bind (create_forward port) k st1)) = config st1.
Proof.
  intros Hd Hk. unfold bind. pose proof (create_config port st1) as Hc.
  destruct (create_forward port st1) as [[[[] msg]|e] st2];
    cbn [fst snd succeeded] in *; rewrite ?Hk, Hc;
    [now apply add_port_declared|reflexivity|reflexivity].
Qed.

Lemma start_body_config (port : Z) (results : list string) (st : state W) :
  existsb (Z.eqb port) (forwarded_ports (config st)) = true ->
  config (snd (start_body port results st)) = config st.
Proof.
  intros Hd. destruct (migrate_effects port st) as (Hc & _ & _ & _).
  unfold start_body. unfold bind at 1.
  destruct (_migrate_legacy_unit port st) as [[u|e] st1]; cbn [snd] in Hc;
    [|exact Hc].
  rewrite <- Hc in Hd |- *.
  unfold bind at 1, get_config. unfold bind at 1, exists_.
  destruct (path_exists _ _) as [[|]|e]; cbn [negb]; [| |reflexivity].
  - unfold bind, ret.
    pose proof (run_command_config
                  ("systemctl start " ++ _get_service_name (config st1) port) st1)
      as Hr.
    destruct (run_command _ st1) as [[[[] output]|e] st2]; cbn [snd] in *;
      congruence.
  - apply recreate_config; [exact Hd|]. intros [[] msg] s; reflexivity.
Qed.

Lemma restart_body_config (port : Z) (results : list string) (st : state W) :
  existsb (Z.eqb port) (forwarded_ports (config st)) = true ->
  config (snd (restart_body port results st)) = config st.
Proof.
  intros Hd. destruct (migrate_effects port st) as (Hc & _ & _ & _).
  unfold restart_body. unfold bind at 1.
  destruct (_migrate_legacy_unit port st) as [[u|e] st1]; cbn [snd] in Hc;
    [|exact Hc].
  rewrite <- Hc in Hd |- *.
  unfold bind at 1, get_config. unfold bind at 1, exists_.
  destruct (path_exists _ _) as [[|]|e]; cbn [negb]; [| |reflexivity].
  - destruct (truthy _); cbn [negb]; [|reflexivity].
    run_manager. host_step; run_manager; [reflexivity|].
    do 2 (host_step; run_manager). repeat outcome_step; reflexivity.
  - apply recreate_config; [exact Hd|]. intros [[] msg] s; reflexivity.
Qed.

Lemma stop_body_effects (port : Z) (results : list string) (st : state W) :
  let new_unit := _get_service_name (config st) port in
  let q1 := run_command ("systemctl stop " ++ new_unit) st in
  let q2 := run_command ("systemctl stop " ++ _legacy_service_name port) (snd q1) in
  stop_body port results st
  = (Return (if succeeded (fst q1)
             then append_line results
                    ("Port " ++ Py.str_int port ++ ": stopped (" ++ new_unit ++ ")")
             else results),
     snd q2)
  /\ config (snd q2) = config st
  /\ log (snd q2) = (log st ++ stop_events (config st) port)%list.
Proof.
  cbv zeta. unfold stop_body, stop_events. run_manager.
  repeat (first [outcome_step | host_step]; run_manager);
    rewrite <- !List.app_assoc; cbn [app succeeded]; repeat split.
Qed.

Lemma loop_keeps_config (body : Z -> list string -> M W (list string)) :
  (forall port results s,
      existsb (Z.eqb port) (forwarded_ports (config s)) = true ->
      config (snd (body port results s)) = config s) ->
  forall st,
    config (snd (for_each (forwarded_ports (config st)) body [] st)) = config st.
Proof.
  intros Hbody st.
  apply (for_each_invariant (fun s => config s = config st)); [|reflexivity].
  intros x results s Hx Hs. cbn beta in *. rewrite <- Hs. apply Hbody.
  rewrite Hs. now apply declared_refl.
Qed.

Lemma loop_state (body : Z -> list string -> M W (list string)) (st : state W) :
  snd ((cfg <- get_config ;;
        results <- for_each (forwarded_ports cfg) body [] ;;
        ret (transcript results)) st)
  = snd (for_each (forwarded_ports (config st)) body [] st).
Proof.
  unfold bind, get_config, ret.
  destruct (for_each _ body [] st) as [[r|e] s]; reflexivity.
Qed.

(** X8: starting, restarting and stopping all ports leave the
    configuration, and so the list of declared ports, as it was, whatever
    the host answers and also when a probe raises: the port a fallback
    [create_forward] declares is one that is declared already. *)
Theorem all_port_operations_keep_config (st : state W) :
  config (snd (start_all_forwards st)) = config st
  /\ config (snd (restart_all_forwards st)) = config st
  /\ config (snd (stop_all_forwards st)) = config st.
Proof.
  unfold start_all_forwards, restart_all_forwards, stop_all_forwards.
  rewrite !loop_state. split; [|split].
  - apply (loop_keeps_config start_body start_body_config).
  - apply (loop_keeps_config restart_body restart_body_config).
  - apply (loop_keeps_config stop_body). intros p r s _.
    destruct (stop_body_effects p r s) as (E & C & _). cbv zeta in E, C.
    rewrite E. exact C.
Qed.

Lemma stop_loop (xs : list Z) :
  forall (results : list string) (st : state W),
    fst (for_each xs stop_body results st)
    = Return (results ++ stopped_lines xs st)%list
    /\ config (snd (for_each xs stop_body results st)) = config st
    /\ log (snd (for_each xs stop_body results st))
       = (log st ++ flat_map (stop_events (config st)) xs)%list.
Proof.
  induction xs as [|x rest IH]; intros results st.
  - cbn [for_each flat_map stopped_lines]. unfold ret. cbn [fst snd].
    rewrite !List.app_nil_r. repeat split.
  - cbn [for_each flat_map stopped_lines].
    destruct (stop_body_effects x results st) as (E & Hc & Hl). cbv zeta in E, Hc, Hl.
    erewrite bind_eq by exact E.
    destruct (run_command ("systemctl stop " ++ _get_service_name (config st) x) st)
      as [r1 st1].
    cbn [fst snd] in *.
    set (st2 := snd (run_command ("systemctl stop " ++ _legacy_service_name x) st1))
      in *.
    destruct (IH (if succeeded r1
                  then append_line results
                         ("Port " ++ Py.str_int x ++ ": stopped ("
                            ++ _get_service_name (config st) x ++ ")")
                  else results) st2) as (Hf' & Hc' & Hl').
    rewrite Hf', Hc', Hl', Hl, Hc, <- List.app_assoc.
    split; [|split; reflexivity].
    destruct (succeeded r1); [|reflexivity].
    unfold append_line. now rewrite <- List.app_assoc.
Qed.

Lemma stopped_lines_bound (xs : list Z) :
  forall st : state W,
    (length (stopped_lines xs st) <= length xs)%nat
    /\ Forall (fun line =>
                 exists port, In port xs
                   /\ line = "Port " ++ Py.str_int port ++ ": stopped ("
                               ++ _get_service_name (config st) port ++ ")")
         (stopped_lines xs st).
Proof.
  induction xs as [|x rest IH]; intros st; [split; [reflexivity|constructor]|].
  cbn [stopped_lines length].
  pose proof (run_command_config
                ("systemctl stop " ++ _get_service_name (config st) x) st) as C1.
  destruct (run_command ("systemctl stop " ++ _get_service_name (config st) x) st)
    as [r1 st1]. cbn [snd] in C1.
  pose proof (run_command_config
                ("systemctl stop " ++ _legacy_service_name x) st1) as C2.
  set (st2 := snd (run_command ("systemctl stop " ++ _legacy_service_name x) st1))
    in *.
  destruct (IH st2) as [Hn Hf]. rewrite C2, C1 in Hf.
  assert (Hf' : Forall (fun line =>
                 exists port, In port (x :: rest)
                   /\ line = "Port " ++ Py.str_int port ++ ": stopped ("
                               ++ _get_service_name (config st) port ++ ")")
                  (stopped_lines rest st2)).
  { eapply Forall_impl; [|exact Hf]. intros line (p & Hp & ->).
    exists p. split; [now right|reflexivity]. }
  destruct (succeeded r1); cbn [length]; split; try lia; try exact Hf'.
  constructor; [|exact Hf']. exists x. split; [now left|reflexivity].
Qed.

(** X9: [stop_all_forwards] never raises and issues exactly two commands
    per declared port, the stop of the canonical unit and the stop of the
    legacy unit, in the order of the declared ports, and nothing else: no
    file is written or deleted and declared state is not touched.  Its
    transcript holds the line of a port exactly when the stop of the
    canonical unit of that port succeeded, in the order of the ports, so it
    never has more lines than there are declared ports and every line is
    that of a declared port. *)
Theorem stop_all_commands (st : state W) :
  let ports := forwarded_ports (config st) in
  log (snd (stop_all_forwards st))
  = (log st ++ flat_map (stop_events (config st)) ports)%list
  /\ fst (stop_all_forwards st) = Return (transcript (stopped_lines ports st))
  /\ (length (stopped_lines ports st) <= length ports)%nat
  /\ Forall (fun line =>
               exists port, In port ports
                 /\ line = "Port " ++ Py.str_int port ++ ": stopped ("
                             ++ _get_service_name (config st) port ++ ")")
       (stopped_lines ports st)
  /\ (forall port rest (s : state W),
        stopped_lines (port :: rest) s
        = let new_unit := _get_service_name (config s) port in
          let q1 := run_command ("systemctl stop " ++ new_unit) s in
          let q2 := run_command ("systemctl stop " ++ _legacy_service_name port)
                      (snd q1) in
          if succeeded (fst q1)
          then ("Port " ++ Py.str_int port ++ ": stopped (" ++ new_unit ++ ")")
                 :: stopped_lines rest (snd q2)
          else stopped_lines rest (snd q2)).
Proof.
  cbv zeta.
  destruct (stop_loop (forwarded_ports (config st)) [] st) as (Hf & _ & Hl).
  destruct (stopped_lines_bound (forwarded_ports (config st)) st) as [Hn Hb].
  unfold stop_all_forwards. rewrite loop_state.
  split; [exact Hl|]. split; [|split; [exact Hn|split; [exact Hb|]]].
  - unfold bind, get_config, ret.
    destruct (for_each _ stop_body [] st) as [r s]. cbn [fst] in Hf.
    now rewrite Hf.
  - intros port rest s. cbn [stopped_lines].
    destruct (run_command _ s) as [r1 s1]. reflexivity.
Qed.

Lemma list_body_queries (port : Z) (forwards : list forward_info) (st : state W) :
  config (snd (list_body port forwards st)) = config st
  /\ exists delta,
       log (snd (list_body port forwards st)) = (log st ++ delta)%list
       /\ Forall (fun e => In e (queries (config st) port)) delta
       /\ (2 <= length delta <= 3)%nat.
Proof.
  unfold list_body. run_manager.
  repeat (first [outcome_step | host_step]; run_manager);
    (split; [reflexivity|]); rewrite <- !List.app_assoc; cbn [app];
    eexists; (split; [reflexivity|]);
    (split; [repeat (apply Forall_cons; [unfold queries; cbn [In]; auto 6|]);
             apply Forall_nil
            |cbn [length]; lia]).
Qed.

Lemma list_loop_queries (ports : list Z) :
  forall (forwards : list forward_info) (st : state W),
    config (snd (list_loop ports forwards st)) = config st
    /\ exists delta,
         log (snd (list_loop ports forwards st)) = (log st ++ delta)%list
         /\ Forall (query_of (config st) ports) delta
         /\ (2 * length ports <= length delta <= 3 * length ports)%nat.
Proof.
  induction ports as [|port rest IH]; intros forwards st.
  - cbn [list_loop]. unfold ret. cbn [snd]. split; [reflexivity|].
    exists []. rewrite List.app_nil_r. split; [reflexivity|].
    split; [constructor|cbn [length]; lia].
  - cbn [list_loop]. unfold bind.
    destruct (list_body_queries port forwards st) as (Hc & d1 & Hl & Hq & Hn).
    destruct (list_body_listed port forwards st) as (record & st1' & E & _).
    rewrite E in *. cbn [snd] in *.
    destruct (IH (append_line forwards record) st1') as (Hc' & d2 & Hl' & Hq' & Hn').
    split; [congruence|]. exists (d1 ++ d2)%list.
    rewrite Hl', Hl, <- List.app_assoc. split; [reflexivity|]. split.
    + apply Forall_app. split.
      * eapply Forall_impl; [|exact Hq]. intros e He. exists port.
        split; [now left|exact He].
      * rewrite Hc in Hq'. eapply Forall_impl; [|exact Hq'].
        intros e (p & Hp & He). exists p. split; [now right|exact He].
    + rewrite List.length_app. cbn [length]. lia.
Qed.

(** X10: [list_forwards] only asks and never raises: every command it runs
    is the is-active or the is-enabled query of the canonical or of the
    legacy unit of a declared port, two or three of them for each port; it
    writes and deletes no file, and it leaves the configuration as it
    was. *)
Theorem list_forwards_only_queries (st : state W) :
  let ports := forwarded_ports (config st) in
  config (snd (list_forwards st)) = config st
  /\ (exists records, fst (list_forwards st) = Return records)
  /\ exists delta,
       log (snd (list_forwards st)) = (log st ++ delta)%list
       /\ Forall (query_of (config st) ports) delta
       /\ (2 * length ports <= length delta <= 3 * length ports)%nat.
Proof.
  cbv zeta. unfold list_forwards. unfold bind at 1 2 3, get_config.
  split; [apply list_loop_queries|]. split; [|apply list_loop_queries].
  destruct (list_loop_listed (forwarded_ports (config st)) [] st)
    as (records & st' & E & _).
  exists records. now rewrite E.
Qed.

Lemma filter_filter {A : Type} (f g : A -> bool) (l : list A) :
  filter f (filter g l) = filter (fun x => (g x && f x)%bool) l.
Proof.
  induction l as [|x r IH]; [reflexivity|].
  cbn [filter]. destruct (g x); cbn [filter andb]; [|exact IH].
  destruct (f x); now rewrite IH.
Qed.

Lemma filter_all {A : Type} (l : list A) : filter (fun _ => true) l = l.
Proof. induction l as [|x r IH]; [reflexivity|]. cbn [filter]. now rewrite IH. Qed.

Lemma remove_returns (port : Z) (st : state W) :
  probes_answer -> exists r, fst (remove_forward port st) = Return r.
Proof.
  intros Ha. pose proof (remove_forward_course port st) as C. cbv zeta in C.
  rewrite C.
  destruct (Ha (_get_service_path (config st) port) (world (after_stops port st)))
    as [a ->].
  match goal with
  | |- context [path_exists ?p ?w] => destruct (Ha p w) as [b ->]
  end.
  eexists. reflexivity.
Qed.

Lemma remove_forward_success (port : Z) (st st1 : state W) (success : bool)
    (msg : string) :
  remove_forward port st = (Return (success, msg), st1) -> success = true.
Proof.
  pose proof (remove_forward_course port st) as C. cbv zeta in C. rewrite C.
  destruct (path_exists _ _); [|discriminate].
  destruct (path_exists _ _); [|discriminate].
  intros E. injection E. intros. congruence.
Qed.

Lemma remove_loop (toks : list string) :
  forall (results : list string) (st : state W),
    let out := for_each toks (batch_body remove_forward) results st in
    forwarded_ports (config (snd out))
    = filter (fun p => negb (existsb (Z.eqb p) (removed_ports toks st)))
        (forwarded_ports (config st))
    /\ (exists rest, parsed_ports toks = (removed_ports toks st ++ rest)%list)
    /\ (forall r, fst out = Return r -> removed_ports toks st = parsed_ports toks)
    /\ (probes_answer -> exists r, fst out = Return r).
Proof.
  induction toks as [|tok rest IH]; intros results st; cbv zeta.
  - cbn [for_each parsed_ports removed_ports flat_map existsb negb]. unfold ret.
    cbn [fst snd]. rewrite filter_all. split; [reflexivity|].
    split; [now exists []|]. split; [reflexivity|]. intros _. now eexists.
  - cbn [for_each removed_ports]. unfold parsed_ports. cbn [flat_map].
    fold (parsed_ports rest). unfold bind.
    destruct (Py.int tok) as [q|] eqn:E.
    + rewrite (batch_body_port _ _ _ _ _ E).
      pose proof (remove_forward_config q st) as Hc.
      pose proof (remove_no_ValueError q st) as Hv.
      pose proof (remove_returns q st) as Hr.
      destruct (remove_forward q st) as [[[success msg]|[e|]] st1] eqn:Er;
        cbn [fst snd succeeded] in *; [| |congruence].
      * specialize (IH (append_line results ("Port " ++ Py.str_int q ++ ": " ++ msg))
                       st1). cbv zeta in IH.
        destruct IH as (Hf & (more & Hp) & Hd & Ht).
        pose proof (remove_forward_success q st st1 success msg Er) as S.
        subst success. rewrite Hf, Hc. unfold remove_port. cbn [forwarded_ports].
        split; [|split; [|split]].
        -- rewrite filter_filter. apply List.filter_ext. intros p.
           cbn [existsb]. rewrite (Z.eqb_sym q p), negb_orb. reflexivity.
        -- exists more. cbn [app]. now rewrite Hp.
        -- intros r Hr'. cbn [app]. now rewrite (Hd r Hr').
        -- exact Ht.
      * split; [|split; [|split]].
        -- cbn [existsb negb]. rewrite filter_all. now rewrite Hc.
        -- eexists. reflexivity.
        -- discriminate.
        -- intros Ha. destruct (Hr Ha) as [r [=]].
    + rewrite (batch_body_invalid _ _ _ _ E). cbn [app].
      apply (IH (append_line results ("Port '" ++ tok ++ "': Invalid port number")) st).
Qed.

(** X11: [remove_multiple_forwards] takes out of declared state the ports
    it has removed when it ends, and leaves the others declared in their old
    order: when it returns these are all the ports its tokens parse to
    (tokens that do not parse remove nothing); when a probe raises they are
    the ports parsed before the port at which it raised.  On a host whose
    probes always answer it returns. *)
Theorem remove_many_undeclares_parsed (ports_str : string) (st : state W) :
  let toks := port_tokens ports_str in
  let out := remove_multiple_forwards ports_str st in
  forwarded_ports (config (snd out))
  = filter (fun p => negb (existsb (Z.eqb p) (removed_ports toks st)))
      (forwarded_ports (config st))
  /\ (exists rest, parsed_ports toks = (removed_ports toks st ++ rest)%list)
  /\ (forall r, fst out = Return r ->
        forwarded_ports (config (snd out))
        = filter (fun p => negb (existsb (Z.eqb p) (parsed_ports toks)))
            (forwarded_ports (config st)))
  /\ (probes_answer -> exists text, fst out = Return (true, text))
  /\ (forall tok rest (s : state W),
        removed_ports (tok :: rest) s
        = match Py.int tok with
          | None => removed_ports rest s
          | Some port =>
              match remove_forward port s with
              | (Return _, s1) => port :: removed_ports rest s1
              | (Throw _, _) => []
              end
          end).
Proof.
  cbv zeta.
  destruct (remove_loop (port_tokens ports_str) [] st) as (Hf & Hp & Hd & Ht).
  cbv zeta in Hf, Hd, Ht.
  unfold remove_multiple_forwards, bind, ret.
  destruct (for_each _ _ [] st) as [[r|e] st']; cbn [fst snd] in *.
  - split; [exact Hf|]. split; [exact Hp|]. split; [|split].
    + intros _ _. now rewrite Hf, (Hd r eq_refl).
    + intros _. now eexists.
    + reflexivity.
  - split; [exact Hf|]. split; [exact Hp|]. split; [discriminate|split].
    + intros Ha. destruct (Ht Ha) as [r [=]].
    + reflexivity.
Qed.

Lemma create_loop_unconfigured (toks : list string) :
  forall (results : list string) (st : state W),
    truthy (remote_forward_ip (config st)) = false ->
    for_each toks (batch_body create_forward) results st
    = (Return (results ++ map unconfigured_line toks)%list, st).
Proof.
  induction toks as [|tok rest IH]; intros results st H.
  - cbn [for_each map]. unfold ret. now rewrite List.app_nil_r.
  - cbn [for_each map]. unfold unconfigured_line at 1.
    destruct (Py.int tok) as [q|] eqn:E.
    + erewrite bind_eq
        by (rewrite (batch_body_port _ _ _ _ _ E), (create_unconfigured q st H);
            reflexivity).
      rewrite (IH _ st H). unfold append_line.
      now rewrite <- List.app_assoc.
    + erewrite bind_eq by (apply batch_body_invalid; exact E).
      rewrite (IH _ st H). unfold append_line.
      now rewrite <- List.app_assoc.
Qed.

(** X12: with no remote endpoint configured [add_multiple_forwards] changes
    nothing, neither the host nor declared state nor the log, and answers
    every token that [int] accepts with the configuration error of its port
    and every other token, one of more than 4300 digits included, with the
    invalid-port line. *)
Theorem add_many_unconfigured (ports_str : string) (st : state W) :
  truthy (remote_forward_ip (config st)) = false ->
  add_multiple_forwards ports_str st
  = (Return (true, Py.join nl (map unconfigured_line (port_tokens ports_str))),
     st)
  /\ (forall tok port, Py.int tok = Some port ->
        unconfigured_line tok
        = "Port " ++ Py.str_int port ++ ": Remote forward IP not configured")
  /\ (forall tok, Py.int tok = None ->
        unconfigured_line tok = "Port '" ++ tok ++ "': Invalid port number")
  /\ (forall tok, (Py.int_max_str_digits < Py.count_digits tok)%N ->
        unconfigured_line tok = "Port '" ++ tok ++ "': Invalid port number").
Proof.
  intros H. split; [|split; [|split]].
  - unfold add_multiple_forwards, bind, ret.
    now rewrite (create_loop_unconfigured _ [] st H).
  - intros tok port E. unfold unconfigured_line. now rewrite E.
  - intros tok E. unfold unconfigured_line. now rewrite E.
  - intros tok E. unfold unconfigured_line. now rewrite (int_over_cap tok E).
Qed.

End MoreRuns.

(** ** More runs on the in-memory machine *)

Lemma sim_start (u : string) (st : state Sim.machine) :
  Sim.has_file (Sim.unit_path u) (world st) = true ->
  run_command ("systemctl start " ++ u) st
  = (Return (true, ""),
     mkState (Sim.set_active u true (world st)) (config st)
       (log st ++ [ERun ("systemctl start " ++ u)])).
Proof.
  intros H. unfold run_command. cbn [subprocess_run Sim.host]. unfold Sim.run.
  change (Sim.parse_cmd ("systemctl start " ++ u)) with (Sim.Start u).
  cbn [Sim.systemctl]. rewrite H. reflexivity.
Qed.

Lemma sim_restart (u : string) (st : state Sim.machine) :
  Sim.has_file (Sim.unit_path u) (world st) = true ->
  run_command ("systemctl restart " ++ u) st
  = (Return (true, ""),
     mkState (Sim.set_active u true (world st)) (config st)
       (log st ++ [ERun ("systemctl restart " ++ u)])).
Proof.
  intros H. unfold run_command. cbn [subprocess_run Sim.host]. unfold Sim.run.
  change (Sim.parse_cmd ("systemctl restart " ++ u)) with (Sim.Restart u).
  cbn [Sim.systemctl]. rewrite H. reflexivity.
Qed.

Lemma sim_is_active (u : string) (st : state Sim.machine) :
  run_command ("systemctl is-active " ++ u) st
  = (Return (Sim.active (world st) u,
             if Sim.active (world st) u then "active" else "inactive"),
     mkState (world st) (config st)
       (log st ++ [ERun ("systemctl is-active " ++ u)])).
Proof.
  unfold run_command. cbn [subprocess_run Sim.host]. unfold Sim.run.
  change (Sim.parse_cmd ("systemctl is-active " ++ u)) with (Sim.IsActive u).
  cbn [Sim.systemctl]. destruct (Sim.active (world st) u); reflexivity.
Qed.

Lemma sim_is_enabled (u : string) (st : state Sim.machine) :
  Sim.enabled (world st) u = true ->
  run_command ("systemctl is-enabled " ++ u) st
  = (Return (true, "enabled"),
     mkState (world st) (config st)
       (log st ++ [ERun ("systemctl is-enabled " ++ u)])).
Proof.
  intros H. unfold run_command. cbn [subprocess_run Sim.host]. unfold Sim.run.
  change (Sim.parse_cmd ("systemctl is-enabled " ++ u)) with (Sim.IsEnabled u).
  cbn [Sim.systemctl]. rewrite H. reflexivity.
Qed.

Lemma sim_create_legacy (port : Z) (m : Sim.machine) (cfg : Config)
    (lg : list event) :
  truthy (remote_forward_ip cfg) = true ->
  Sim.has_file (_legacy_service_path port) m = true ->
  Sim.locked m (_legacy_service_path port) = false ->
  Sim.locked m (_get_service_path cfg port) = false ->
  create_forward port (mkState m cfg lg)
  = (Return (true, created_message cfg port),
     mkState (provisioned cfg port (decommissioned port m)) (add_port port cfg)
       (lg ++ migration_events port ++ creation_events cfg port)).
Proof.
  intros Hr Hf Hll Hcl. unfold create_forward.
  erewrite bind_eq by reflexivity. cbn [config]. rewrite Hr. cbn [negb].
  erewrite bind_eq by (apply sim_migrate; assumption).
  erewrite bind_eq by (apply sim_write; exact Hcl). cbv beta iota.
  erewrite bind_eq by apply sim_reload.
  erewrite bind_eq
    by (apply sim_enable_now; cbn [world]; unfold Sim.has_file;
        cbn [Sim.files Sim.set_file];
        change (Sim.unit_path (_get_service_name cfg port))
          with (_get_service_path cfg port);
        now rewrite upd_same).
  cbv beta iota. cbn [negb]. unfold bind, config_add_port, ret, provisioned,
    creation_events, unit_text.
  cbn [world config log]. rewrite <- !List.app_assoc. reflexivity.
Qed.

(** What the legacy migration leaves of a machine. *)
Lemma sim_create_any (port : Z) (m : Sim.machine) (cfg : Config)
    (lg : list event) :
  truthy (remote_forward_ip cfg) = true ->
  Sim.locked m (_legacy_service_path port) = false ->
  Sim.locked m (_get_service_path cfg port) = false ->
  exists m' delta,
    create_forward port (mkState m cfg lg)
    = (Return (true, created_message cfg port),
       mkState (provisioned cfg port m') (add_port port cfg) (lg ++ delta))
    /\ Sim.has_file (_legacy_service_path port) m' = false
    /\ Sim.locked m' = Sim.locked m.
Proof.
  intros Hr Hll Hcl.
  destruct (Sim.has_file (_legacy_service_path port) m) eqn:Hf.
  - exists (decommissioned port m), (migration_events port ++ creation_events cfg port)%list.
    split; [now apply sim_create_legacy|]. split; [|reflexivity].
    unfold Sim.has_file, decommissioned. cbn [Sim.files Sim.set_file].
    now rewrite upd_same.
  - exists m, (creation_events cfg port). split; [now apply sim_create|].
    split; [exact Hf|reflexivity].
Qed.

Lemma sim_stop_any (u : string) (m m' : Sim.machine) (r : completed) :
  Sim.run ("systemctl stop " ++ u) m = (r, m') ->
  Sim.active m' u = false
  /\ Sim.files m' = Sim.files m
  /\ Sim.locked m' = Sim.locked m
  /\ (forall v, Sim.active m v = false -> Sim.active m' v = false).
Proof.
  unfold Sim.run.
  change (Sim.parse_cmd ("systemctl stop " ++ u)) with (Sim.Stop u).
  cbn [Sim.systemctl].
  destruct (Sim.has_file (Sim.unit_path u) m || Sim.active m u)%bool eqn:E;
    intros [= <- <-].
  - cbn [Sim.active Sim.files Sim.locked Sim.set_active].
    rewrite upd_same. repeat split. intros v Hv. unfold Sim.upd.
    destruct (String.eqb u v); [reflexivity|exact Hv].
  - apply orb_false_iff in E as [_ E]. repeat split; auto.
Qed.

Lemma sim_disable_any (u : string) (m m' : Sim.machine) (r : completed) :
  Sim.run ("systemctl disable " ++ u) m = (r, m') ->
  Sim.active m' = Sim.active m
  /\ Sim.files m' = Sim.files m
  /\ Sim.locked m' = Sim.locked m.
Proof.
  unfold Sim.run.
  change (Sim.parse_cmd ("systemctl disable " ++ u)) with (Sim.Disable u).
  cbn [Sim.systemctl].
  destruct (Sim.has_file (Sim.unit_path u) m); intros [= <- <-];
    repeat split.
Qed.

Lemma sim_unlink_any (p : string) (m m' : Sim.machine) (r : bool) :
  Sim.unlink p m = (r, m') ->
  Sim.locked m p = false ->
  Sim.has_file p m' = false
  /\ Sim.active m' = Sim.active m
  /\ Sim.locked m' = Sim.locked m
  /\ (forall q, Sim.has_file q m = false -> Sim.has_file q m' = false).
Proof.
  unfold Sim.unlink. intros E Hl. rewrite Hl in E. cbn [orb] in E.
  destruct (Sim.has_file p m) eqn:Hf; cbn [negb] in E; injection E as <- <-.
  - unfold Sim.has_file. cbn [Sim.files Sim.active Sim.locked Sim.set_file].
    rewrite upd_same. repeat split. intros q Hq. unfold Sim.upd.
    destruct (String.eqb p q); [reflexivity|exact Hq].
  - repeat split; auto.
Qed.

Lemma sim_run_reload (m : Sim.machine) :
  Sim.run "systemctl daemon-reload" m = (Sim.ok, m).
Proof. reflexivity. Qed.

Lemma has_file_files (p : string) (m m' : Sim.machine) :
  Sim.files m' = Sim.files m -> Sim.has_file p m' = Sim.has_file p m.
Proof. unfold Sim.has_file. now intros ->. Qed.

(** On a machine whose unit directory lets the two unit files of a port be
    deleted, [remove_forward] leaves neither file and neither unit running. *)
Lemma sim_remove_outcome (port : Z) (m : Sim.machine) (cfg : Config)
    (lg : list event) :
  Sim.locked m (_get_service_path cfg port) = false ->
  Sim.locked m (_legacy_service_path port) = false ->
  let m' := world (snd (remove_forward port (mkState m cfg lg))) in
  Sim.has_file (_get_service_path cfg port) m' = false
  /\ Sim.has_file (_legacy_service_path port) m' = false
  /\ Sim.active m' (_get_service_name cfg port) = false
  /\ Sim.active m' (_legacy_service_name port) = false.
Proof.
  intros Hc Hl. cbv zeta. unfold remove_forward. sim_manager.
  destruct (Sim.run ("systemctl stop " ++ _get_service_name cfg port) m)
    as [r1 m1] eqn:E1. sim_manager.
  destruct (Sim.run ("systemctl disable " ++ _get_service_name cfg port) m1)
    as [r2 m2] eqn:E2. sim_manager.
  destruct (Sim.run ("systemctl stop " ++ _legacy_service_name port) m2)
    as [r3 m3] eqn:E3. sim_manager.
  destruct (Sim.run ("systemctl disable " ++ _legacy_service_name port) m3)
    as [r4 m4] eqn:E4. sim_manager.
  apply sim_stop_any in E1 as (A1 & F1 & L1 & _).
  apply sim_disable_any in E2 as (A2 & F2 & L2).
  apply sim_stop_any in E3 as (A3 & F3 & L3 & K3).
  apply sim_disable_any in E4 as (A4 & F4 & L4).
  assert (Ac : Sim.active m4 (_get_service_name cfg port) = false)
    by (rewrite A4; apply K3; now rewrite A2).
  assert (Al : Sim.active m4 (_legacy_service_name port) = false)
    by (now rewrite A4).
  assert (Lc : Sim.locked m4 (_get_service_path cfg port) = false)
    by (now rewrite L4, L3, L2, L1).
  assert (Ll : Sim.locked m4 (_legacy_service_path port) = false)
    by (now rewrite L4, L3, L2, L1).
  clear A1 A2 A3 A4 K3 F1 F2 F3 F4 L1 L2 L3 L4 Hc Hl.
  destruct (Sim.has_file (_get_service_path cfg port) m4) eqn:Xc; sim_manager.
  - destruct (Sim.unlink (_get_service_path cfg port) m4) as [u5 m5] eqn:E5.
    sim_manager.
    apply sim_unlink_any in E5 as (G5 & A5 & L5 & K5); [|exact Lc].
    destruct (Sim.has_file (_legacy_service_path port) m5) eqn:Xl; sim_manager.
    + destruct (Sim.unlink (_legacy_service_path port) m5) as [u6 m6] eqn:E6.
      sim_manager.
      apply sim_unlink_any in E6 as (G6 & A6 & L6 & K6); [|now rewrite L5].
      rewrite sim_run_reload. sim_manager. rewrite A6, A5. auto.
    + rewrite sim_run_reload. sim_manager. rewrite A5. auto.
  - destruct (Sim.has_file (_legacy_service_path port) m4) eqn:Xl; sim_manager.
    + destruct (Sim.unlink (_legacy_service_path port) m4) as [u6 m6] eqn:E6.
      sim_manager.
      apply sim_unlink_any in E6 as (G6 & A6 & L6 & K6); [|exact Ll].
      rewrite sim_run_reload. sim_manager. rewrite A6. auto.
    + rewrite sim_run_reload. sim_manager. auto.
Qed.

Lemma add_port_declares (port : Z) (cfg : Config) :
  existsb (Z.eqb port) (forwarded_ports (add_port port cfg)) = true.
Proof.
  unfold add_port. cbn [forwarded_ports].
  destruct (existsb (Z.eqb port) (forwarded_ports cfg)) eqn:E; [exact E|].
  rewrite List.existsb_app. cbn [existsb]. rewrite Z.eqb_refl.
  now rewrite orb_true_r.
Qed.

Lemma sim_remove_returns (port : Z) (st : state Sim.machine) :
  fst (remove_forward port st)
  = Return (true, "Port forward for " ++ Py.str_int port ++ " removed").
Proof.
  pose proof (remove_forward_course port st) as C. cbv zeta in C. rewrite C.
  reflexivity.
Qed.

(** X13: on the in-memory machine with the remote endpoint configured and
    the unit directory writable, [create_forward] succeeds, and called again
    it gives the same answer, the same unit file text and the same declared
    ports, with the unit running; [remove_forward] after that leaves no unit
    file under either name, the unit stopped and the port undeclared. *)
Theorem create_twice_then_remove (port : Z) (m : Sim.machine) (cfg : Config)
    (lg : list event) :
  truthy (remote_forward_ip cfg) = true ->
  Sim.locked m (_legacy_service_path port) = false ->
  Sim.locked m (_get_service_path cfg port) = false ->
  let out1 := create_forward port (mkState m cfg lg) in
  let out2 := create_forward port (snd out1) in
  let out3 := remove_forward port (snd out2) in
  succeeded (fst out1) = true
  /\ fst out2 = fst out1
  /\ Sim.files (world (snd out1)) (_get_service_path cfg port)
     = Some (unit_text cfg port)
  /\ Sim.files (world (snd out2)) (_get_service_path cfg port)
     = Some (unit_text cfg port)
  /\ Sim.active (world (snd out2)) (_get_service_name cfg port) = true
  /\ config (snd out2) = config (snd out1)
  /\ Sim.has_file (_get_service_path cfg port) (world (snd out3)) = false
  /\ Sim.has_file (_legacy_service_path port) (world (snd out3)) = false
  /\ Sim.active (world (snd out3)) (_get_service_name cfg port) = false
  /\ existsb (Z.eqb port) (forwarded_ports (config (snd out3))) = false.
Proof.
  intros Hr Hll Hcl. cbv zeta.
  destruct (sim_create_any port m cfg lg Hr Hll Hcl) as (m' & d & E1 & Hf & Hk).
  rewrite E1. cbn [fst snd].
  assert (Hp : _get_service_path cfg port <> _legacy_service_path port)
    by apply canonical_path_not_legacy.
  assert (E2 : create_forward port
                 (mkState (provisioned cfg port m') (add_port port cfg) (lg ++ d))
               = (Return (true, created_message cfg port),
                  mkState (provisioned cfg port (provisioned cfg port m'))
                    (add_port port cfg)
                    ((lg ++ d) ++ creation_events cfg port))).
  { rewrite (sim_create port (provisioned cfg port m') (add_port port cfg)).
    - rewrite (add_port_declared port (add_port port cfg))
        by apply add_port_declares.
      reflexivity.
    - exact Hr.
    - unfold Sim.has_file, provisioned. cbn [Sim.files Sim.set_active Sim.set_enabled Sim.set_file].
      rewrite (upd_other _ _ _ _ Hp). exact Hf.
    - cbn [Sim.locked provisioned Sim.set_active Sim.set_enabled Sim.set_file].
      unfold provisioned. cbn [Sim.locked Sim.set_active Sim.set_enabled Sim.set_file].
      now rewrite Hk. }
  rewrite E2. cbn [fst snd world config].
  pose proof (sim_remove_outcome port (provisioned cfg port (provisioned cfg port m'))
                (add_port port cfg) ((lg ++ d) ++ creation_events cfg port)) as R.
  cbv zeta in R.
  assert (Lk : forall p, Sim.locked (provisioned cfg port (provisioned cfg port m')) p
                         = Sim.locked m p).
  { intros p. unfold provisioned.
    cbn [Sim.locked Sim.set_active Sim.set_enabled Sim.set_file]. now rewrite Hk. }
  specialize (R (eq_trans (Lk _) Hcl) (eq_trans (Lk _) Hll)).
  destruct R as (R1 & R2 & R3 & _).
  split; [reflexivity|]. split; [reflexivity|].
  split; [unfold provisioned;
          cbn [Sim.files Sim.set_active Sim.set_enabled Sim.set_file];
          apply upd_same|].
  split; [unfold provisioned;
          cbn [Sim.files Sim.set_active Sim.set_enabled Sim.set_file];
          apply upd_same|].
  split; [unfold provisioned;
          cbn [Sim.active Sim.set_active Sim.set_enabled Sim.set_file];
          apply upd_same|].
  split; [reflexivity|].
  split; [exact R1|]. split; [exact R2|]. split; [exact R3|].
  rewrite remove_forward_config, sim_remove_returns. cbn [succeeded].
  apply declared_after_remove.
Qed.

Lemma create_twice_then_remove_witness :
  let st := Sim.boot legacy_only (demo_config (PyStr "10.0.0.2") []) in
  let out := remove_forward 8080 (snd (create_forward 8080 (snd (create_forward 8080 st)))) in
  truthy (remote_forward_ip (config st)) = true
  /\ succeeded (fst (create_forward 8080 st)) = true
  /\ Sim.has_file (_get_service_path (config st) 8080) (world (snd out)) = false.
Proof.
  cbv zeta. split; [reflexivity|].
  destruct (create_twice_then_remove 8080 legacy_only
              (demo_config (PyStr "10.0.0.2") []) [] eq_refl eq_refl eq_refl)
    as (A & _ & _ & _ & _ & _ & B & _).
  split; [exact A|exact B].
Defined.

(** X14: on the in-memory machine, for a port whose canonical unit file
    exists (and no legacy file), a restart writes the unit file anew from the
    current configuration before it restarts the unit, whereas a start leaves
    the file as it is and only starts the unit; neither enables the unit nor
    touches declared state. *)
Theorem restart_rewrites_start_does_not (port : Z) (results : list string)
    (m : Sim.machine) (cfg : Config) (lg : list event) :
  truthy (remote_forward_ip cfg) = true ->
  Sim.has_file (_get_service_path cfg port) m = true ->
  Sim.has_file (_legacy_service_path port) m = false ->
  Sim.locked m (_get_service_path cfg port) = false ->
  let st := mkState m cfg lg in
  let unit_name := _get_service_name cfg port in
  let path := _get_service_path cfg port in
  restart_body port results st
  = (Return (append_line results ("Port " ++ Py.str_int port ++ ": restarted")),
     mkState (Sim.set_active unit_name true
                (Sim.set_file path (Some (unit_text cfg port)) m))
       cfg
       (lg ++ [EWrite path (unit_text cfg port);
               ERun "systemctl daemon-reload";
               ERun ("systemctl restart " ++ unit_name)]))
  /\ start_body port results st
     = (Return (append_line results ("Port " ++ Py.str_int port ++ ": started")),
        mkState (Sim.set_active unit_name true m) cfg
          (lg ++ [ERun ("systemctl start " ++ unit_name)]))
  /\ Sim.files (world (snd (restart_body port results st))) path
     = Some (unit_text cfg port)
  /\ Sim.files (world (snd (start_body port results st))) path = Sim.files m path
  /\ Sim.enabled (world (snd (restart_body port results st))) = Sim.enabled m
  /\ Sim.enabled (world (snd (start_body port results st))) = Sim.enabled m.
Proof.
  intros Hr Hc Hf Hl. cbv zeta.
  assert (R : restart_body port results (mkState m cfg lg)
    = (Return (append_line results ("Port " ++ Py.str_int port ++ ": restarted")),
       mkState (Sim.set_active (_get_service_name cfg port) true
                  (Sim.set_file (_get_service_path cfg port)
                     (Some (unit_text cfg port)) m))
         cfg
         (lg ++ [EWrite (_get_service_path cfg port) (unit_text cfg port);
                 ERun "systemctl daemon-reload";
                 ERun ("systemctl restart " ++ _get_service_name cfg port)]))).
  { unfold restart_body.
    erewrite bind_eq by (apply sim_migrate_absent; exact Hf).
    erewrite bind_eq by reflexivity. cbn [config].
    erewrite bind_eq by reflexivity. cbn [path_exists Sim.host world].
    rewrite Hc, Hr. cbn [negb].
    erewrite bind_eq by (apply sim_write; exact Hl). cbv beta iota.
    erewrite bind_eq by apply sim_reload.
    erewrite bind_eq
      by (apply sim_restart; cbn [world]; unfold Sim.has_file;
          cbn [Sim.files Sim.set_file];
          change (Sim.unit_path (_get_service_name cfg port))
            with (_get_service_path cfg port);
          now rewrite upd_same).
    cbv beta iota. unfold ret, unit_text. cbn [world config log].
    rewrite <- !List.app_assoc. reflexivity. }
  assert (S : start_body port results (mkState m cfg lg)
    = (Return (append_line results ("Port " ++ Py.str_int port ++ ": started")),
       mkState (Sim.set_active (_get_service_name cfg port) true m) cfg
         (lg ++ [ERun ("systemctl start " ++ _get_service_name cfg port)]))).
  { unfold start_body.
    erewrite bind_eq by (apply sim_migrate_absent; exact Hf).
    erewrite bind_eq by reflexivity. cbn [config].
    erewrite bind_eq by reflexivity. cbn [path_exists Sim.host world].
    rewrite Hc. cbn [negb].
    erewrite bind_eq by (apply sim_start; exact Hc).
    reflexivity. }
  rewrite R, S. cbn [snd world Sim.files Sim.enabled Sim.set_active Sim.set_file].
  rewrite upd_same. repeat split.
Qed.

Lemma restart_rewrites_start_does_not_witness :
  let m := Sim.install "vortexl2-fwd-tunnel-8080.service" "stale text" Sim.empty in
  let st := Sim.boot m configured in
  Sim.has_file (_get_service_path configured 8080) m = true
  /\ Sim.files (world (snd (restart_body 8080 [] st))) (_get_service_path configured 8080)
     = Some (unit_text configured 8080)
  /\ Sim.files (world (snd (start_body 8080 [] st))) (_get_service_path configured 8080)
     = Some "stale text".
Proof.
  cbv zeta. split; [reflexivity|].
  destruct (restart_rewrites_start_does_not 8080 []
              (Sim.install "vortexl2-fwd-tunnel-8080.service" "stale text" Sim.empty)
              configured [] eq_refl eq_refl eq_refl eq_refl)
    as (_ & _ & A & B & _).
  split; [exact A|]. exact (eq_trans B eq_refl).
Defined.

Lemma truthy_getattr (a : attr) (d : string) :
  truthy a = true -> getattr_str a d = a.
Proof. destruct a; [discriminate|reflexivity|reflexivity]. Qed.

(** X15: on the in-memory machine, a port that [create_forward] has just
    provisioned is listed as active and enabled with the configured remote
    endpoint; a port whose canonical unit is not running while its legacy
    unit is running and enabled is listed as active and enabled as well, from
    the legacy unit. *)
Theorem list_after_create (port : Z) (forwards : list forward_info)
    (m : Sim.machine) (cfg : Config) (lg : list event) :
  let shown :=
    append_line forwards
      (mkInfo port "active" "enabled"
         (format_attr (remote_forward_ip cfg) ++ ":" ++ Py.str_int port)) in
  truthy (remote_forward_ip cfg) = true ->
  (Sim.locked m (_legacy_service_path port) = false ->
   Sim.locked m (_get_service_path cfg port) = false ->
   fst (list_body port forwards (snd (create_forward port (mkState m cfg lg))))
   = Return shown)
  /\ (Sim.active m (_get_service_name cfg port) = false ->
      Sim.active m (_legacy_service_name port) = true ->
      Sim.enabled m (_legacy_service_name port) = true ->
      fst (list_body port forwards (mkState m cfg lg)) = Return shown).
Proof.
  cbv zeta. intros Hr. split.
  - intros Hll Hcl.
    destruct (sim_create_any port m cfg lg Hr Hll Hcl) as (m' & d & E & _ & _).
    rewrite E. cbn [snd]. unfold list_body.
    erewrite bind_eq by reflexivity. cbn [config].
    erewrite bind_eq by apply sim_is_active. cbn [world]. cbv beta iota.
    assert (A : Sim.active (provisioned cfg port m')
                  (_get_service_name (add_port port cfg) port) = true)
      by (unfold provisioned; cbn [Sim.active Sim.set_active]; apply upd_same).
    rewrite A.
    erewrite bind_eq by reflexivity. cbv beta iota.
    erewrite bind_eq
      by (apply sim_is_enabled; cbn [world]; unfold provisioned;
          cbn [Sim.enabled Sim.set_active Sim.set_enabled]; apply upd_same).
    cbv beta iota. unfold ret. cbn [fst remote_forward_ip add_port].
    now rewrite (truthy_getattr _ _ Hr).
  - intros Ac Al El. unfold list_body.
    erewrite bind_eq by reflexivity. cbn [config].
    erewrite bind_eq by apply sim_is_active. cbn [world]. cbv beta iota.
    rewrite Ac.
    erewrite bind_eq.
    2:{ erewrite bind_eq by apply sim_is_active. cbn [world]. cbv beta iota.
        rewrite Al. reflexivity. }
    cbv beta iota.
    erewrite bind_eq by (apply sim_is_enabled; exact El).
    cbv beta iota. unfold ret. cbn [fst].
    now rewrite (truthy_getattr _ _ Hr).
Qed.

Lemma list_after_create_witness :
  let st := Sim.boot legacy_only configured in
  truthy (remote_forward_ip configured) = true
  /\ fst (list_body 8080 [] st)
     = Return [mkInfo 8080 "active" "enabled" "10.0.0.2:8080"]
  /\ fst (list_body 8080 [] (snd (create_forward 8080 st)))
     = Return [mkInfo 8080 "active" "enabled" "10.0.0.2:8080"].
Proof.
  cbv zeta. split; [reflexivity|].
  destruct (list_after_create 8080 [] legacy_only configured [] eq_refl) as [A B].
  split; [exact (B eq_refl eq_refl eq_refl)|exact (A eq_refl eq_refl)].
Defined.

(** X16: the legacy migration does nothing at all when no legacy unit file
    exists and never changes the configuration; on the in-memory machine
    with a deletable legacy file it leaves that file gone and every canonical
    unit (file, running and enabled flags) as it was, so that a second
    migration is a no-op. *)
Theorem migration_spares_canonical {W : Type} {host : Host W} (port q : Z)
    (st : state W) (m : Sim.machine) (cfg : Config) (lg : list event) :
  config (snd (_migrate_legacy_unit port st)) = config st
  /\ (path_exists (_legacy_service_path port) (world st) = Answer false ->
      _migrate_legacy_unit port st = (Return tt, st))
  /\ (Sim.has_file (_legacy_service_path port) m = true ->
      Sim.locked m (_legacy_service_path port) = false ->
      let st1 := snd (_migrate_legacy_unit port (mkState m cfg lg)) in
      Sim.has_file (_legacy_service_path port) (world st1) = false
      /\ Sim.files (world st1) (_get_service_path cfg q)
         = Sim.files m (_get_service_path cfg q)
      /\ Sim.active (world st1) (_get_service_name cfg q)
         = Sim.active m (_get_service_name cfg q)
      /\ Sim.enabled (world st1) (_get_service_name cfg q)
         = Sim.enabled m (_get_service_name cfg q)
      /\ _migrate_legacy_unit port st1 = (Return tt, st1)).
Proof.
  destruct (migrate_effects port st) as (Hc & _ & Hn & _).
  split; [exact Hc|]. split.
  - intros E. rewrite (migrate_returns port st false E). f_equal.
    apply Hn. rewrite E. discriminate.
  - intros Hf Hl. cbv zeta. rewrite (sim_migrate port m cfg lg Hf Hl).
    cbn [snd world].
    assert (G : Sim.has_file (_legacy_service_path port) (decommissioned port m)
                = false).
    { unfold Sim.has_file, decommissioned. cbn [Sim.files Sim.set_file].
      now rewrite upd_same. }
    assert (Np : _legacy_service_path port <> _get_service_path cfg q).
    { intros E. symmetry in E. now apply canonical_path_vs_legacy in E. }
    assert (Nn : _legacy_service_name port <> _get_service_name cfg q).
    { intros E. symmetry in E. now apply canonical_name_vs_legacy in E. }
    split; [exact G|]. unfold decommissioned.
    cbn [Sim.files Sim.active Sim.enabled Sim.set_file Sim.set_active Sim.set_enabled].
    rewrite (upd_other _ _ _ _ Np), !(upd_other _ _ _ _ Nn).
    repeat split. apply sim_migrate_absent. exact G.
Qed.

Lemma migration_spares_canonical_witness :
  let st := Sim.boot legacy_only configured in
  Sim.has_file (_legacy_service_path 8080) legacy_only = true
  /\ Sim.has_file (_legacy_service_path 8080)
       (world (snd (_migrate_legacy_unit 8080 st))) = false
  /\ _migrate_legacy_unit 8080 (Sim.boot Sim.empty configured)
     = (Return tt, Sim.boot Sim.empty configured).
Proof.
  cbv zeta. split; [reflexivity|].
  destruct (migration_spares_canonical 8080 9090 (Sim.boot Sim.empty configured)
              legacy_only configured []) as (_ & N & S).
  destruct (S eq_refl eq_refl) as (G & _).
  split; [exact G|exact (N eq_refl)].
Defined.

(** X18: a unit file that cannot be written ends the operation on that
    port: [create_forward], once the probe of its migration has answered,
    answers with the failure and the text of the exception, and the restart
    of a port whose unit file the probe found reports it in the line of the
    port; in both cases no controller command follows the write and declared
    state is as before. *)
Theorem write_failure_is_final {W : Type} {host : Host W} (port : Z)
    (results : list string) (st : state W) (e : string) (w : W) (b : bool) :
  truthy (remote_forward_ip (config st)) = true ->
  path_exists (_legacy_service_path port) (world st) = Answer b ->
  let st1 := snd (_migrate_legacy_unit port st) in
  let path := _get_service_path (config st) port in
  let text := unit_text (config st) port in
  let failed := mkState w (config st) (log st1 ++ [EWrite path text]) in
  write_text path text (world st1) = (Some e, w) ->
  create_forward port st
  = (Return (false, "Failed to create service file: " ++ e), failed)
  /\ (path_exists path (world st1) = Answer true ->
      restart_body port results st
      = (Return (append_line results
                   ("Port " ++ Py.str_int port
                      ++ ": failed to write service file - " ++ e)),
         failed)).
Proof.
  intros Hr P. cbv zeta. destruct (migrate_effects port st) as (Hc & _ & _ & _).
  intros Hw. split.
  - unfold create_forward. unfold bind at 1, get_config. rewrite Hr. cbn [negb].
    rewrite (bind_eq _ _ _ _ _ (migrate_returns port st b P)).
    destruct (_migrate_legacy_unit port st) as [u st1]. cbn [snd] in *.
    unfold bind, write_file. fold (unit_text (config st) port).
    rewrite Hw. unfold emit, ret. now rewrite Hc.
  - intros He. unfold restart_body.
    rewrite (bind_eq _ _ _ _ _ (migrate_returns port st b P)).
    destruct (_migrate_legacy_unit port st) as [u st1]. cbn [snd] in *.
    unfold bind at 1, get_config. rewrite Hc.
    unfold bind at 1, exists_. rewrite He, Hr. cbn [negb].
    unfold bind, write_file. fold (unit_text (config st) port).
    rewrite Hw. unfold emit, ret. now rewrite Hc.
Qed.

Lemma write_failure_is_final_witness :
  let st := Sim.boot read_only_dir configured in
  truthy (remote_forward_ip (config st)) = true
  /\ path_exists (_legacy_service_path 8080) (world st) = Answer false
  /\ fst (create_forward 8080 st)
     = Return (false, "Failed to create service file: [Errno 13] Permission denied: "
                      ++ "'/etc/systemd/system/vortexl2-fwd-tunnel-8080.service'")
  /\ log (snd (create_forward 8080 st))
     = [EWrite (_get_service_path configured 8080) (unit_text configured 8080)].
Proof.
  cbv zeta. split; [reflexivity|]. split; [reflexivity|].
  assert (Hw : write_text (_get_service_path configured 8080)
                 (unit_text configured 8080) read_only_dir
               = (Some ("[Errno 13] Permission denied: "
                        ++ "'/etc/systemd/system/vortexl2-fwd-tunnel-8080.service'"),
                  read_only_dir))
    by (vm_compute; reflexivity).
  assert (P : path_exists (_legacy_service_path 8080)
                (world (Sim.boot read_only_dir configured)) = Answer false)
    by reflexivity.
  destruct (write_failure_is_final 8080 [] (Sim.boot read_only_dir configured)
              _ read_only_dir false eq_refl P Hw) as [C _].
  rewrite C. split; reflexivity.
Defined.


Lemma create_declares_on_success_witness :
  let st := Sim.boot read_only_dir configured in
  config (snd (create_forward 8080 st)) = configured.
Proof.
  cbv zeta.
  exact (proj1 (create_declares_on_success 8080 (Sim.boot read_only_dir configured))).
Defined.

Lemma add_many_unconfigured_witness :
  let st := Sim.boot legacy_only unconfigured in
  truthy (remote_forward_ip (config st)) = false
  /\ add_multiple_forwards "80, x" st
     = (Return (true, "Port 80: Remote forward IP not configured" ++ nl
                        ++ "Port 'x': Invalid port number"), st).
Proof.
  cbv zeta. split; [reflexivity|].
  exact (proj1 (add_many_unconfigured "80, x" (Sim.boot legacy_only unconfigured)
                  eq_refl)).
Defined.

Lemma sim_probes_answer : @probes_answer Sim.machine Sim.host.
Proof. intros path w. now eexists. Qed.


Lemma remove_many_undeclares_parsed_witness :
  let st := Sim.boot legacy_only (demo_config (PyStr "10.0.0.2") [80; 8080; 443]) in
  @probes_answer Sim.machine Sim.host
  /\ (exists text, fst (remove_multiple_forwards "8080, x, 80" st) = Return (true, text))
  /\ forwarded_ports (config (snd (remove_multiple_forwards "8080, x, 80" st)))
     = [443].
Proof.
  cbv zeta. split; [exact sim_probes_answer|].
  destruct (remove_many_undeclares_parsed "8080, x, 80"
              (Sim.boot legacy_only (demo_config (PyStr "10.0.0.2") [80; 8080; 443])))
    as (_ & _ & F & T & _).
  destruct (T sim_probes_answer) as [text E].
  split; [now exists text|]. rewrite (F _ E). reflexivity.
Defined.

(** ** Worked examples of the built-ins *)

Example sanitize_demo :
  _sanitize_unit_part (Some "  My Tunnel #1!  ") = "my-tunnel-1".
Proof. reflexivity. Qed.

Example sanitize_all_unsafe : _sanitize_unit_part (Some "!!!") = "tunnel".
Proof. reflexivity. Qed.

Example int_demo :
  map Py.int ["007"; "+5"; "-0"; "1_0"; "_1"; "1_"; "1__0"; ""; "-"; "1 2"; "0x10"]
  = [Some 7; Some 5; Some 0; Some 10; None; None; None; None; None; None; None].
Proof. reflexivity. Qed.

Example str_int_demo : map Py.str_int [0; -5; 8080] = ["0"; "-5"; "8080"].
Proof. reflexivity. Qed.

Example split_demo :
  map Py.split_comma [""; ","; "a,,b"] = [[""]; [""; ""]; ["a"; ""; "b"]].
Proof. reflexivity. Qed.

Example collapse_demo : Py.collapse_dashes "--a---b-" = "-a-b-".
Proof. reflexivity. Qed.
